(** * Finalize worker: pricing, validation and submission handling

    A shallow embedding of [src/index.js], the Cloudflare Worker that
    receives estimate requests, validates them, prices them and stores one
    record per request in Airtable.

    The worker is JavaScript, so the embedding starts with the part of the
    language the worker exercises: JSON-shaped values, truthiness, the
    conversions behind [+], [-], [*] and [>=], property lookup through
    [Object.prototype], exceptions.  Then come the platform pieces the worker
    calls ([RegExp.prototype.test] for one pattern, the [URL] constructor),
    and finally the worker's own functions, under the names they have in the
    source. *)

From Stdlib Require Import ZArith QArith Qround List String Ascii Bool Lia DecimalString.
From Stdlib Require Import Permutation.
Import ListNotations.
Local Open Scope string_scope.
Local Open Scope Z_scope.
Local Set Warnings "-register-all".

(* ================================================================== *)
(** ** JavaScript values and conversions *)
(* ================================================================== *)

Module JS.

(** Numbers.  The worker only does arithmetic on catalog prices, which are
    integers, so a number is an integer or NaN.  Numbers of a JSON payload
    are modelled by integers as well: the worker never computes with them,
    it only tests them for truthiness and type. *)
Inductive number : Type :=
| Fin (z : Z)
| NaN.

(** Values: what [JSON.parse] produces, [undefined] for absent properties,
    and the two kinds of object a lookup on an object literal can reach
    through the prototype chain: built-in functions and [Object.prototype]
    itself. *)
Inductive value : Type :=
| VUndefined
| VNull
| VBool (b : bool)
| VNum (n : number)
| VStr (s : string)
| VArr (elems : list value)
| VObj (props : list (string * value))
| VNative (name : string)
| VObjectPrototype.

Inductive error_class : Type := SyntaxError | TypeError | OtherError.

(** A thrown value: its class (for [instanceof SyntaxError]) and the two
    properties the worker's catch block reads. *)
Record exn : Type := mkExn {
  exn_class : error_class;
  exn_statusCode : value;
  exn_message : string
}.

Inductive result (A : Type) : Type :=
| Ok (a : A)
| Throw (e : exn).
Arguments Ok {A} a.
Arguments Throw {A} e.

Definition bind {A B : Type} (m : result A) (k : A -> result B) : result B :=
  match m with
  | Ok a => k a
  | Throw e => Throw e
  end.

Definition throwTypeError {A : Type} (msg : string) : result A :=
  Throw (mkExn TypeError VUndefined msg).

Definition throwSyntaxError {A : Type} (msg : string) : result A :=
  Throw (mkExn SyntaxError VUndefined msg).

Declare Scope js_scope.
Delimit Scope js_scope with js.
Notation "x <- m ;; k" := (bind m (fun x => k))
  (at level 61, m at next level, right associativity) : js_scope.
Notation "' p <- m ;; k" := (bind m (fun x => match x with p => k end))
  (at level 61, p pattern, m at next level, right associativity) : js_scope.
Local Open Scope js_scope.

(** *** Truthiness and type tests *)

Definition truthy (v : value) : bool :=
  match v with
  | VUndefined | VNull => false
  | VBool b => b
  | VNum (Fin z) => negb (z =? 0)
  | VNum NaN => false
  | VStr s => negb (s =? "")%string
  | VArr _ | VObj _ | VNative _ | VObjectPrototype => true
  end.

Definition typeof_string (v : value) : bool :=
  match v with VStr _ => true | _ => false end.

Definition Array_isArray (v : value) : bool :=
  match v with VArr _ => true | _ => false end.

(** [a || b] on values. *)
Definition js_or (a b : value) : value := if truthy a then a else b.

(** [v === true] *)
Definition strict_eq_true (v : value) : bool :=
  match v with VBool true => true | _ => false end.

(** *** Strings

    A string is a sequence of code units; the model covers the code units
    0 to 255.  White space (what [trim] removes and what [\s] matches) in
    that range is TAB, LF, VT, FF, CR, SPACE and NBSP. *)

Definition is_whitespace (c : ascii) : bool :=
  let n := N_of_ascii c in
  ((9 <=? n) && (n <=? 13) || (n =? 32) || (n =? 160))%N.

Fixpoint strip_start (p : ascii -> bool) (s : string) : string :=
  match s with
  | EmptyString => EmptyString
  | String c s' => if p c then strip_start p s' else s
  end.

Fixpoint strip_end (p : ascii -> bool) (s : string) : string :=
  match s with
  | EmptyString => EmptyString
  | String c s' =>
      let t := strip_end p s' in
      if p c && (t =? "")%string then EmptyString else String c t
  end.

Definition String_trim (s : string) : string :=
  strip_end is_whitespace (strip_start is_whitespace s).

Definition Number_toString (n : number) : string :=
  match n with
  | Fin z => NilEmpty.string_of_int (Z.to_int z)
  | NaN => "NaN"
  end.

Definition digit_value (c : ascii) : option Z :=
  let n := N_of_ascii c in
  if ((48 <=? n) && (n <=? 57))%N then Some (Z.of_N n - 48) else None.

Fixpoint parse_digits (s : string) (acc : Z) : option Z :=
  match s with
  | EmptyString => Some acc
  | String c s' =>
      match digit_value c with
      | Some d => parse_digits s' (10 * acc + d)
      | None => None
      end
  end.

Definition parse_unsigned (s : string) : option Z :=
  match s with
  | EmptyString => None
  | _ => parse_digits s 0
  end.

(** StringToNumber for the integer number model: white space is trimmed,
    the empty string is 0, an optionally signed run of decimal digits is
    that integer, and every other string is NaN.  Literals with a
    fraction, an exponent or a radix prefix are outside the integer model.
    The worker converts a string to a number in two places: a running
    total that has absorbed function source text, which is NaN for the
    engine as well, and the [length] of a [selectedFeatures] that is not an
    array, where the outcome of the comparison does not change the result
    (lemma [discount_without_array] below). *)
Definition StringToNumber (s : string) : number :=
  match String_trim s with
  | EmptyString => Fin 0
  | String "+" ds => match parse_unsigned ds with Some z => Fin z | None => NaN end
  | String "-" ds => match parse_unsigned ds with Some z => Fin (- z) | None => NaN end
  | ds => match parse_unsigned ds with Some z => Fin z | None => NaN end
  end.

(** *** Own properties and [Object.prototype] *)

Fixpoint own_property {A : Type} (key : string) (props : list (string * A)) : option A :=
  match props with
  | [] => None
  | (k, v) :: rest => if (k =? key)%string then Some v else own_property key rest
  end.

(** The function-valued properties every plain object inherits. *)
Definition Object_prototype_methods : list string :=
  [ "__defineGetter__"; "__defineSetter__"; "hasOwnProperty";
    "__lookupGetter__"; "__lookupSetter__"; "isPrototypeOf";
    "propertyIsEnumerable"; "toString"; "valueOf"; "toLocaleString" ].

(** [Object.prototype[key]] as seen from a plain object: [constructor] is
    the function [Object], [__proto__] is an accessor that yields the
    object's prototype, which is [Object.prototype]. *)
Definition Object_prototype_get (key : string) : option value :=
  if (key =? "constructor")%string then Some (VNative "Object")
  else if (key =? "__proto__")%string then Some VObjectPrototype
  else if existsb (String.eqb key) Object_prototype_methods then Some (VNative key)
  else None.

(** *** ToString, ToPrimitive, ToNumber

    For an object made by [JSON.parse], an own property [toString] is never
    callable, and then neither conversion method yields a primitive value:
    the conversion throws.  Without it [Object.prototype.toString] answers.
    Arrays answer with [join]; [null] and [undefined] elements are joined as
    empty strings. *)
Fixpoint ToString (v : value) : result string :=
  match v with
  | VUndefined => Ok "undefined"
  | VNull => Ok "null"
  | VBool true => Ok "true"
  | VBool false => Ok "false"
  | VNum n => Ok (Number_toString n)
  | VStr s => Ok s
  | VArr elems =>
      (fix join (l : list value) : result string :=
         match l with
         | [] => Ok ""
         | x :: rest =>
             sx <- match x with
                   | VUndefined | VNull => Ok ""
                   | _ => ToString x
                   end ;;
             match rest with
             | [] => Ok sx
             | _ => sr <- join rest ;; Ok (sx ++ "," ++ sr)
             end
         end) elems
  | VObj props =>
      match own_property "toString" props with
      | Some _ => throwTypeError "Cannot convert object to primitive value"
      | None => Ok "[object Object]"
      end
  | VNative name => Ok ("function " ++ name ++ "() { [native code] }")
  | VObjectPrototype => Ok "[object Object]"
  end.

Definition ToPrimitive (v : value) : result value :=
  match v with
  | VArr _ | VObj _ | VNative _ | VObjectPrototype =>
      s <- ToString v ;; Ok (VStr s)
  | _ => Ok v
  end.

Definition ToNumber (v : value) : result number :=
  p <- ToPrimitive v ;;
  Ok match p with
     | VUndefined => NaN
     | VNull => Fin 0
     | VBool true => Fin 1
     | VBool false => Fin 0
     | VNum n => n
     | VStr s => StringToNumber s
     | _ => NaN
     end.

Definition ToPropertyKey (v : value) : result string := ToString v.

(** *** Operators *)

Definition number_add (a b : number) : number :=
  match a, b with
  | Fin x, Fin y => Fin (x + y)
  | _, _ => NaN
  end.

Definition number_sub (a b : number) : number :=
  match a, b with
  | Fin x, Fin y => Fin (x - y)
  | _, _ => NaN
  end.

(** [a + b]: string concatenation as soon as one operand is a string after
    ToPrimitive, numeric addition otherwise. *)
Definition js_add (a b : value) : result value :=
  pa <- ToPrimitive a ;;
  pb <- ToPrimitive b ;;
  if typeof_string pa || typeof_string pb then
    sa <- ToString pa ;;
    sb <- ToString pb ;;
    Ok (VStr (sa ++ sb))
  else
    na <- ToNumber pa ;;
    nb <- ToNumber pb ;;
    Ok (VNum (number_add na nb)).

(** [a - b] *)
Definition js_sub (a b : value) : result value :=
  na <- ToNumber a ;;
  nb <- ToNumber b ;;
  Ok (VNum (number_sub na nb)).

(** [a >= n] for a number [n]: a NaN operand makes the comparison false. *)
Definition js_ge (a : value) (n : Z) : result bool :=
  na <- ToNumber a ;;
  Ok match na with
     | Fin z => n <=? z
     | NaN => false
     end.

(** [Math.round]: the nearest integer, ties towards plus infinity. *)
Definition Math_round (q : Q) : Z := Qfloor (q + (1 # 2)).

(** [Math.round(a * rate)].  The product is taken in exact rationals; the
    double product of an integer below 2^53 and 0.10 rounds to the same
    integer, since the double nearest 0.10 lies above 1/10 by less than
    one part in 2^56. *)
Definition Math_round_times (a : value) (rate : Q) : result number :=
  na <- ToNumber a ;;
  Ok match na with
     | Fin z => Fin (Math_round (inject_Z z * rate))
     | NaN => NaN
     end.

(** *** Property reads

    [Get v key] is [v.key] / [v[key]], specialised to the property names the
    worker reads from payload values: the payload's field names, [length]
    and [trim].  Reading a property of [null] or [undefined] throws. *)
Definition Get (v : value) (key : string) : result value :=
  match v with
  | VUndefined | VNull =>
      throwTypeError ("Cannot read properties of null or undefined: " ++ key)
  | VObj props =>
      Ok match own_property key props with
         | Some x => x
         | None =>
             match Object_prototype_get key with
             | Some x => x
             | None => VUndefined
             end
         end
  | VArr elems =>
      Ok (if (key =? "length")%string then VNum (Fin (Z.of_nat (List.length elems)))
          else VUndefined)
  | VStr s =>
      Ok (if (key =? "length")%string then VNum (Fin (Z.of_nat (String.length s)))
          else if (key =? "trim")%string then VNative "trim"
          else VUndefined)
  | _ => Ok VUndefined
  end.

(** [v.trim()]: only strings have a callable [trim]. *)
Definition call_trim (v : value) : result value :=
  f <- Get v "trim" ;;
  match v, f with
  | VStr s, VNative _ => Ok (VStr (String_trim s))
  | _, _ => throwTypeError "trim is not a function"
  end.

(** [lit[key]] for an object literal whose own properties are numbers:
    the key is converted with ToPropertyKey, own properties come first,
    then the prototype chain. *)
Definition Get_literal (lit : list (string * Z)) (key : value) : result value :=
  k <- ToPropertyKey key ;;
  Ok match own_property k lit with
     | Some price => VNum (Fin price)
     | None =>
         match Object_prototype_get k with
         | Some x => x
         | None => VUndefined
         end
     end.

(** [arr.forEach(body)] threading the variables the callback assigns. *)
Fixpoint forEach {S : Type} (body : S -> value -> result S) (arr : list value) (s : S)
  : result S :=
  match arr with
  | [] => Ok s
  | x :: rest => s' <- body s x ;; forEach body rest s'
  end.

End JS.

Import JS.
Local Open Scope js_scope.

(* ================================================================== *)
(** ** Pricing *)
(* ================================================================== *)

Record Pricing : Type := {
  features : list (string * Z);
  services : list (string * Z);
  customRequestBase : Z;
  featureDiscountThreshold : Z;
  featureDiscountRate : Q
}.

Definition PRICING : Pricing := {|
  features :=
    [ ("Authentication", 100); ("Payments", 100); ("SaaS Subscriptions", 100);
      ("File Uploads", 100); ("Notifications", 100) ];
  services :=
    [ ("Security Audit & Fixes", 150); ("UI/UX Review", 150);
      ("Deploy to Production", 100) ];
  customRequestBase := 250;
  featureDiscountThreshold := 3;
  featureDiscountRate := 1 # 10
|}.

Record PricingResult : Type := {
  total : value;
  discount : value
}.

(** [calculatePricing(selectedFeatures, selectedServices, hasCustomRequest)] *)
Definition calculatePricing (selectedFeatures selectedServices hasCustomRequest : value)
  : result PricingResult :=
  let total := VNum (Fin 0) in
  let discount := VNum (Fin 0) in
  let featuresTotal := VNum (Fin 0) in
  (* Calculate features total *)
  ' (featuresTotal, total) <-
    match selectedFeatures with
    | VArr names =>
        forEach (fun '(featuresTotal, total) featureName =>
                   price <- Get_literal PRICING.(features) featureName ;;
                   if truthy price then
                     featuresTotal <- js_add featuresTotal price ;;
                     total <- js_add total price ;;
                     Ok (featuresTotal, total)
                   else Ok (featuresTotal, total))
                names (featuresTotal, total)
    | _ => Ok (featuresTotal, total)
    end ;;
  (* Apply discount if 3+ features *)
  applies <-
    (if truthy selectedFeatures then
       len <- Get selectedFeatures "length" ;;
       js_ge len PRICING.(featureDiscountThreshold)
     else Ok false) ;;
  ' (total, discount) <-
    (if applies : bool then
       d <- Math_round_times featuresTotal PRICING.(featureDiscountRate) ;;
       total <- js_sub total (VNum d) ;;
       Ok (total, VNum d)
     else Ok (total, discount)) ;;
  (* Calculate services total *)
  total <-
    match selectedServices with
    | VArr names =>
        forEach (fun total serviceName =>
                   price <- Get_literal PRICING.(services) serviceName ;;
                   if truthy price then js_add total price else Ok total)
                names total
    | _ => Ok total
    end ;;
  (* Add custom request base price *)
  total <-
    (if truthy hasCustomRequest then js_add total (VNum (Fin PRICING.(customRequestBase)))
     else Ok total) ;;
  Ok {| total := total; discount := discount |}.

(* ================================================================== *)
(** ** Platform: regular expressions and the URL constructor *)
(* ================================================================== *)

Module Regex.

(** Regular expressions over character classes, matched against the whole
    string (the pattern of the worker is anchored with [^] and [$]) by
    Brzozowski derivatives. *)
Inductive regex : Type :=
| Void
| Eps
| Class (p : ascii -> bool)
| Cat (r s : regex)
| Alt (r s : regex)
| Star (r : regex).

Definition Plus (r : regex) : regex := Cat r (Star r).

Fixpoint nullable (r : regex) : bool :=
  match r with
  | Void => false
  | Eps => true
  | Class _ => false
  | Cat r s => nullable r && nullable s
  | Alt r s => nullable r || nullable s
  | Star _ => true
  end.

Fixpoint deriv (c : ascii) (r : regex) : regex :=
  match r with
  | Void => Void
  | Eps => Void
  | Class p => if p c then Eps else Void
  | Cat r s =>
      if nullable r then Alt (Cat (deriv c r) s) (deriv c s)
      else Cat (deriv c r) s
  | Alt r s => Alt (deriv c r) (deriv c s)
  | Star r => Cat (deriv c r) (Star r)
  end.

Fixpoint test (r : regex) (s : string) : bool :=
  match s with
  | EmptyString => nullable r
  | String c s' => test (deriv c r) s'
  end.

End Regex.

Module URL.

(** The part of a URL record the claims speak about.  [host = None] is the
    null host of a URL with an opaque path or a bare path. *)
Record record : Type := {
  scheme : string;
  host : option string
}.

Definition is_c0_or_space (c : ascii) : bool := (N_of_ascii c <=? 32)%N.

Definition is_tab_or_newline (c : ascii) : bool :=
  let n := N_of_ascii c in ((n =? 9) || (n =? 10) || (n =? 13))%N.

Fixpoint remove (p : ascii -> bool) (s : string) : string :=
  match s with
  | EmptyString => EmptyString
  | String c s' => if p c then remove p s' else String c (remove p s')
  end.

Definition is_upper (c : ascii) : bool :=
  let n := N_of_ascii c in ((65 <=? n) && (n <=? 90))%N.

Definition is_lower (c : ascii) : bool :=
  let n := N_of_ascii c in ((97 <=? n) && (n <=? 122))%N.

Definition is_alpha (c : ascii) : bool := is_upper c || is_lower c.

Definition is_digit (c : ascii) : bool :=
  let n := N_of_ascii c in ((48 <=? n) && (n <=? 57))%N.

Definition is_scheme_char (c : ascii) : bool :=
  is_alpha c || is_digit c || (c =? "+")%char || (c =? "-")%char || (c =? ".")%char.

Definition to_lower (c : ascii) : ascii :=
  if is_upper c then ascii_of_N (N_of_ascii c + 32) else c.

Definition is_slash (c : ascii) : bool := (c =? "/")%char || (c =? "\")%char.

Definition special_schemes : list string :=
  [ "ftp"; "file"; "http"; "https"; "ws"; "wss" ].

Definition is_special (scheme : string) : bool :=
  existsb (String.eqb scheme) special_schemes.

(** Scheme state: scheme characters are collected in lower case up to the
    colon; anything else sends the parser to the no-scheme state. *)
Fixpoint scheme_state (s buffer : string) : option (string * string) :=
  match s with
  | EmptyString => None
  | String c s' =>
      if is_scheme_char c then scheme_state s' (buffer ++ String (to_lower c) EmptyString)
      else if (c =? ":")%char then Some (buffer, s')
      else None
  end.

(** Scheme start state. *)
Definition scheme_start_state (s : string) : option (string * string) :=
  match s with
  | EmptyString => None
  | String c s' =>
      if is_alpha c then scheme_state s' (String (to_lower c) EmptyString) else None
  end.

Section Parser.

(** The authority, host and port states (for [file], the file host
    state) of the platform's parser, run on the input that follows the
    slashes: [None] when they fail, the parsed host otherwise.  Host
    parsing (IDNA, IPv4, IPv6, ports) is platform code and stays a
    parameter. *)
Variable authority : string -> string -> option string.

Definition with_authority (scheme rest : string) : option record :=
  match authority scheme rest with
  | Some h => Some {| scheme := scheme; host := Some h |}
  | None => None
  end.

(** File state and file slash state. *)
Definition file_state (rest : string) : option record :=
  match rest with
  | String c1 (String c2 r) =>
      if is_slash c1 && is_slash c2 then with_authority "file" r
      else Some {| scheme := "file"; host := Some "" |}
  | _ => Some {| scheme := "file"; host := Some "" |}
  end.

(** The basic URL parser without a base URL, as far as success, scheme
    and host go.  The path, query and fragment states never fail. *)
Definition parse (url : string) : option record :=
  let input := remove is_tab_or_newline
                 (strip_end is_c0_or_space (strip_start is_c0_or_space url)) in
  match scheme_start_state input with
  | None => None (* no scheme state with no base: failure *)
  | Some (scheme, rest) =>
      if (scheme =? "file")%string then file_state rest
      else if is_special scheme then
        (* special authority slashes, special authority ignore slashes *)
        with_authority scheme (strip_start is_slash rest)
      else
        match rest with
        | String "/" (String "/" r) => with_authority scheme r
        | _ => Some {| scheme := scheme; host := None |}
        end
  end.

End Parser.

End URL.

(* ================================================================== *)
(** ** Validation *)
(* ================================================================== *)

(** What the worker takes from its runtime besides the request. *)
Record Runtime : Type := {
  URL_authority : string -> string -> option string;
  Date_now_toISOString : string
}.

(** [/^[^\s@]+@[^\s@]+\.[^\s@]+$/] *)
Definition emailRegex : Regex.regex :=
  let part := Regex.Plus (Regex.Class (fun c => negb (is_whitespace c || (c =? "@")%char))) in
  Regex.Cat part
    (Regex.Cat (Regex.Class (Ascii.eqb "@"))
       (Regex.Cat part
          (Regex.Cat (Regex.Class (Ascii.eqb ".")) part))).

(** [isValidEmail]: [emailRegex.test(email)]; [test] converts its argument
    to a string first. *)
Definition isValidEmail (email : value) : result bool :=
  s <- ToString email ;;
  Ok (Regex.test emailRegex s).

(** [isValidUrl]: [new URL(url)] converts its argument to a string and
    parses it; whatever it throws is caught and answered with [false]. *)
Definition isValidUrl (rt : Runtime) (url : value) : bool :=
  match ToString url with
  | Ok s =>
      match URL.parse rt.(URL_authority) s with
      | Some _ => true
      | None => false
      end
  | Throw _ => false
  end.

Record Validation : Type := {
  isValid : bool;
  errors : list string
}.

Definition push (errors : list string) (msg : string) : list string := errors ++ [msg].

(** [validateEstimateForm(data)] *)
Definition validateEstimateForm (rt : Runtime) (data : value) : result Validation :=
  let errors := [] in
  (* Required: App URL *)
  appUrl <- Get data "appUrl" ;;
  missing <-
    (if negb (truthy appUrl) || negb (typeof_string appUrl) then Ok true
     else trimmed <- call_trim appUrl ;; Ok (negb (truthy trimmed))) ;;
  let errors :=
    if missing : bool then push errors "App URL is required"
    else if negb (isValidUrl rt appUrl) then push errors "App URL must be a valid URL"
    else errors in
  (* Required: Email *)
  email <- Get data "email" ;;
  missing <-
    (if negb (truthy email) || negb (typeof_string email) then Ok true
     else trimmed <- call_trim email ;; Ok (negb (truthy trimmed))) ;;
  errors <-
    (if missing : bool then Ok (push errors "Email is required")
     else
       ok <- isValidEmail email ;;
       if negb ok then Ok (push errors "Email must be a valid email address")
       else Ok errors) ;;
  (* At least one selection required *)
  selectedFeatures <- Get data "selectedFeatures" ;;
  selectedServices <- Get data "selectedServices" ;;
  hasCustomRequest <- Get data "hasCustomRequest" ;;
  let hasFeatures :=
    match selectedFeatures with VArr l => 0 <? Z.of_nat (List.length l) | _ => false end in
  let hasServices :=
    match selectedServices with VArr l => 0 <? Z.of_nat (List.length l) | _ => false end in
  let hasCustom := strict_eq_true hasCustomRequest in
  let errors :=
    if negb hasFeatures && negb hasServices && negb hasCustom
    then push errors "At least one service must be selected" else errors in
  (* Validate arrays *)
  let errors :=
    if truthy selectedFeatures && negb (Array_isArray selectedFeatures)
    then push errors "Selected features must be an array" else errors in
  let errors :=
    if truthy selectedServices && negb (Array_isArray selectedServices)
    then push errors "Selected services must be an array" else errors in
  (* Validate custom request text if custom request is selected *)
  customRequestText <- Get data "customRequestText" ;;
  missing <-
    (if truthy hasCustomRequest then
       if negb (truthy customRequestText) then Ok true
       else trimmed <- call_trim customRequestText ;; Ok (negb (truthy trimmed))
     else Ok false) ;;
  let errors :=
    if missing : bool then
      push errors "Custom request description is required when custom request is selected"
    else errors in
  Ok {| isValid := (List.length errors =? 0)%nat; errors := errors |}.

(* ================================================================== *)
(** ** The submission handler *)
(* ================================================================== *)

Record Env : Type := {
  AIRTABLE_API_KEY : value;
  AIRTABLE_BASE_ID : value;
  AIRTABLE_TABLE_NAME : value
}.

(** A request: its method, what [new URL(request.url)] yields of its
    address, and what [request.json()] makes of its body ([None] when the
    body is not well-formed JSON). *)
Record Request : Type := {
  method : string;
  origin : string;
  pathname : string;
  json : option value
}.

Record Response : Type := {
  status : Z;
  headers : list (string * string);
  body : option value
}.

(** One stored record: the base and table it went to and its fields. *)
Record AirtableRecord : Type := {
  rec_base : value;
  rec_table : value;
  rec_fields : list (string * value)
}.

(** The external store as the worker sees it: the records it holds, the
    number of [create] calls it has received, and how it answers a
    [create]: [None] when it stores the record, [Some e] when it rejects
    the call with [e] and stores nothing. *)
Record Airtable : Type := {
  reply : option exn;
  records : list AirtableRecord;
  create_calls : nat
}.

(** Code that may throw and may call the store. *)
Definition IO (A : Type) : Type := Airtable -> result A * Airtable.

Definition ret {A : Type} (a : A) : IO A := fun st => (Ok a, st).

Definition lift {A : Type} (r : result A) : IO A := fun st => (r, st).

Definition bindIO {A B : Type} (m : IO A) (k : A -> IO B) : IO B :=
  fun st =>
    match m st with
    | (Ok a, st') => k a st'
    | (Throw e, st') => (Throw e, st')
    end.

(** [try { m } catch (error) { handler }] where the handler returns. *)
Definition try_catch {A : Type} (m : IO A) (handler : exn -> A) : Airtable -> A * Airtable :=
  fun st =>
    match m st with
    | (Ok a, st') => (a, st')
    | (Throw e, st') => (handler e, st')
    end.

Declare Scope io_scope.
Delimit Scope io_scope with io.
Notation "x <- m ;; k" := (bindIO m (fun x => k))
  (at level 61, m at next level, right associativity) : io_scope.

(** [await base(tableName).create([{ fields: record }])] *)
Definition create (base tableName : value) (fields : list (string * value)) : IO unit :=
  fun st =>
    match st.(reply) with
    | None =>
        (Ok tt,
         {| reply := st.(reply);
            records := st.(records)
                       ++ [ {| rec_base := base; rec_table := tableName;
                               rec_fields := fields |} ];
            create_calls := S st.(create_calls) |})
    | Some e =>
        (Throw e,
         {| reply := st.(reply);
            records := st.(records);
            create_calls := S st.(create_calls) |})
    end.

(** [await request.json()] *)
Definition request_json (request : Request) : IO value :=
  match request.(json) with
  | Some data => ret data
  | None => lift (throwSyntaxError "Unexpected token in JSON")
  end.

Definition corsHeaders : list (string * string) :=
  [ ("Access-Control-Allow-Origin", "*");
    ("Access-Control-Allow-Methods", "GET, POST, OPTIONS");
    ("Access-Control-Allow-Headers", "Content-Type") ].

(** [new Response(JSON.stringify(payload), { status, headers: { ...corsHeaders,
    'Content-Type': 'application/json' } })]; the body is kept as the value
    that is serialised. *)
Definition json_response (st : Z) (payload : list (string * value)) : Response :=
  {| status := st;
     headers := corsHeaders ++ [ ("Content-Type", "application/json") ];
     body := Some (VObj payload) |}.

(** [Response.redirect(url, statusCode)] *)
Definition Response_redirect (url : string) (statusCode : Z) : Response :=
  {| status := statusCode; headers := [ ("Location", url) ]; body := None |}.

(** [handleSubmitRequest(request, env)] *)
Definition handleSubmitRequest (rt : Runtime) (request : Request) (env : Env)
  : Airtable -> Response * Airtable :=
  (* Only allow POST requests *)
  if negb (request.(method) =? "POST")%string then
    fun st =>
      (json_response 405 [ ("success", VBool false); ("error", VStr "Method not allowed") ],
       st)
  else
    try_catch
      ((* Parse request body *)
       data <- request_json request ;;
       (* Validate form data *)
       validation <- lift (validateEstimateForm rt data) ;;
       if negb validation.(isValid) then
         ret (json_response 400
                [ ("success", VBool false);
                  ("error", VStr "Validation failed");
                  ("errors", VArr (map VStr validation.(errors))) ])
       (* Check for required environment variables *)
       else if negb (truthy env.(AIRTABLE_API_KEY)) then
         ret (json_response 500
                [ ("success", VBool false); ("error", VStr "Server configuration error") ])
       else if negb (truthy env.(AIRTABLE_BASE_ID)) then
         ret (json_response 500
                [ ("success", VBool false); ("error", VStr "Server configuration error") ])
       else
         let tableName := js_or env.(AIRTABLE_TABLE_NAME) (VStr "Estimate Requests") in
         (* Initialize Airtable *)
         let base := env.(AIRTABLE_BASE_ID) in
         (* Calculate pricing on the backend *)
         selectedFeatures <- lift (Get data "selectedFeatures") ;;
         selectedServices <- lift (Get data "selectedServices") ;;
         hasCustomRequest <- lift (Get data "hasCustomRequest") ;;
         pricing <- lift (calculatePricing selectedFeatures selectedServices hasCustomRequest) ;;
         (* Prepare record for Airtable *)
         appUrl <- lift (Get data "appUrl") ;;
         email <- lift (Get data "email") ;;
         platform <- lift (Get data "platform") ;;
         customRequestText <- lift (Get data "customRequestText") ;;
         additionalContext <- lift (Get data "additionalContext") ;;
         timestamp <- lift (Get data "timestamp") ;;
         let record :=
           [ ("App URL", appUrl);
             ("Email", email);
             ("Platform", js_or platform (VStr "Not specified"));
             ("Selected Features", js_or selectedFeatures VNull);
             ("Selected Services", js_or selectedServices VNull);
             ("Custom Request", js_or (VBool (truthy hasCustomRequest)) (VBool false));
             ("Custom Request Description", js_or customRequestText VNull);
             ("Notes", js_or additionalContext VNull);
             ("Estimated Price", pricing.(total));
             ("Feature Discount", pricing.(discount));
             ("Timestamp", js_or timestamp (VStr rt.(Date_now_toISOString)));
             ("Status", VStr "New") ] in
         (* Create record in Airtable *)
         _ <- create base tableName record ;;
         (* Return success response *)
         ret (json_response 200
                [ ("success", VBool true);
                  ("message", VStr "Estimate request submitted successfully") ]))%io
      (fun error =>
         (* Check if it's a JSON parse error *)
         match error.(exn_class) with
         | SyntaxError =>
             json_response 400
               [ ("success", VBool false); ("error", VStr "Invalid JSON in request body") ]
         | _ =>
             (* Check if it's an Airtable error *)
             if truthy error.(exn_statusCode) then
               json_response 500
                 [ ("success", VBool false);
                   ("error", VStr "Failed to save to database");
                   ("details", VStr error.(exn_message)) ]
             else
               (* Generic error response *)
               json_response 500
                 [ ("success", VBool false); ("error", VStr "Internal server error") ]
         end).

(** The worker's [fetch(request, env, ctx)] *)
Definition fetch (rt : Runtime) (request : Request) (env : Env)
  : Airtable -> Response * Airtable :=
  (* Handle CORS preflight requests *)
  if (request.(method) =? "OPTIONS")%string then
    fun st => ({| status := 204; headers := corsHeaders; body := None |}, st)
  else
    (* Route handling *)
    if (request.(pathname) =? "/api/submit-request")%string then
      handleSubmitRequest rt request env
    else
      let statusCode := 301 in
      fun st => (Response_redirect (request.(origin) ++ "/404") statusCode, st).

Definition names_array (names : list string) : value := VArr (map VStr names).

(* ================================================================== *)
(** ** Notions the statements use *)
(* ================================================================== *)

(** The catalog unit price of a name: its own entry in the catalog, 0 for a
    name the catalog does not list. *)
Definition unit_price (catalog : list (string * Z)) (name : string) : Z :=
  match own_property name catalog with
  | Some price => price
  | None => 0
  end.

Definition catalog_sum (catalog : list (string * Z)) (names : list string) : Z :=
  fold_right (fun name acc => unit_price catalog name + acc) 0 names.

Definition in_catalog (catalog : list (string * Z)) (name : string) : bool :=
  match own_property name catalog with
  | Some _ => true
  | None => false
  end.

(** Names that every object literal answers through its prototype. *)
Definition inherited (name : string) : bool :=
  match Object_prototype_get name with
  | Some _ => true
  | None => false
  end.

Definition plain_names (names : list string) : Prop :=
  Forall (fun name => inherited name = false) names.

(** The discount of the specification: 10% of the feature subtotal, rounded,
    from three selected features on. *)
Definition expected_discount (selectedFeatures : list string) : Z :=
  if PRICING.(featureDiscountThreshold) <=? Z.of_nat (List.length selectedFeatures)
  then Math_round (inject_Z (catalog_sum PRICING.(features) selectedFeatures)
                   * PRICING.(featureDiscountRate))
  else 0.

Definition expected_total (selectedFeatures selectedServices : list string)
  (hasCustomRequest : bool) : Z :=
  catalog_sum PRICING.(features) selectedFeatures
  - expected_discount selectedFeatures
  + catalog_sum PRICING.(services) selectedServices
  + (if hasCustomRequest then PRICING.(customRequestBase) else 0).

(** [data.key] for a parsed JSON object with the properties [props]. *)
Definition field (props : list (string * value)) (key : string) : value :=
  match own_property key props with
  | Some x => x
  | None =>
      match Object_prototype_get key with
      | Some x => x
      | None => VUndefined
      end
  end.

(** A required string that is absent, not a string, or blank. *)
Definition blank (v : value) : bool :=
  match v with
  | VStr s => negb (truthy (VStr (String_trim s)))
  | _ => true
  end.

(** The rules of the validation, one by one. *)
Definition url_rule (rt : Runtime) (appUrl : value) : list string :=
  if blank appUrl then [ "App URL is required" ]
  else if negb (isValidUrl rt appUrl) then [ "App URL must be a valid URL" ]
  else [].

Definition email_rule (email : value) : list string :=
  match email with
  | VStr s =>
      if blank email then [ "Email is required" ]
      else if negb (Regex.test emailRegex s) then [ "Email must be a valid email address" ]
      else []
  | _ => [ "Email is required" ]
  end.

(** [Array.isArray(v) && v.length > 0] *)
Definition nonempty_array (v : value) : bool :=
  match v with
  | VArr l => 0 <? Z.of_nat (List.length l)
  | _ => false
  end.

Definition selection_rule (selectedFeatures selectedServices hasCustomRequest : value)
  : list string :=
  if negb (nonempty_array selectedFeatures) && negb (nonempty_array selectedServices)
     && negb (strict_eq_true hasCustomRequest)
  then [ "At least one service must be selected" ] else [].

Definition array_rule (v : value) (msg : string) : list string :=
  if truthy v && negb (Array_isArray v) then [ msg ] else [].

Definition custom_rule (hasCustomRequest customRequestText : value) : list string :=
  if truthy hasCustomRequest
     && (negb (truthy customRequestText) || blank customRequestText)
  then [ "Custom request description is required when custom request is selected" ]
  else [].

(** All messages the rules trigger on a payload, in the order of the rules. *)
Definition triggered (rt : Runtime) (props : list (string * value)) : list string :=
  url_rule rt (field props "appUrl")
  ++ email_rule (field props "email")
  ++ selection_rule (field props "selectedFeatures") (field props "selectedServices")
       (field props "hasCustomRequest")
  ++ array_rule (field props "selectedFeatures") "Selected features must be an array"
  ++ array_rule (field props "selectedServices") "Selected services must be an array"
  ++ custom_rule (field props "hasCustomRequest") (field props "customRequestText").

(** The custom-request rule calls [trim] on a value that has none. *)
Definition custom_text_throws (hasCustomRequest customRequestText : value) : bool :=
  truthy hasCustomRequest && truthy customRequestText
  && negb (typeof_string customRequestText).

(** The two messages of the App URL rule. *)
Definition url_messages : list string :=
  [ "App URL is required"; "App URL must be a valid URL" ].

(** Validation accepts the App URL of a payload: it returns, and none of
    its messages is about the App URL. *)
Definition accepts_appUrl (rt : Runtime) (data : value) : Prop :=
  exists v, validateEstimateForm rt data = Ok v
            /\ forall msg, In msg url_messages -> ~ In msg v.(errors).

(** What the URL parser sees of a string before the scheme start state. *)
Definition url_input (s : string) : string :=
  URL.remove URL.is_tab_or_newline
    (strip_end URL.is_c0_or_space (strip_start URL.is_c0_or_space s)).

(** Sample surroundings for the concrete runs: a runtime whose URL parser
    rejects every authority, one that takes every authority as it is, a
    configured environment, an empty store that answers, and requests. *)
Definition strict_runtime : Runtime :=
  {| URL_authority := fun _ _ => None;
     Date_now_toISOString := "2026-01-01T00:00:00.000Z" |}.

Definition lenient_runtime : Runtime :=
  {| URL_authority := fun _ rest => Some rest;
     Date_now_toISOString := "2026-01-01T00:00:00.000Z" |}.

Definition configured_env : Env :=
  {| AIRTABLE_API_KEY := VStr "key";
     AIRTABLE_BASE_ID := VStr "app";
     AIRTABLE_TABLE_NAME := VUndefined |}.

Definition unconfigured_env : Env :=
  {| AIRTABLE_API_KEY := VUndefined;
     AIRTABLE_BASE_ID := VUndefined;
     AIRTABLE_TABLE_NAME := VUndefined |}.

Definition empty_store : Airtable :=
  {| reply := None; records := []; create_calls := 0 |}.

Definition submit_route : string := "/api/submit-request".

Definition request_to (m path : string) (payload : option value) : Request :=
  {| method := m; origin := "https://finalize.example"; pathname := path;
     json := payload |}.

(** A payload that passes validation. *)
Definition sample_payload : value :=
  VObj [ ("appUrl", VStr "https://app.example.com");
         ("email", VStr "team@example.com");
         ("selectedFeatures", names_array ["Authentication"; "Payments"]);
         ("selectedServices", names_array ["UI/UX Review"]);
         ("hasCustomRequest", VBool false) ].

(** A payload whose custom-request description is a number. *)
Definition numeric_description_payload : value :=
  VObj [ ("appUrl", VStr "https://app.example.com");
         ("email", VStr "team@example.com");
         ("hasCustomRequest", VBool true);
         ("customRequestText", VNum (Fin 5)) ].

(** What a run of the handler does to the store: nothing, or one [create]
    call that either stored exactly one record (and the status is 200) or
    was rejected (and the status is not 200). *)
Inductive outcome (st : Airtable) (response : Response) (st' : Airtable) : Prop :=
| no_store_call :
    response.(status) <> 200 -> st' = st -> outcome st response st'
| record_created (r : AirtableRecord) :
    response.(status) = 200 ->
    st'.(records) = (st.(records) ++ [r])%list ->
    st'.(create_calls) = S st.(create_calls) ->
    outcome st response st'
| create_rejected :
    response.(status) <> 200 ->
    st'.(records) = st.(records) ->
    st'.(create_calls) = S st.(create_calls) ->
    outcome st response st'.

(** The responses of the worker, by name. *)
Definition preflight_response : Response :=
  {| status := 204; headers := corsHeaders; body := None |}.

Definition method_not_allowed_response : Response :=
  json_response 405 [ ("success", VBool false); ("error", VStr "Method not allowed") ].

Definition invalid_json_response : Response :=
  json_response 400
    [ ("success", VBool false); ("error", VStr "Invalid JSON in request body") ].

Definition validation_failed_response (messages : list string) : Response :=
  json_response 400
    [ ("success", VBool false);
      ("error", VStr "Validation failed");
      ("errors", VArr (map VStr messages)) ].

Definition configuration_error_response : Response :=
  json_response 500
    [ ("success", VBool false); ("error", VStr "Server configuration error") ].

Definition internal_error_response : Response :=
  json_response 500
    [ ("success", VBool false); ("error", VStr "Internal server error") ].

(* ================================================================== *)
(** ** The language of a regular expression *)
(* ================================================================== *)

(** [Matches r s]: the string [s] belongs to the language of [r]. *)
Inductive Matches : Regex.regex -> string -> Prop :=
| M_Eps : Matches Regex.Eps ""
| M_Class (p : ascii -> bool) (c : ascii) :
    p c = true -> Matches (Regex.Class p) (String c "")
| M_Cat (r s : Regex.regex) (x y : string) :
    Matches r x -> Matches s y -> Matches (Regex.Cat r s) (x ++ y)
| M_AltL (r s : Regex.regex) (x : string) :
    Matches r x -> Matches (Regex.Alt r s) x
| M_AltR (r s : Regex.regex) (x : string) :
    Matches s x -> Matches (Regex.Alt r s) x
| M_Star0 (r : Regex.regex) : Matches (Regex.Star r) ""
| M_StarS (r : Regex.regex) (x y : string) :
    Matches r x -> Matches (Regex.Star r) y -> Matches (Regex.Star r) (x ++ y).

Fixpoint all_chars (p : ascii -> bool) (s : string) : bool :=
  match s with
  | EmptyString => true
  | String c s' => p c && all_chars p s'
  end.

(** The character class [[^\s@]]. *)
Definition email_char (c : ascii) : bool :=
  negb (is_whitespace c || (c =? "@")%char).

(** A non-empty run of [[^\s@]] characters. *)
Definition email_part (x : string) : Prop :=
  x <> "" /\ all_chars email_char x = true.

(** JSON bodies that are not objects and not [null]. *)
Definition not_an_object (v : value) : bool :=
  match v with
  | VBool _ | VNum _ | VStr _ | VArr _ => true
  | _ => false
  end.

(** The three messages a payload without any field gets. *)
Definition required_messages : list string :=
  [ "App URL is required"; "Email is required";
    "At least one service must be selected" ].

Fixpoint count_char (c : ascii) (s : string) : nat :=
  match s with
  | EmptyString => 0%nat
  | String c' s' => ((if (c' =? c)%char then 1 else 0) + count_char c s')%nat
  end.

(** How many of the names are listed in a catalog. *)
Definition count_listed (catalog : list (string * Z)) (names : list string) : Z :=
  Z.of_nat (List.length (filter (in_catalog catalog) names)).

(** The running totals of the engine hold a number or a string. *)
Definition number_or_string (v : value) : bool :=
  match v with
  | VNum _ | VStr _ => true
  | _ => false
  end.

Definition is_number (v : value) : bool :=
  match v with
  | VNum _ => true
  | _ => false
  end.

(** [data.key] where the read cannot throw (after validation has returned,
    [data] is neither [null] nor [undefined]). *)
Definition property (data : value) (key : string) : value :=
  match Get data key with
  | Ok x => x
  | Throw _ => VUndefined
  end.

(** The record the handler builds from a payload and its price. *)
Definition stored_record (rt : Runtime) (env : Env) (data : value) (p : PricingResult)
  : AirtableRecord :=
  {| rec_base := env.(AIRTABLE_BASE_ID);
     rec_table := js_or env.(AIRTABLE_TABLE_NAME) (VStr "Estimate Requests");
     rec_fields :=
       [ ("App URL", property data "appUrl");
         ("Email", property data "email");
         ("Platform", js_or (property data "platform") (VStr "Not specified"));
         ("Selected Features", js_or (property data "selectedFeatures") VNull);
         ("Selected Services", js_or (property data "selectedServices") VNull);
         ("Custom Request",
          js_or (VBool (truthy (property data "hasCustomRequest"))) (VBool false));
         ("Custom Request Description", js_or (property data "customRequestText") VNull);
         ("Notes", js_or (property data "additionalContext") VNull);
         ("Estimated Price", p.(total));
         ("Feature Discount", p.(discount));
         ("Timestamp", js_or (property data "timestamp") (VStr rt.(Date_now_toISOString)));
         ("Status", VStr "New") ] |}.

Definition success_response : Response :=
  json_response 200
    [ ("success", VBool true);
      ("message", VStr "Estimate request submitted successfully") ].

Definition save_failed_response (details : string) : Response :=
  json_response 500
    [ ("success", VBool false);
      ("error", VStr "Failed to save to database");
      ("details", VStr details) ].

(** The conditions under which a submission is stored. *)
Definition accepted_submission (rt : Runtime) (request : Request) (env : Env)
  (data : value) (p : PricingResult) : Prop :=
  request.(method) = "POST"
  /\ request.(json) = Some data
  /\ (exists v, validateEstimateForm rt data = Ok v /\ v.(isValid) = true)
  /\ truthy env.(AIRTABLE_API_KEY) = true
  /\ truthy env.(AIRTABLE_BASE_ID) = true
  /\ calculatePricing (property data "selectedFeatures") (property data "selectedServices")
       (property data "hasCustomRequest") = Ok p.

(** The properties of the payload the worker reads. *)
Definition read_keys : list string :=
  [ "appUrl"; "email"; "selectedFeatures"; "selectedServices"; "hasCustomRequest";
    "customRequestText"; "platform"; "additionalContext"; "timestamp" ].

(** The same request with another body. *)
Definition with_json (request : Request) (payload : option value) : Request :=
  {| method := request.(method); origin := request.(origin);
     pathname := request.(pathname); json := payload |}.



(* ================================================================== *)
(** ** The estimate form (client script) *)
(* ================================================================== *)

(** The script of the estimate page: it keeps the selection in a [state]
    object, shows a live estimate and posts the request to the worker.  The
    page itself (its elements, the cards with their [data-id] and
    [data-price] attributes, the controls of the form) is not part of the
    script and is a parameter: a [Dom].  Calls that only move the viewport
    ([scrollIntoView], [window.scrollTo]) or write to the console are left
    out, and so is the wiring of the listeners: each handler is modelled on
    the event it receives. *)
Module Client.

(** An entry of [state.selectedFeatures] / [state.selectedServices]:
    [{ id, name }]. *)
Record Item : Type := { id : value; name : value }.

Record State : Type := {
  selectedFeatures : list Item;
  selectedServices : list Item;
  hasCustomRequest : bool;
  customRequestText : string;
  appUrl : string;
  platform : string;
  otherPlatform : string;
  email : string;
  additionalContext : string;
  totalPrice : number;
  featureDiscount : number
}.

Definition initial_state : State := {|
  selectedFeatures := [];
  selectedServices := [];
  hasCustomRequest := false;
  customRequestText := "";
  appUrl := "";
  platform := "";
  otherPlatform := "";
  email := "";
  additionalContext := "";
  totalPrice := Fin 0;
  featureDiscount := Fin 0
|}.

Record ClientPricing : Type := {
  features : Z;
  security : Z;
  uiux : Z;
  deployment : Z;
  customBase : Z;
  featureDiscountThreshold : Z;
  featureDiscountRate : Q
}.

Definition pricing : ClientPricing := {|
  features := 100;
  security := 150;
  uiux := 150;
  deployment := 100;
  customBase := 250;
  featureDiscountThreshold := 3;
  featureDiscountRate := 1 # 10
|}.

Definition nameMapping : list (string * string) :=
  [ ("authentication", "Authentication");
    ("payments", "Payments");
    ("saas", "SaaS Subscriptions");
    ("uploads", "File Uploads");
    ("notifications", "Notifications");
    ("security", "Security Audit & Fixes");
    ("uiux", "UI/UX Review");
    ("deployment", "Deploy to Production");
    ("lovable", "Lovable");
    ("cursor", "Cursor");
    ("claude", "Claude Code");
    ("bolt", "Bolt.new");
    ("replit", "Replit");
    ("windsurf", "Windsurf");
    ("other", "Other") ].

(** [nameMapping[key]]: an object literal again, so own properties first
    and then [Object.prototype]. *)
Definition Get_nameMapping (key : value) : result value :=
  k <- ToPropertyKey key ;;
  Ok match own_property k nameMapping with
     | Some s => VStr s
     | None =>
         match Object_prototype_get k with
         | Some x => x
         | None => VUndefined
         end
     end.

(** [a === b] on the values an id can be (a [dataset] entry is a string or
    [undefined]); two objects are never taken for equal. *)
Definition strict_eq (a b : value) : bool :=
  match a, b with
  | VUndefined, VUndefined => true
  | VNull, VNull => true
  | VBool x, VBool y => Bool.eqb x y
  | VNum (Fin x), VNum (Fin y) => x =? y
  | VStr x, VStr y => (x =? y)%string
  | _, _ => false
  end.

(** *** The page *)

(** A selection card: its [dataset.id] and [dataset.price], each a string
    or [undefined]. *)
Record Card : Type := { dataset_id : value; dataset_price : value }.

(** The page as the script sees it.  Elements are named as in the
    [elements] object of the script (or by their id); [cards] answers
    [document.querySelector] for a selector: the first matching card or
    [null], or an exception for a selector that is not valid; [defaults]
    gives, for each control inside the form, the value [form.reset()] puts
    back; [btnText] tells whether the button holds a [.btn-text] element. *)
Record Dom : Type := {
  cards : string -> result (option Card);
  classes : string -> list string;
  texts : string -> string;
  values : string -> string;
  requireds : string -> bool;
  disableds : string -> bool;
  defaults : string -> option string;
  btnText : bool
}.

(** What an event handler reads from its event: [e.target.checked],
    [e.target.value] and [e.target.closest('.selection-card')]. *)
Record Event : Type := {
  target_checked : bool;
  target_value : string;
  target_card : option Card
}.

Record World : Type := { state : State; dom : Dom }.

(** Script code: it may throw, and it changes the state and the page. *)
Definition CM (A : Type) : Type := World -> result A * World.

Definition ret {A : Type} (a : A) : CM A := fun w => (Ok a, w).

Definition bind {A B : Type} (m : CM A) (k : A -> CM B) : CM B :=
  fun w =>
    match m w with
    | (Ok a, w') => k a w'
    | (Throw e, w') => (Throw e, w')
    end.

Definition lift {A : Type} (r : result A) : CM A := fun w => (r, w).

Definition get_state : CM State := fun w => (Ok w.(state), w).

Definition get_dom : CM Dom := fun w => (Ok w.(dom), w).

Definition set_state (f : State -> State) : CM unit :=
  fun w => (Ok tt, {| state := f w.(state); dom := w.(dom) |}).

Definition set_dom (f : Dom -> Dom) : CM unit :=
  fun w => (Ok tt, {| state := w.(state); dom := f w.(dom) |}).

Declare Scope client_scope.
Delimit Scope client_scope with client.
Notation "x <- m ;; k" := (bind m (fun x => k))
  (at level 61, m at next level, right associativity) : client_scope.
Notation "m ;;; k" := (bind m (fun _ => k))
  (at level 61, right associativity) : client_scope.

Definition update {A : Type} (f : string -> A) (key : string) (a : A) : string -> A :=
  fun k => if (k =? key)%string then a else f k.

(** [classList.add] and [classList.remove] on a list of class names. *)
Definition add_class (c : string) (l : list string) : list string :=
  if existsb (String.eqb c) l then l else (l ++ [c])%list.

Definition remove_class (c : string) (l : list string) : list string :=
  filter (fun c' => negb (c' =? c)%string) l.

Definition classList_add (el c : string) : CM unit :=
  set_dom (fun d =>
    {| cards := d.(cards); classes := update d.(classes) el (add_class c (d.(classes) el));
       texts := d.(texts); values := d.(values); requireds := d.(requireds);
       disableds := d.(disableds); defaults := d.(defaults); btnText := d.(btnText) |}).

Definition classList_remove (el c : string) : CM unit :=
  set_dom (fun d =>
    {| cards := d.(cards);
       classes := update d.(classes) el (remove_class c (d.(classes) el));
       texts := d.(texts); values := d.(values); requireds := d.(requireds);
       disableds := d.(disableds); defaults := d.(defaults); btnText := d.(btnText) |}).

Definition set_textContent (el s : string) : CM unit :=
  set_dom (fun d =>
    {| cards := d.(cards); classes := d.(classes); texts := update d.(texts) el s;
       values := d.(values); requireds := d.(requireds); disableds := d.(disableds);
       defaults := d.(defaults); btnText := d.(btnText) |}).

Definition set_value (el s : string) : CM unit :=
  set_dom (fun d =>
    {| cards := d.(cards); classes := d.(classes); texts := d.(texts);
       values := update d.(values) el s; requireds := d.(requireds);
       disableds := d.(disableds); defaults := d.(defaults); btnText := d.(btnText) |}).

Definition set_required (el : string) (b : bool) : CM unit :=
  set_dom (fun d =>
    {| cards := d.(cards); classes := d.(classes); texts := d.(texts);
       values := d.(values); requireds := update d.(requireds) el b;
       disableds := d.(disableds); defaults := d.(defaults); btnText := d.(btnText) |}).

Definition set_disabled (el : string) (b : bool) : CM unit :=
  set_dom (fun d =>
    {| cards := d.(cards); classes := d.(classes); texts := d.(texts);
       values := d.(values); requireds := d.(requireds);
       disableds := update d.(disableds) el b; defaults := d.(defaults);
       btnText := d.(btnText) |}).

(** [form.reset()]: every control of the form gets its default value. *)
Definition form_reset : CM unit :=
  set_dom (fun d =>
    {| cards := d.(cards); classes := d.(classes); texts := d.(texts);
       values := fun k => match d.(defaults) k with Some v => v | None => d.(values) k end;
       requireds := d.(requireds); disableds := d.(disableds);
       defaults := d.(defaults); btnText := d.(btnText) |}).

(** The double quote of the attribute selectors. *)
Definition dquote : string := String (ascii_of_nat 34) EmptyString.

(** *** parseInt

    [parseInt(v)] without a radix: leading white space is skipped, a sign
    is read, [0x] switches to base 16, and the longest run of digits is
    converted; without a digit the result is NaN.  The result is kept as an
    exact integer. *)
Definition hex_digit (c : ascii) : option Z :=
  let n := N_of_ascii c in
  if ((48 <=? n) && (n <=? 57))%N then Some (Z.of_N n - 48)
  else if ((97 <=? n) && (n <=? 102))%N then Some (Z.of_N n - 87)
  else if ((65 <=? n) && (n <=? 70))%N then Some (Z.of_N n - 55)
  else None.

Fixpoint read_digits (digit : ascii -> option Z) (radix : Z) (s : string) (acc : option Z)
  : option Z :=
  match s with
  | EmptyString => acc
  | String c s' =>
      match digit c with
      | Some d =>
          read_digits digit radix s'
            (Some (radix * match acc with Some a => a | None => 0 end + d))
      | None => acc
      end
  end.

Definition parseInt (v : value) : result number :=
  inputString <- ToString v ;;
  let s := strip_start is_whitespace inputString in
  let (sign, s) :=
    match s with
    | String "-" r => (-1, r)
    | String "+" r => (1, r)
    | _ => (1, s)
    end in
  let mathInt :=
    match s with
    | String "0" (String "x" r) => read_digits hex_digit 16 r None
    | String "0" (String "X" r) => read_digits hex_digit 16 r None
    | _ => read_digits digit_value 10 s None
    end in
  Ok match mathInt with
     | Some z => Fin (sign * z)
     | None => NaN
     end.

(** [Math.round(n * rate)] on a number. *)
Definition round_times (n : number) (rate : Q) : number :=
  match n with
  | Fin z => Fin (Math_round (inject_Z z * rate))
  | NaN => NaN
  end.

(** *** The estimate *)

Record LineItem : Type := { label : value; price : number }.

Record Breakdown : Type := {
  bd_features : list LineItem;
  bd_services : list LineItem;
  hasCustom : bool
}.

Record Estimate : Type := {
  total : number;
  discount : number;
  breakdown : Breakdown
}.

(** [card.dataset.price] for the element [document.querySelector(selector)]
    returns; reading [dataset] of [null] throws. *)
Definition card_price (d : Dom) (selector : string) : result number :=
  (found <- d.(cards) selector ;;
   match found with
   | None => throwTypeError "Cannot read properties of null (reading 'dataset')"
   | Some card => parseInt card.(dataset_price)
   end)%js.

(** The template literals of the two lookups. *)
Definition feature_selector (item_id : value) : result string :=
  s <- ToString item_id ;;
  Ok (".feature-card[data-id=" ++ dquote ++ s ++ dquote ++ "]").

Definition service_selector (item_id : value) : result string :=
  s <- ToString item_id ;;
  Ok ("[data-id=" ++ dquote ++ s ++ dquote ++ "]").

(** The two [forEach] loops of [calculateEstimate], threading [total] and
    the line items pushed so far. *)
Fixpoint price_items (d : Dom) (selector : value -> result string) (items : list Item)
  (acc : number * list LineItem) : result (number * list LineItem) :=
  match items with
  | [] => Ok acc
  | item :: rest =>
      (sel <- selector item.(id) ;;
       price <- card_price d sel ;;
       let label := item.(name) in
       price_items d selector rest
         (number_add (fst acc) price,
          (snd acc ++ [ {| label := label; price := price |} ])%list))%js
  end.

(** [calculateEstimate()] *)
Definition calculateEstimate : CM Estimate :=
  (st <- get_state ;;
   d <- get_dom ;;
   let total := Fin 0 in
   let discount := Fin 0 in
   (* Calculate features *)
   fs <- lift (price_items d feature_selector st.(selectedFeatures) (total, [])) ;;
   let total := fst fs in
   let features := snd fs in
   (* Apply discount if 3+ features *)
   let '(total, discount) :=
     if pricing.(featureDiscountThreshold) <=? Z.of_nat (List.length features) then
       let featuresTotal :=
         fold_left (fun sum item => number_add sum item.(price)) features (Fin 0) in
       let discount := round_times featuresTotal pricing.(featureDiscountRate) in
       (number_sub total discount, discount)
     else (total, discount) in
   (* Calculate services *)
   ss <- lift (price_items d service_selector st.(selectedServices) (total, [])) ;;
   let total := fst ss in
   let services := snd ss in
   set_state (fun s =>
     {| selectedFeatures := s.(selectedFeatures);
        selectedServices := s.(selectedServices);
        hasCustomRequest := s.(hasCustomRequest);
        customRequestText := s.(customRequestText);
        appUrl := s.(appUrl); platform := s.(platform);
        otherPlatform := s.(otherPlatform); email := s.(email);
        additionalContext := s.(additionalContext);
        totalPrice := total;
        featureDiscount := discount |}) ;;;
   ret {| total := total; discount := discount;
          breakdown := {| bd_features := features; bd_services := services;
                          hasCustom := st.(hasCustomRequest) |} |})%client.

(** [trackEvent(eventName, data)] writes to the console only. *)
Definition trackEvent (eventName : string) : CM unit := ret tt.

(** [updateEstimateSummary()] *)
Definition updateEstimateSummary : CM unit :=
  (est <- calculateEstimate ;;
   (* Update total display *)
   let totalText :=
     if est.(breakdown).(hasCustom)
     then "$" ++ Number_toString est.(total) ++ "+"
     else "$" ++ Number_toString est.(total) in
   set_textContent "totalEstimate" totalText ;;;
   (* Show/hide custom request note *)
   if est.(breakdown).(hasCustom)
   then classList_remove "customRequestNote" "d-none"
   else classList_add "customRequestNote" "d-none")%client.

(** [updateLiveCalculation()] *)
Definition updateLiveCalculation : CM unit :=
  (st <- get_state ;;
   let featureCount := Z.of_nat (List.length st.(selectedFeatures)) in
   let hasServices := 0 <? Z.of_nat (List.length st.(selectedServices)) in
   let hasCustom := st.(hasCustomRequest) in
   let hasSelections := (0 <? featureCount) || hasServices || hasCustom in
   (* Show/hide discount notice for features *)
   (if pricing.(featureDiscountThreshold) <=? featureCount
    then classList_remove "featureDiscount" "d-none"
    else classList_add "featureDiscount" "d-none") ;;;
   (* Update estimate summary *)
   if hasSelections then
     updateEstimateSummary ;;;
     classList_remove "estimateSummary" "d-none"
   else classList_add "estimateSummary" "d-none")%client.

Definition set_selectedFeatures (l : list Item) : CM unit :=
  set_state (fun s =>
    {| selectedFeatures := l;
       selectedServices := s.(selectedServices);
       hasCustomRequest := s.(hasCustomRequest);
       customRequestText := s.(customRequestText);
       appUrl := s.(appUrl); platform := s.(platform);
       otherPlatform := s.(otherPlatform); email := s.(email);
       additionalContext := s.(additionalContext);
       totalPrice := s.(totalPrice); featureDiscount := s.(featureDiscount) |}).

Definition set_selectedServices (l : list Item) : CM unit :=
  set_state (fun s =>
    {| selectedFeatures := s.(selectedFeatures);
       selectedServices := l;
       hasCustomRequest := s.(hasCustomRequest);
       customRequestText := s.(customRequestText);
       appUrl := s.(appUrl); platform := s.(platform);
       otherPlatform := s.(otherPlatform); email := s.(email);
       additionalContext := s.(additionalContext);
       totalPrice := s.(totalPrice); featureDiscount := s.(featureDiscount) |}).

(** The selection after a change of the checkbox of the card [itemId]:
    pushed when checked and not yet there, filtered out when unchecked. *)
Definition toggle_item (checked : bool) (itemId itemName : value) (selected : list Item)
  : list Item :=
  if checked then
    if negb (existsb (fun f => strict_eq f.(id) itemId) selected)
    then (selected ++ [ {| id := itemId; name := itemName |} ])%list
    else selected
  else filter (fun f => negb (strict_eq f.(id) itemId)) selected.

(** [handleFeatureChange(e)] *)
Definition handleFeatureChange (e : Event) : CM unit :=
  match e.(target_card) with
  | None => lift (throwTypeError "Cannot read properties of null (reading 'dataset')")
  | Some card =>
      (let featureId := card.(dataset_id) in
       mapped <- lift (Get_nameMapping featureId) ;;
       let featureName := js_or mapped featureId in
       st <- get_state ;;
       set_selectedFeatures
         (toggle_item e.(target_checked) featureId featureName st.(selectedFeatures)) ;;;
       updateLiveCalculation ;;;
       (* Track analytics *)
       trackEvent "feature_selected")%client
  end.

(** [handleServiceChange(e)] *)
Definition handleServiceChange (e : Event) : CM unit :=
  match e.(target_card) with
  | None => lift (throwTypeError "Cannot read properties of null (reading 'dataset')")
  | Some card =>
      (let serviceId := card.(dataset_id) in
       mapped <- lift (Get_nameMapping serviceId) ;;
       let serviceName := js_or mapped serviceId in
       st <- get_state ;;
       set_selectedServices
         (toggle_item e.(target_checked) serviceId serviceName st.(selectedServices)) ;;;
       updateLiveCalculation)%client
  end.

(** [handlePlatformChange(e)] *)
Definition handlePlatformChange (e : Event) : CM unit :=
  (let value := e.(target_value) in
   set_state (fun s =>
     {| selectedFeatures := s.(selectedFeatures);
        selectedServices := s.(selectedServices);
        hasCustomRequest := s.(hasCustomRequest);
        customRequestText := s.(customRequestText);
        appUrl := s.(appUrl); platform := value;
        otherPlatform := s.(otherPlatform); email := s.(email);
        additionalContext := s.(additionalContext);
        totalPrice := s.(totalPrice); featureDiscount := s.(featureDiscount) |}) ;;;
   if (value =? "other")%string then
     classList_remove "otherPlatformContainer" "d-none" ;;;
     set_required "otherPlatform" true
   else
     classList_add "otherPlatformContainer" "d-none" ;;;
     set_required "otherPlatform" false ;;;
     set_state (fun s =>
       {| selectedFeatures := s.(selectedFeatures);
          selectedServices := s.(selectedServices);
          hasCustomRequest := s.(hasCustomRequest);
          customRequestText := s.(customRequestText);
          appUrl := s.(appUrl); platform := s.(platform);
          otherPlatform := ""; email := s.(email);
          additionalContext := s.(additionalContext);
          totalPrice := s.(totalPrice); featureDiscount := s.(featureDiscount) |}) ;;;
     set_value "otherPlatform" "")%client.

(** [handleCustomRequestToggle(e)] *)
Definition handleCustomRequestToggle (e : Event) : CM unit :=
  (set_state (fun s =>
     {| selectedFeatures := s.(selectedFeatures);
        selectedServices := s.(selectedServices);
        hasCustomRequest := e.(target_checked);
        customRequestText := s.(customRequestText);
        appUrl := s.(appUrl); platform := s.(platform);
        otherPlatform := s.(otherPlatform); email := s.(email);
        additionalContext := s.(additionalContext);
        totalPrice := s.(totalPrice); featureDiscount := s.(featureDiscount) |}) ;;;
   (if e.(target_checked) then
      classList_remove "customRequestContainer" "d-none" ;;;
      trackEvent "custom_request_selected"
    else
      classList_add "customRequestContainer" "d-none" ;;;
      set_state (fun s =>
        {| selectedFeatures := s.(selectedFeatures);
           selectedServices := s.(selectedServices);
           hasCustomRequest := s.(hasCustomRequest);
           customRequestText := "";
           appUrl := s.(appUrl); platform := s.(platform);
           otherPlatform := s.(otherPlatform); email := s.(email);
           additionalContext := s.(additionalContext);
           totalPrice := s.(totalPrice); featureDiscount := s.(featureDiscount) |}) ;;;
      set_value "customRequest" "") ;;;
   updateLiveCalculation)%client.

(** [handleCustomRequestInput(e)] *)
Definition handleCustomRequestInput (e : Event) : CM unit :=
  (let value := e.(target_value) in
   set_state (fun s =>
     {| selectedFeatures := s.(selectedFeatures);
        selectedServices := s.(selectedServices);
        hasCustomRequest := s.(hasCustomRequest);
        customRequestText := value;
        appUrl := s.(appUrl); platform := s.(platform);
        otherPlatform := s.(otherPlatform); email := s.(email);
        additionalContext := s.(additionalContext);
        totalPrice := s.(totalPrice); featureDiscount := s.(featureDiscount) |}) ;;;
   set_textContent "charCount"
     (Number_toString (Fin (Z.of_nat (String.length value)))))%client.

(** [validateEmail()] *)
Definition validateEmail : CM bool :=
  (d <- get_dom ;;
   let email := String_trim (d.(values) "email") in
   if negb (truthy (VStr email)) then
     classList_add "email" "is-invalid" ;;; ret false
   else if negb (Regex.test emailRegex email) then
     classList_add "email" "is-invalid" ;;; ret false
   else
     classList_remove "email" "is-invalid" ;;;
     classList_add "email" "is-valid" ;;;
     ret true)%client.

(** [errors.join('. ')] *)
Fixpoint join (sep : string) (l : list string) : string :=
  match l with
  | [] => ""
  | [x] => x
  | x :: rest => x ++ sep ++ join sep rest
  end.

(** [validateForm()]; [new URL] is the constructor of the browser. *)
Definition validateForm (rt : Runtime) : CM bool :=
  (let isValid := true in
   let errors := [] in
   (* Validate app URL *)
   d <- get_dom ;;
   let appUrl := String_trim (d.(values) "appUrl") in
   r <- (if negb (truthy (VStr appUrl)) then
           classList_add "appUrl" "is-invalid" ;;;
           ret (push errors "Please enter your app URL", false)
         else if isValidUrl rt (VStr appUrl) then
           classList_remove "appUrl" "is-invalid" ;;;
           classList_add "appUrl" "is-valid" ;;;
           ret (errors, isValid)
         else
           classList_add "appUrl" "is-invalid" ;;;
           ret (push errors "Please enter a valid URL (e.g., https://example.com)", false)) ;;
   let errors := fst r in
   let isValid := snd r in
   (* Check if at least one option is selected *)
   st <- get_state ;;
   let hasSelections :=
     (0 <? Z.of_nat (List.length st.(selectedFeatures)))
     || (0 <? Z.of_nat (List.length st.(selectedServices)))
     || st.(hasCustomRequest) in
   let errors :=
     if negb hasSelections then push errors "Please select at least one service"
     else errors in
   let isValid := if negb hasSelections then false else isValid in
   (* Validate email *)
   emailOk <- validateEmail ;;
   let errors :=
     if negb emailOk then push errors "Please enter a valid email address" else errors in
   let isValid := if negb emailOk then false else isValid in
   (* Show errors if any *)
   (if negb isValid then
      set_textContent "errorMessage" (join ". " errors) ;;;
      classList_remove "errorMessage" "d-none"
    else classList_add "errorMessage" "d-none") ;;;
   ret isValid)%client.

(** [JSON.parse(JSON.stringify(v))]: what the worker receives of a value.
    [None] stands for a value that [JSON.stringify] leaves out of an object
    ([undefined], a function); in an array such a value becomes [null]. *)
Fixpoint wire (v : value) : option value :=
  match v with
  | VUndefined | VNative _ => None
  | VNum NaN => Some VNull
  | VArr elems =>
      Some (VArr (map (fun x => match wire x with Some y => y | None => VNull end) elems))
  | VObj props =>
      Some (VObj
        ((fix wire_props (ps : list (string * value)) : list (string * value) :=
            match ps with
            | [] => []
            | (k, x) :: rest =>
                match wire x with
                | Some y => (k, y) :: wire_props rest
                | None => wire_props rest
                end
            end) props))
  | VObjectPrototype => Some (VObj [])
  | _ => Some v
  end.

(** What the script knows of its surroundings when it submits: the origin
    of the page, the clock, and the answer to its [fetch] ([None] when the
    request fails on the network). *)
Record Network : Type := {
  page_origin : string;
  now : string;
  respond : Request -> option Response
}.

(** [try { body } catch (error) { handler } finally { final }] *)
Definition try_catch_finally (body : CM unit) (handler : exn -> CM unit) (final : CM unit)
  : CM unit :=
  fun w =>
    match body w with
    | (Ok _, w1) => final w1
    | (Throw e, w1) =>
        match handler e w1 with
        | (Ok _, w2) => final w2
        | (Throw e', w2) =>
            match final w2 with
            | (Ok _, w3) => (Throw e', w3)
            | (Throw e'', w3) => (Throw e'', w3)
            end
        end
    end.

(** [showSuccessMessage()] *)
Definition showSuccessMessage : CM unit :=
  ((* Hide form sections *)
   classList_add "form" "d-none" ;;;
   (* Show success message *)
   classList_remove "successMessage" "d-none" ;;;
   st <- get_state ;;
   set_textContent "confirmEmail" st.(email))%client.

(** [clearForm()] *)
Definition clearForm : CM unit :=
  ((* Reset form *)
   form_reset ;;;
   (* Reset state *)
   set_state (fun _ => initial_state) ;;;
   (* Reset UI *)
   classList_add "featureDiscount" "d-none" ;;;
   classList_add "customRequestContainer" "d-none" ;;;
   classList_add "otherPlatformContainer" "d-none" ;;;
   classList_add "estimateSummary" "d-none" ;;;
   classList_add "customRequestNote" "d-none")%client.

(** The [requestData] object of [handleSendRequest]. *)
Definition requestData (net : Network) (st : State) : result value :=
  (platformValue <-
     (if (st.(platform) =? "other")%string then Ok (VStr st.(otherPlatform))
      else mapped <- Get_nameMapping (VStr st.(platform)) ;;
           Ok (js_or mapped (VStr st.(platform)))) ;;
   Ok (VObj
         [ ("appUrl", VStr st.(appUrl));
           ("platform", platformValue);
           ("selectedFeatures", VArr (map name st.(selectedFeatures)));
           ("selectedServices", VArr (map name st.(selectedServices)));
           ("hasCustomRequest", VBool st.(hasCustomRequest));
           ("customRequestText", VStr st.(customRequestText));
           ("email", VStr st.(email));
           ("additionalContext", VStr st.(additionalContext));
           ("timestamp", VStr net.(now)) ]))%js.

(** The request the browser sends for
    [fetch('/api/submit-request', { method: 'POST', body: JSON.stringify(data) })]. *)
Definition post_request (net : Network) (data : value) : Request :=
  {| method := "POST"; origin := net.(page_origin);
     pathname := "/api/submit-request"; json := wire data |}.

(** [response.ok] *)
Definition response_ok (r : Response) : bool :=
  (200 <=? r.(status)) && (r.(status) <=? 299).

(** [await response.json()]: the body as it comes back from the wire; a
    response without a body has no JSON to parse. *)
Definition response_json (r : Response) : result value :=
  match r.(body) with
  | Some v =>
      match wire v with
      | Some parsed => Ok parsed
      | None => throwSyntaxError "Unexpected token in JSON"
      end
  | None => throwSyntaxError "Unexpected end of JSON input"
  end.

(** The assignments under "Update state from form". *)
Definition state_from_form (d : Dom) (s : State) : State :=
  {| selectedFeatures := s.(selectedFeatures);
     selectedServices := s.(selectedServices);
     hasCustomRequest := s.(hasCustomRequest);
     customRequestText := s.(customRequestText);
     appUrl := String_trim (d.(values) "appUrl");
     platform := s.(platform);
     otherPlatform :=
       if (s.(platform) =? "other")%string
       then String_trim (d.(values) "otherPlatform") else s.(otherPlatform);
     email := String_trim (d.(values) "email");
     additionalContext := String_trim (d.(values) "additionalContext");
     totalPrice := s.(totalPrice); featureDiscount := s.(featureDiscount) |}.

(** [handleSendRequest(e)] *)
Definition handleSendRequest (rt : Runtime) (net : Network) (e : Event) : CM unit :=
  ((* Validate form first *)
   valid <- validateForm rt ;;
   if negb valid then ret tt
   else
     (* Update state from form *)
     d <- get_dom ;;
     set_state (state_from_form d) ;;;
     (* Show loading state *)
     set_disabled "sendRequestBtn" true ;;;
     classList_add "sendRequestBtn" "btn-loading" ;;;
     let originalText :=
       if d.(btnText) && truthy (VStr (d.(texts) "btnText"))
       then d.(texts) "btnText" else "Send Request" in
     (if d.(btnText) then set_textContent "btnText" "Sending..." else ret tt) ;;;
     (* Prepare data *)
     st <- get_state ;;
     data <- lift (requestData net st) ;;
     try_catch_finally
       ((* Send request to API *)
        response <-
          lift match net.(respond) (post_request net data) with
               | Some r => Ok r
               | None => throwTypeError "Failed to fetch"
               end ;;
        result <- lift (response_json response) ;;
        success <- lift (Get result "success") ;;
        if negb (response_ok response) || negb (truthy success) then
          (* the message of the error is only logged *)
          lift (Throw (mkExn OtherError VUndefined "Failed to submit request"))
        else
          (* Track submission *)
          trackEvent "request_submitted" ;;;
          (* Show success message *)
          showSuccessMessage ;;;
          (* Clear form *)
          clearForm)
       (fun error =>
          (* Show error message *)
          set_textContent "errorMessage"
            "Failed to submit request. Please try again or contact us directly." ;;;
          classList_remove "errorMessage" "d-none" ;;;
          (* Track error *)
          trackEvent "request_submission_failed")
       ((* Reset button state *)
        set_disabled "sendRequestBtn" false ;;;
        classList_remove "sendRequestBtn" "btn-loading" ;;;
        if d.(btnText) then set_textContent "btnText" originalText else ret tt))%client.

End Client.

(** A [dataset] entry: a string, or [undefined] when the attribute is
    missing. *)
Definition dataset_value (v : value) : bool :=
  match v with
  | VStr _ | VUndefined => true
  | _ => false
  end.

(** Two states that show the same form: they differ at most in the stored
    estimate. *)
Definition same_form (s s' : Client.State) : Prop :=
  s'.(Client.selectedFeatures) = s.(Client.selectedFeatures)
  /\ s'.(Client.selectedServices) = s.(Client.selectedServices)
  /\ s'.(Client.hasCustomRequest) = s.(Client.hasCustomRequest)
  /\ s'.(Client.customRequestText) = s.(Client.customRequestText)
  /\ s'.(Client.appUrl) = s.(Client.appUrl)
  /\ s'.(Client.platform) = s.(Client.platform)
  /\ s'.(Client.otherPlatform) = s.(Client.otherPlatform)
  /\ s'.(Client.email) = s.(Client.email)
  /\ s'.(Client.additionalContext) = s.(Client.additionalContext).

(** The element [el] is hidden: its class list holds [d-none]. *)
Definition hidden (d : Client.Dom) (el : string) : Prop :=
  In "d-none" (d.(Client.classes) el).

(** The card of a selected item carries the catalog price of the item's
    name: the item is named by a string that is not an inherited property
    name, its selector finds a card, and the card's [data-price] parses to
    the unit price of that name. *)
Definition priced_as_listed (d : Client.Dom) (selector : value -> result string)
  (catalog : list (string * Z)) (item : Client.Item) : Prop :=
  exists n sel card,
    item.(Client.name) = VStr n
    /\ inherited n = false
    /\ selector item.(Client.id) = Ok sel
    /\ d.(Client.cards) sel = Ok (Some card)
    /\ Client.parseInt card.(Client.dataset_price) = Ok (Fin (unit_price catalog n)).

(** A sample page: one card per catalog entry, priced as the catalog. *)
Definition sample_card (card_id card_price : string) : Client.Card :=
  {| Client.dataset_id := VStr card_id; Client.dataset_price := VStr card_price |}.

Definition sample_cards : list (string * Client.Card) :=
  map (fun c : string * string =>
         (".feature-card[data-id=" ++ Client.dquote ++ fst c ++ Client.dquote ++ "]",
          sample_card (fst c) (snd c)))
      [ ("authentication", "100"); ("payments", "100"); ("saas", "100");
        ("uploads", "100"); ("notifications", "100") ]
  ++ map (fun c : string * string =>
            ("[data-id=" ++ Client.dquote ++ fst c ++ Client.dquote ++ "]",
             sample_card (fst c) (snd c)))
       [ ("security", "150"); ("uiux", "150"); ("deployment", "100") ].

Definition sample_page : Client.Dom :=
  {| Client.cards := fun selector => Ok (own_property selector sample_cards);
     Client.classes := fun _ => [];
     Client.texts := fun _ => "";
     Client.values :=
       fun el => if (el =? "appUrl")%string then " https://app.example.com "
                 else if (el =? "email")%string then "team@example.com"
                 else "";
     Client.requireds := fun _ => false;
     Client.disableds := fun _ => false;
     Client.defaults := fun _ => Some "";
     Client.btnText := true |}.

Definition sample_item (item_id item_name : string) : Client.Item :=
  {| Client.id := VStr item_id; Client.name := VStr item_name |}.

(** A filled form: three features and a service are selected. *)
Definition sample_world : Client.World :=
  {| Client.state :=
       {| Client.selectedFeatures :=
            [ sample_item "authentication" "Authentication";
              sample_item "payments" "Payments";
              sample_item "uploads" "File Uploads" ];
          Client.selectedServices := [ sample_item "uiux" "UI/UX Review" ];
          Client.hasCustomRequest := false;
          Client.customRequestText := "";
          Client.appUrl := ""; Client.platform := "cursor";
          Client.otherPlatform := ""; Client.email := "";
          Client.additionalContext := "";
          Client.totalPrice := Fin 0; Client.featureDiscount := Fin 0 |};
     Client.dom := sample_page |}.

Definition check_event (checked : bool) (card : Client.Card) : Client.Event :=
  {| Client.target_checked := checked; Client.target_value := "on";
     Client.target_card := Some card |}.

(** What [validateForm] checks, read off the page and the state. *)
Definition form_ok (rt : Runtime) (w : Client.World) : bool :=
  let d := w.(Client.dom) in
  let st := w.(Client.state) in
  let appUrl := String_trim (d.(Client.values) "appUrl") in
  let email := String_trim (d.(Client.values) "email") in
  (truthy (VStr appUrl) && isValidUrl rt (VStr appUrl))
  && ((0 <? Z.of_nat (List.length st.(Client.selectedFeatures)))
      || (0 <? Z.of_nat (List.length st.(Client.selectedServices)))
      || st.(Client.hasCustomRequest))
  && (truthy (VStr email) && Regex.test emailRegex email).

(** The answer to the submission counts as a success for the script:
    [response.ok] and a truthy [success] in the parsed body. *)
Definition accepted_answer (answer : option Response) : bool :=
  match answer with
  | Some r =>
      Client.response_ok r
      && match Client.response_json r with
         | Ok result =>
             match Get result "success" with
             | Ok s => truthy s
             | Throw _ => false
             end
         | Throw _ => false
         end
  | None => false
  end.

Definition failure_text : string :=
  "Failed to submit request. Please try again or contact us directly.".

(** The one message that a form accepted by the page can still get from the
    worker. *)
Definition custom_text_message : string :=
  "Custom request description is required when custom request is selected".

(** A custom request is checked and its description is blank. *)
Definition custom_text_missing (st : Client.State) : bool :=
  st.(Client.hasCustomRequest)
  && negb (truthy (VStr (String_trim st.(Client.customRequestText)))).

(** The page talks to the worker itself: the answer to a request is the
    response of [fetch] on a given environment and store. *)
Definition worker_network (rt : Runtime) (env : Env) (store : Airtable)
  (page_origin now : string) : Client.Network :=
  {| Client.page_origin := page_origin;
     Client.now := now;
     Client.respond := fun request => Some (fst (fetch rt request env store)) |}.

Definition sample_network : Client.Network :=
  worker_network lenient_runtime configured_env empty_store
    "https://finalize.example" "2026-01-01T00:00:00.000Z".

(** The sample form without a selection. *)
Definition unselected_world : Client.World :=
  {| Client.state := Client.initial_state; Client.dom := sample_page |}.

Definition click : Client.Event :=
  {| Client.target_checked := false; Client.target_value := "";
     Client.target_card := None |}.

(** Equal results up to integer arithmetic. *)
Ltac number_eq :=
  repeat match goal with
         | |- Ok _ = Ok _ => f_equal
         | |- Build_PricingResult _ _ = Build_PricingResult _ _ => f_equal
         | |- VNum _ = VNum _ => f_equal
         | |- Fin _ = Fin _ => f_equal
         end;
  lia.

(* ================================================================== *)
(** ** Pricing: what holds for names that miss [Object.prototype] *)
(* ================================================================== *)

Lemma bind_Ok {A B : Type} (a : A) (k : A -> result B) : bind (Ok a) k = k a.
Proof. reflexivity. Qed.

Lemma forEach_sum {S : Type} (inj : Z -> S) (body : S -> value -> result S)
  (catalog : list (string * Z)) (names : list string) :
  (forall a name, In name names ->
                  body (inj a) (VStr name) = Ok (inj (a + unit_price catalog name))) ->
  forall a, forEach body (map VStr names) (inj a)
            = Ok (inj (a + catalog_sum catalog names)).
Proof.
  induction names as [|name names IH]; intros Hbody a.
  - cbn. now rewrite Z.add_0_r.
  - cbn [map forEach catalog_sum fold_right].
    rewrite (Hbody a name) by (left; reflexivity).
    rewrite bind_Ok, IH.
    + fold (catalog_sum catalog names). now rewrite Z.add_assoc.
    + intros a' name' Hin. apply Hbody. right. exact Hin.
Qed.

Lemma Get_literal_plain (catalog : list (string * Z)) (name : string) :
  inherited name = false ->
  Get_literal catalog (VStr name)
  = Ok match own_property name catalog with
       | Some price => VNum (Fin price)
       | None => VUndefined
       end.
Proof.
  unfold inherited, Get_literal, ToPropertyKey. cbn [ToString bind].
  intros H.
  destruct (own_property name catalog); [reflexivity|].
  destruct (Object_prototype_get name); [discriminate|reflexivity].
Qed.

Lemma feature_price_nonzero (name : string) (price : Z) :
  own_property name PRICING.(features) = Some price -> price <> 0.
Proof.
  cbn. intros H.
  repeat match type of H with
         | (if ?c then _ else _) = _ => destruct c; [inversion H; lia|]
         end.
  discriminate.
Qed.

Lemma service_price_nonzero (name : string) (price : Z) :
  own_property name PRICING.(services) = Some price -> price <> 0.
Proof.
  cbn. intros H.
  repeat match type of H with
         | (if ?c then _ else _) = _ => destruct c; [inversion H; lia|]
         end.
  discriminate.
Qed.

Lemma truthy_price (price : Z) : price <> 0 -> truthy (VNum (Fin price)) = true.
Proof.
  intros H. cbn. destruct (Z.eqb_spec price 0); [contradiction|reflexivity].
Qed.

Lemma plain_names_In (names : list string) (name : string) :
  plain_names names -> In name names -> inherited name = false.
Proof.
  unfold plain_names. rewrite Forall_forall. intros H Hin. exact (H name Hin).
Qed.

(** On names that miss [Object.prototype] the engine computes the priced
    total of the specification, for any flag value. *)
Lemma calculatePricing_plain_names (fs ss : list string) (flag : bool) :
  plain_names fs -> plain_names ss ->
  calculatePricing (names_array fs) (names_array ss) (VBool flag)
  = Ok {| total := VNum (Fin (expected_total fs ss flag));
          discount := VNum (Fin (expected_discount fs)) |}.
Proof.
  intros Hfs Hss.
  unfold calculatePricing, names_array.
  rewrite (forEach_sum (fun a => (VNum (Fin a), VNum (Fin a))) _ PRICING.(features)).
  2:{ intros a name Hin.
      rewrite Get_literal_plain by (apply (plain_names_In fs); assumption).
      rewrite bind_Ok. unfold unit_price.
      destruct (own_property name PRICING.(features)) as [price|] eqn:E.
      - rewrite truthy_price by (eapply feature_price_nonzero; exact E).
        reflexivity.
      - cbn. now rewrite Z.add_0_r. }
  rewrite bind_Ok.
  cbn [truthy Get bind String.eqb Ascii.eqb Bool.eqb js_ge ToNumber ToPrimitive].
  rewrite length_map.
  unfold expected_total, expected_discount.
  set (F := catalog_sum PRICING.(features) fs).
  set (T := catalog_sum PRICING.(services) ss).
  assert (Hservices : forall t,
    forEach (fun total serviceName =>
               price <- Get_literal PRICING.(services) serviceName ;;
               if truthy price then js_add total price else Ok total)
            (map VStr ss) (VNum (Fin t)) = Ok (VNum (Fin (t + T)))).
  { intros t.
    apply (forEach_sum (fun a => VNum (Fin a)) _ PRICING.(services)).
    intros a name Hin.
    rewrite Get_literal_plain by (apply (plain_names_In ss); assumption).
    rewrite bind_Ok. unfold unit_price.
    destruct (own_property name PRICING.(services)) as [price|] eqn:E.
    - rewrite truthy_price by (eapply service_price_nonzero; exact E).
      reflexivity.
    - cbn. now rewrite Z.add_0_r. }
  destruct (PRICING.(featureDiscountThreshold) <=? Z.of_nat (List.length fs)).
  - cbn [bind Math_round_times ToNumber ToPrimitive js_sub number_sub].
    rewrite Hservices, bind_Ok.
    destruct flag; cbn; number_eq.
  - cbn [bind].
    rewrite Hservices, bind_Ok.
    destruct flag; cbn; number_eq.
Qed.

(* ================================================================== *)
(** ** Validation: the rules, one by one *)
(* ================================================================== *)

Lemma Get_object (props : list (string * value)) (key : string) :
  Get (VObj props) key = Ok (field props key).
Proof. reflexivity. Qed.

Lemma required_blank (v : value) :
  (if negb (truthy v) || negb (typeof_string v) then Ok true
   else trimmed <- call_trim v ;; Ok (negb (truthy trimmed)))
  = Ok (blank v).
Proof.
  destruct v as [| |b|n|s|l|props|name|]; try reflexivity.
  - destruct b; reflexivity.
  - destruct n as [z|]; [|reflexivity]. cbn. destruct (z =? 0); reflexivity.
  - cbn [truthy typeof_string negb orb blank].
    destruct (s =? "")%string eqn:E.
    + apply String.eqb_eq in E. subst s. reflexivity.
    + reflexivity.
Qed.

Lemma custom_blank (h t : value) :
  (if truthy h then
     if negb (truthy t) then Ok true
     else trimmed <- call_trim t ;; Ok (negb (truthy trimmed))
   else Ok false)
  = if custom_text_throws h t then throwTypeError "trim is not a function"
    else Ok (truthy h && (negb (truthy t) || blank t)).
Proof.
  unfold custom_text_throws.
  destruct (truthy h); [|reflexivity].
  destruct t as [| |b|n|s|l|props|name|]; try reflexivity.
  - destruct b; reflexivity.
  - destruct n as [z|]; [|reflexivity]. cbn. destruct (z =? 0); reflexivity.
  - cbn [truthy typeof_string negb andb orb blank].
    destruct (s =? "")%string eqn:E; [reflexivity|].
    cbn. reflexivity.
Qed.

(** Validation of an object payload, in closed form: it throws exactly when
    the custom-request rule meets a description without [trim], and
    otherwise returns every triggered message. *)
Lemma validateEstimateForm_object (rt : Runtime) (props : list (string * value)) :
  validateEstimateForm rt (VObj props)
  = if custom_text_throws (field props "hasCustomRequest") (field props "customRequestText")
    then throwTypeError "trim is not a function"
    else Ok {| isValid := (List.length (triggered rt props) =? 0)%nat;
               errors := triggered rt props |}.
Proof.
  assert (Hemail :
    forall acc : list string,
      (if blank (field props "email") then Ok (push acc "Email is required")
       else ok <- isValidEmail (field props "email") ;;
            if negb ok then Ok (push acc "Email must be a valid email address")
            else Ok acc)
      = Ok (acc ++ email_rule (field props "email"))%list).
  { intros acc. unfold email_rule.
    destruct (field props "email") as [| |b|n|s|l|ps|name|]; try reflexivity.
    cbn [isValidEmail ToString bind].
    destruct (blank (VStr s)); [reflexivity|].
    destruct (Regex.test emailRegex s); cbn [negb]; [|reflexivity].
    now rewrite app_nil_r. }
  assert (Heq :
    forall l1 l2 : list string, l1 = l2 ->
      Ok {| isValid := (List.length l1 =? 0)%nat; errors := l1 |}
      = Ok {| isValid := (List.length l2 =? 0)%nat; errors := l2 |}).
  { intros l1 l2 ->. reflexivity. }
  unfold validateEstimateForm, triggered, url_rule, selection_rule,
    array_rule, custom_rule.
  rewrite !Get_object, bind_Ok. cbv beta.
  rewrite required_blank, bind_Ok. cbv beta.
  rewrite bind_Ok. cbv beta.
  rewrite required_blank, bind_Ok. cbv beta.
  rewrite Hemail, bind_Ok. cbv beta.
  rewrite !bind_Ok. cbv beta.
  rewrite custom_blank.
  destruct (custom_text_throws _ _); [reflexivity|].
  rewrite bind_Ok. cbv beta.
  apply Heq.
  fold (nonempty_array (field props "selectedFeatures")).
  fold (nonempty_array (field props "selectedServices")).
  generalize (email_rule (field props "email")).
  generalize (truthy (field props "hasCustomRequest")
              && (negb (truthy (field props "customRequestText"))
                  || blank (field props "customRequestText"))).
  generalize (nonempty_array (field props "selectedFeatures")).
  generalize (nonempty_array (field props "selectedServices")).
  generalize (strict_eq_true (field props "hasCustomRequest")).
  generalize (truthy (field props "selectedFeatures")
              && negb (Array_isArray (field props "selectedFeatures"))).
  generalize (truthy (field props "selectedServices")
              && negb (Array_isArray (field props "selectedServices"))).
  generalize (isValidUrl rt (field props "appUrl")).
  generalize (blank (field props "appUrl")).
  intros b1 b2 b3 b4 b5 b6 b7 b8 e. unfold push.
  destruct b1, b2, b3, b4, b5, b6, b7, b8; cbn [negb andb];
    repeat rewrite <- app_assoc; cbn [app]; repeat rewrite app_nil_r; reflexivity.
Qed.

(* ================================================================== *)
(** ** Pricing: the claims *)
(* ================================================================== *)

(** The two examples of the specification. *)
Example pricing_three_features :
  calculatePricing (names_array ["Authentication"; "Payments"; "SaaS Subscriptions"])
    (names_array []) (VBool false)
  = Ok {| total := VNum (Fin 270); discount := VNum (Fin 30) |}.
Proof. reflexivity. Qed.

Example pricing_service_and_custom_request :
  calculatePricing (names_array []) (names_array ["Security Audit & Fixes"]) (VBool true)
  = Ok {| total := VNum (Fin 400); discount := VNum (Fin 0) |}.
Proof. reflexivity. Qed.

Example pricing_empty_selection :
  calculatePricing (names_array []) (names_array []) (VBool false)
  = Ok {| total := VNum (Fin 0); discount := VNum (Fin 0) |}.
Proof. reflexivity. Qed.

Example pricing_unlisted_name :
  calculatePricing (names_array ["Authentication"; "Payments"; "Bogus"])
    (names_array []) (VBool false)
  = Ok {| total := VNum (Fin 180); discount := VNum (Fin 20) |}.
Proof. reflexivity. Qed.

(** Below the threshold the discount stays at its initial 0, whatever the
    array holds. *)
Lemma discount_below_threshold (elems : list value) (ss h : value) (r : PricingResult) :
  Z.of_nat (List.length elems) < PRICING.(featureDiscountThreshold) ->
  calculatePricing (VArr elems) ss h = Ok r ->
  r.(discount) = VNum (Fin 0).
Proof.
  intros Hlen. unfold calculatePricing.
  destruct (forEach _ elems _) as [[ft t]|e]; [|discriminate].
  rewrite bind_Ok.
  cbn [truthy Get bind String.eqb Ascii.eqb Bool.eqb js_ge ToNumber ToPrimitive].
  destruct (Z.leb_spec PRICING.(featureDiscountThreshold) (Z.of_nat (List.length elems)));
    [lia|].
  cbn [bind].
  destruct (match ss with VArr names => _ | _ => _ end) as [t'|e]; [|discriminate].
  rewrite bind_Ok.
  destruct (if truthy h then _ else _) as [t''|e]; [|discriminate].
  rewrite bind_Ok. intros Hr. inversion Hr. reflexivity.
Qed.

(** When [selectedFeatures] is not an array nothing is summed, and the
    discount is 0 whichever way the comparison of its [length] goes. *)
Lemma discount_without_array (sf ss h : value) (r : PricingResult) :
  Array_isArray sf = false ->
  calculatePricing sf ss h = Ok r ->
  r.(discount) = VNum (Fin 0).
Proof.
  intros Harr. unfold calculatePricing.
  assert (Hloop :
    match sf with
    | VArr names =>
        forEach (fun '(featuresTotal, total) featureName =>
                   price <- Get_literal PRICING.(features) featureName ;;
                   if truthy price then
                     featuresTotal <- js_add featuresTotal price ;;
                     total <- js_add total price ;;
                     Ok (featuresTotal, total)
                   else Ok (featuresTotal, total))
                names (VNum (Fin 0), VNum (Fin 0))
    | _ => Ok (VNum (Fin 0), VNum (Fin 0))
    end = Ok (VNum (Fin 0), VNum (Fin 0))).
  { destruct sf; try reflexivity; discriminate Harr. }
  rewrite Hloop, bind_Ok.
  destruct (if truthy sf then _ else _) as [applies|e]; [|discriminate].
  rewrite bind_Ok.
  destruct applies; cbn [bind Math_round_times ToNumber ToPrimitive js_sub number_sub].
  - destruct (match ss with VArr names => _ | _ => _ end) as [t'|e]; [|discriminate].
    rewrite bind_Ok.
    destruct (if truthy h then _ else _) as [t''|e]; [|discriminate].
    rewrite bind_Ok. intros Hr. inversion Hr. reflexivity.
  - destruct (match ss with VArr names => _ | _ => _ end) as [t'|e]; [|discriminate].
    rewrite bind_Ok.
    destruct (if truthy h then _ else _) as [t''|e]; [|discriminate].
    rewrite bind_Ok. intros Hr. inversion Hr. reflexivity.
Qed.

(** C1 (failing input): a selected feature named [constructor] is not in the
    catalog, so the specification prices the selection at 0; the engine
    finds [Object] through the prototype of the catalog object, takes it for
    a price and returns a string as the total. *)
Theorem C1_inherited_name_is_priced :
  in_catalog PRICING.(features) "constructor" = false
  /\ expected_total ["constructor"] [] false = 0
  /\ calculatePricing (names_array ["constructor"]) (names_array []) (VBool false)
     = Ok {| total := VStr "0function Object() { [native code] }";
             discount := VNum (Fin 0) |}.
Proof. repeat split. Qed.

(** C2 (failing input): with three selected features of which one is named
    [constructor], the feature subtotal of the specification is 200 and its
    discount 20; the engine's subtotal has become a string, and both the
    discount and the total it returns are NaN. *)
Theorem C2_discount_is_NaN_on_inherited_name :
  catalog_sum PRICING.(features) ["constructor"; "Payments"; "Payments"] = 200
  /\ expected_discount ["constructor"; "Payments"; "Payments"] = 20
  /\ calculatePricing (names_array ["constructor"; "Payments"; "Payments"])
       (names_array []) (VBool false)
     = Ok {| total := VNum NaN; discount := VNum NaN |}.
Proof. repeat split. Qed.

(** C9 (failing input): three entries, two of them in the catalog and the
    third named [toString]: the recognised subtotal is 200, so the claim
    gives discount 20 and total 180; the engine returns NaN for both. *)
Theorem C9_raw_length_with_inherited_name :
  List.length (filter (in_catalog PRICING.(features))
                 ["Authentication"; "Payments"; "toString"]) = 2%nat
  /\ catalog_sum PRICING.(features) ["Authentication"; "Payments"; "toString"] = 200
  /\ expected_discount ["Authentication"; "Payments"; "toString"] = 20
  /\ calculatePricing (names_array ["Authentication"; "Payments"; "toString"])
       (names_array []) (VBool false)
     = Ok {| total := VNum NaN; discount := VNum NaN |}.
Proof. repeat split. Qed.

(* ================================================================== *)
(** ** Validation: the claims *)
(* ================================================================== *)

(** No rule but the first produces a message about the App URL. *)
Lemma other_rules_silent_on_url (props : list (string * value)) (m : string) :
  In m url_messages ->
  ~ In m (email_rule (field props "email")
          ++ selection_rule (field props "selectedFeatures")
               (field props "selectedServices") (field props "hasCustomRequest")
          ++ array_rule (field props "selectedFeatures") "Selected features must be an array"
          ++ array_rule (field props "selectedServices") "Selected services must be an array"
          ++ custom_rule (field props "hasCustomRequest") (field props "customRequestText")).
Proof.
  intros Hm Hin.
  unfold email_rule, selection_rule, array_rule, custom_rule in Hin.
  repeat (apply in_app_or in Hin; destruct Hin as [Hin|Hin]);
    repeat match type of Hin with
           | In _ (match ?x with _ => _ end) => destruct x
           end;
    cbn in Hin, Hm; intuition (subst; discriminate).
Qed.

(** The App URL rule is silent exactly on a string that is not blank and
    that the URL constructor parses. *)
Lemma url_rule_nil (rt : Runtime) (appUrl : value) :
  url_rule rt appUrl = [] <->
  exists s u, appUrl = VStr s /\ String_trim s <> ""
              /\ URL.parse rt.(URL_authority) s = Some u.
Proof.
  unfold url_rule, isValidUrl. split.
  - destruct appUrl as [| |b|n|s|l|ps|name|]; cbn [blank]; try discriminate.
    cbn [ToString truthy].
    destruct (String.eqb_spec (String_trim s) ""); cbn [negb]; [discriminate|].
    destruct (URL.parse (URL_authority rt) s) as [u|] eqn:Hu; cbn [negb]; [|discriminate].
    intros _. exists s, u. auto.
  - intros (s & u & -> & Hs & Hu). cbn [blank ToString truthy].
    destruct (String.eqb_spec (String_trim s) ""); [contradiction|].
    cbn [negb]. now rewrite Hu.
Qed.

(** Every URL the parser returns has a scheme, read off the input. *)
Lemma parse_has_scheme (authority : string -> string -> option string) (s : string)
  (u : URL.record) :
  URL.parse authority s = Some u ->
  exists rest, URL.scheme_start_state (url_input s) = Some (u.(URL.scheme), rest).
Proof.
  unfold URL.parse. fold (url_input s).
  destruct (URL.scheme_start_state (url_input s)) as [[scheme rest]|]; [|discriminate].
  intros H. exists rest. f_equal. f_equal.
  destruct (scheme =? "file")%string eqn:Efile.
  - apply String.eqb_eq in Efile. subst scheme.
    unfold URL.file_state, URL.with_authority in H.
    repeat match type of H with
           | match ?x with _ => _ end = _ => destruct x
           | (if ?x then _ else _) = _ => destruct x
           end; inversion H; reflexivity.
  - unfold URL.with_authority in H.
    repeat match type of H with
           | match ?x with _ => _ end = _ => destruct x
           | (if ?x then _ else _) = _ => destruct x
           end; inversion H; reflexivity.
Qed.

(** C3 (counterexample): [mailto:team@example.com] has a scheme and no host,
    even for a URL parser that rejects every authority, and validation
    reports no error for it. *)
Lemma C3_hostless_url_is_accepted :
  URL.parse strict_runtime.(URL_authority) "mailto:team@example.com"
  = Some {| URL.scheme := "mailto"; URL.host := None |}
  /\ validateEstimateForm strict_runtime
       (VObj [ ("appUrl", VStr "mailto:team@example.com");
               ("email", VStr "team@example.com");
               ("selectedFeatures", names_array ["Payments"]) ])
     = Ok {| isValid := true; errors := [] |}.
Proof. split; reflexivity. Qed.

(** C3 (amended): validation accepts the App URL of a payload exactly when
    validation returns and the field is a string, not empty after trimming,
    that the URL constructor parses; a parsed URL always has a scheme, so an
    App URL without a scheme is never accepted.  A host is not required. *)
Theorem C3_appUrl_accepted_iff_parsed (rt : Runtime) (data : value) :
  (accepts_appUrl rt data <->
   (exists v, validateEstimateForm rt data = Ok v)
   /\ exists s u, Get data "appUrl" = Ok (VStr s)
                  /\ String_trim s <> ""
                  /\ URL.parse rt.(URL_authority) s = Some u
                  /\ exists rest,
                       URL.scheme_start_state (url_input s) = Some (u.(URL.scheme), rest))
  /\ (forall s, Get data "appUrl" = Ok (VStr s) ->
                URL.scheme_start_state (url_input s) = None ->
                ~ accepts_appUrl rt data
                /\ forall v, validateEstimateForm rt data = Ok v ->
                             In "App URL is required" v.(errors)
                             \/ In "App URL must be a valid URL" v.(errors)).
Proof.
  assert (Hiff :
    accepts_appUrl rt data <->
    (exists v, validateEstimateForm rt data = Ok v)
    /\ exists s u, Get data "appUrl" = Ok (VStr s)
                   /\ String_trim s <> ""
                   /\ URL.parse rt.(URL_authority) s = Some u
                   /\ exists rest,
                        URL.scheme_start_state (url_input s) = Some (u.(URL.scheme), rest)).
  { unfold accepts_appUrl.
    destruct data as [| |b|n|s0|l|props|name|];
      try (split; [intros (v & Hv & _); discriminate Hv
                  |intros ((v & Hv) & _); discriminate Hv]);
      try (split; [intros (v & Hv & Hno); cbn in Hv; inversion Hv; subst v;
                   exfalso; apply (Hno "App URL is required"); cbn; auto
                  |intros (_ & s & u & Hget & _); cbn in Hget;
                   repeat match type of Hget with
                          | context [if ?c then _ else _] => destruct c
                          end; discriminate Hget]).
    rewrite validateEstimateForm_object, Get_object.
    destruct (custom_text_throws _ _).
    { split; [intros (v & Hv & _); discriminate Hv
             |intros ((v & Hv) & _); discriminate Hv]. }
    split.
    - intros (v & Hv & Hno). inversion Hv; subst v; clear Hv. cbn [errors] in Hno.
      split; [eexists; reflexivity|].
      assert (Hnil : url_rule rt (field props "appUrl") = []).
      { destruct (url_rule rt (field props "appUrl")) as [|m ms] eqn:E; [reflexivity|].
        exfalso. apply (Hno m).
        - unfold url_rule in E.
          repeat match type of E with
                 | (if ?c then _ else _) = _ => destruct c
                 end; inversion E; cbn; auto.
        - unfold triggered. rewrite E. left. reflexivity. }
      apply url_rule_nil in Hnil. destruct Hnil as (s & u & Hs & Htrim & Hu).
      exists s, u. rewrite Hs. repeat split; auto.
      eapply parse_has_scheme. exact Hu.
    - intros (_ & s & u & Hget & Htrim & Hu & _).
      eexists. split; [reflexivity|]. cbn [errors].
      intros m Hm Hin. unfold triggered in Hin.
      assert (Hnil : url_rule rt (field props "appUrl") = []).
      { apply url_rule_nil. exists s, u. inversion Hget. auto. }
      rewrite Hnil in Hin. cbn [app] in Hin.
      exact (other_rules_silent_on_url props m Hm Hin). }
  split; [exact Hiff|].
  intros s Hget Hscheme. split.
  - intros Hacc.
    apply Hiff in Hacc. destruct Hacc as (_ & s' & u & Hget' & _ & _ & rest & Hrest).
    rewrite Hget in Hget'. inversion Hget'; subst s'. congruence.
  - intros v Hv.
    destruct data as [| |b|n|s0|l|props|name|];
      try discriminate Hget;
      try (cbn in Hget;
           repeat match type of Hget with
                  | context [if ?c then _ else _] => destruct c
                  end; discriminate Hget).
    rewrite Get_object in Hget. inversion Hget as [Hfield].
    rewrite validateEstimateForm_object in Hv.
    destruct (custom_text_throws _ _); [discriminate Hv|].
    inversion Hv; subst v; clear Hv. cbn [errors]. unfold triggered.
    rewrite Hfield. unfold url_rule, isValidUrl. cbn [ToString].
    assert (Hparse : URL.parse (URL_authority rt) s = None).
    { unfold URL.parse. fold (url_input s). now rewrite Hscheme. }
    rewrite Hparse.
    destruct (blank (VStr s)); cbn; auto.
Qed.

(** A run of the amended C3: [example.com] has no scheme and is rejected. *)
Lemma C3_appUrl_accepted_iff_parsed_witness :
  ~ accepts_appUrl lenient_runtime
      (VObj [ ("appUrl", VStr "example.com"); ("email", VStr "team@example.com");
              ("selectedFeatures", names_array ["Payments"]) ]).
Proof.
  apply (proj2 (C3_appUrl_accepted_iff_parsed lenient_runtime _) "example.com");
    reflexivity.
Defined.

(** The example of the specification: a POST with body [{}]. *)
Example empty_object_reports_three_errors :
  fetch strict_runtime (request_to "POST" submit_route (Some (VObj [])))
    configured_env empty_store
  = (validation_failed_response
       [ "App URL is required"; "Email is required";
         "At least one service must be selected" ],
     empty_store).
Proof. reflexivity. Qed.

(** C4 (failing input): on [{ hasCustomRequest: true, customRequestText: 5 }]
    the App URL rule and the Email rule are both triggered, but validation
    throws in the custom-request rule and returns no list: the worker
    answers 500 "Internal server error". *)
Theorem C4_validation_throws_before_reporting :
  let payload := [ ("hasCustomRequest", VBool true); ("customRequestText", VNum (Fin 5)) ] in
  url_rule strict_runtime (field payload "appUrl") = [ "App URL is required" ]
  /\ email_rule (field payload "email") = [ "Email is required" ]
  /\ validateEstimateForm strict_runtime (VObj payload)
     = throwTypeError "trim is not a function"
  /\ fetch strict_runtime (request_to "POST" submit_route (Some (VObj payload)))
       configured_env empty_store
     = (internal_error_response, empty_store).
Proof. repeat split. Qed.

(* ================================================================== *)
(** ** The submission handler: the claims *)
(* ================================================================== *)

Lemma method_is_POST (request : Request) :
  request.(method) = "POST" -> negb (request.(method) =? "POST")%string = false.
Proof. intros ->. reflexivity. Qed.

Lemma records_not_extended (l : list AirtableRecord) (r : AirtableRecord) :
  l <> (l ++ [r])%list.
Proof.
  intros H. apply (f_equal (@List.length _)) in H.
  rewrite length_app in H. cbn in H. lia.
Qed.

(** The handler's answer to a thrown value never claims success. *)
Lemma catch_status (error : exn) :
  let response :=
    match error.(exn_class) with
    | SyntaxError => invalid_json_response
    | _ =>
        if truthy error.(exn_statusCode) then
          json_response 500
            [ ("success", VBool false);
              ("error", VStr "Failed to save to database");
              ("details", VStr error.(exn_message)) ]
        else internal_error_response
    end in
  response.(status) <> 200.
Proof.
  cbn zeta. destruct (exn_class error); [|destruct (truthy _)..]; cbn; discriminate.
Qed.

Lemma handleSubmitRequest_outcome (rt : Runtime) (request : Request) (env : Env)
  (st : Airtable) :
  outcome st (fst (handleSubmitRequest rt request env st))
    (snd (handleSubmitRequest rt request env st)).
Proof.
  unfold handleSubmitRequest.
  destruct (negb (method request =? "POST")%string).
  { apply no_store_call; [cbn; discriminate|reflexivity]. }
  unfold try_catch, bindIO, request_json, lift, ret.
  destruct (json request) as [data|].
  2:{ apply no_store_call; [cbn; discriminate|reflexivity]. }
  destruct (validateEstimateForm rt data) as [v|e].
  2:{ apply no_store_call; [apply catch_status|reflexivity]. }
  destruct (negb (isValid v)).
  { apply no_store_call; [cbn; discriminate|reflexivity]. }
  destruct (negb (truthy (AIRTABLE_API_KEY env))).
  { apply no_store_call; [cbn; discriminate|reflexivity]. }
  destruct (negb (truthy (AIRTABLE_BASE_ID env))).
  { apply no_store_call; [cbn; discriminate|reflexivity]. }
  do 3 (match goal with
        | |- context [Get data ?k] =>
            destruct (Get data k) as [?|?];
            [|apply no_store_call; [apply catch_status|reflexivity]]
        end).
  destruct (calculatePricing _ _ _) as [pricing|e].
  2:{ apply no_store_call; [apply catch_status|reflexivity]. }
  do 6 (match goal with
        | |- context [Get data ?k] =>
            destruct (Get data k) as [?|?];
            [|apply no_store_call; [apply catch_status|reflexivity]]
        end).
  unfold create.
  destruct (reply st) as [e|].
  - apply create_rejected; [apply catch_status|reflexivity|reflexivity].
  - eapply record_created; [reflexivity|reflexivity|reflexivity].
Qed.

(** C5: a submission never partially succeeds.  The handler answers 200
    exactly when one record was added to the store; on every other status
    the records of the store are unchanged; it calls [create] at most once;
    and a valid payload with a missing API key or base id is answered with
    500 "Server configuration error" with the store untouched, no [create]
    call made. *)
Theorem C5_no_partial_success (rt : Runtime) (request : Request) (env : Env)
  (st : Airtable) :
  let response := fst (handleSubmitRequest rt request env st) in
  let st' := snd (handleSubmitRequest rt request env st) in
  (response.(status) = 200 <-> exists r, st'.(records) = (st.(records) ++ [r])%list)
  /\ (response.(status) <> 200 -> st'.(records) = st.(records))
  /\ (st'.(create_calls) <= S st.(create_calls))%nat
  /\ (forall data v,
         request.(method) = "POST" ->
         request.(json) = Some data ->
         validateEstimateForm rt data = Ok v ->
         v.(isValid) = true ->
         truthy env.(AIRTABLE_API_KEY) = false \/ truthy env.(AIRTABLE_BASE_ID) = false ->
         response = configuration_error_response /\ st' = st).
Proof.
  cbn zeta.
  pose proof (handleSubmitRequest_outcome rt request env st) as Hout.
  repeat split.
  - intros H200. destruct Hout as [Hs _|r _ Hr _|Hs _ _]; [contradiction|eauto|contradiction].
  - intros (r & Hr). destruct Hout as [_ Hst|r' Hs _ _|_ Hrec _]; [|exact Hs|].
    + rewrite Hst in Hr. exfalso. exact (records_not_extended _ _ Hr).
    + rewrite Hrec in Hr. exfalso. exact (records_not_extended _ _ Hr).
  - intros Hs. destruct Hout as [_ Hst|r Hs' _ _|_ Hrec _];
      [now rewrite Hst|contradiction|exact Hrec].
  - destruct Hout as [_ Hst|r _ _ Hc|_ _ Hc]; [rewrite Hst; lia|rewrite Hc; lia..].
  - unfold handleSubmitRequest. rewrite (method_is_POST request) by assumption.
    unfold try_catch, bindIO, request_json, lift, ret.
    match goal with Hj : json request = Some _ |- _ => rewrite Hj end.
    match goal with Hv : validateEstimateForm _ _ = Ok _ |- _ => rewrite Hv end.
    match goal with Hi : isValid _ = true |- _ => rewrite Hi end.
    cbn [negb].
    match goal with Hc : _ \/ _ |- _ => destruct Hc as [Hk|Hb] end.
    + rewrite Hk. reflexivity.
    + rewrite Hb. destruct (truthy (AIRTABLE_API_KEY env)); reflexivity.
  - unfold handleSubmitRequest. rewrite (method_is_POST request) by assumption.
    unfold try_catch, bindIO, request_json, lift, ret.
    match goal with Hj : json request = Some _ |- _ => rewrite Hj end.
    match goal with Hv : validateEstimateForm _ _ = Ok _ |- _ => rewrite Hv end.
    match goal with Hi : isValid _ = true |- _ => rewrite Hi end.
    cbn [negb].
    match goal with Hc : _ \/ _ |- _ => destruct Hc as [Hk|Hb] end.
    + rewrite Hk. reflexivity.
    + rewrite Hb. destruct (truthy (AIRTABLE_API_KEY env)); reflexivity.
Qed.

(** A run of C5: a valid payload, no configuration. *)
Lemma C5_no_partial_success_witness :
  fst (handleSubmitRequest lenient_runtime
         (request_to "POST" submit_route (Some sample_payload)) unconfigured_env empty_store)
  = configuration_error_response
  /\ snd (handleSubmitRequest lenient_runtime
            (request_to "POST" submit_route (Some sample_payload)) unconfigured_env
            empty_store)
     = empty_store.
Proof.
  apply (proj2 (proj2 (proj2
           (C5_no_partial_success lenient_runtime
              (request_to "POST" submit_route (Some sample_payload))
              unconfigured_env empty_store)))
           sample_payload {| isValid := true; errors := [] |});
    [reflexivity|reflexivity|reflexivity|reflexivity|left; reflexivity].
Defined.

(** The success path for comparison: with configuration and a store that
    answers, the same payload is stored once and answered with 200. *)
Example sample_payload_is_stored :
  let run := handleSubmitRequest lenient_runtime
               (request_to "POST" submit_route (Some sample_payload))
               configured_env empty_store in
  (fst run).(status) = 200
  /\ List.length (snd run).(records) = 1%nat
  /\ map (fun r => (own_property "Estimated Price" r.(rec_fields),
                    own_property "Feature Discount" r.(rec_fields)))
         (snd run).(records)
     = [ (Some (VNum (Fin 350)), Some (VNum (Fin 0))) ].
Proof. repeat split. Qed.

(** C6: a POST to the submission route whose body is not well-formed JSON
    is answered with 400 and the error "Invalid JSON in request body", and
    the store is not touched; a body that parses but fails validation gets
    a different 400, with error "Validation failed" and the list of
    messages. *)
Theorem C6_invalid_json_is_distinguished (rt : Runtime) (request : Request) (env : Env)
  (st : Airtable) :
  request.(method) = "POST" ->
  request.(pathname) = submit_route ->
  (request.(json) = None ->
   fetch rt request env st = (invalid_json_response, st))
  /\ (forall data v,
         request.(json) = Some data ->
         validateEstimateForm rt data = Ok v ->
         v.(isValid) = false ->
         fetch rt request env st = (validation_failed_response v.(errors), st)
         /\ validation_failed_response v.(errors) <> invalid_json_response).
Proof.
  intros Hm Hp.
  unfold fetch. rewrite Hm, Hp. cbn [String.eqb Ascii.eqb Bool.eqb].
  unfold submit_route. rewrite String.eqb_refl.
  unfold handleSubmitRequest. rewrite Hm. cbn [String.eqb Ascii.eqb Bool.eqb negb].
  unfold try_catch, bindIO, request_json, lift, ret.
  split.
  - intros ->. reflexivity.
  - intros data v -> -> ->. split; [reflexivity|].
    unfold validation_failed_response, invalid_json_response, json_response.
    intros H. inversion H.
Qed.

(** A run of C6: a POST whose body does not parse. *)
Lemma C6_invalid_json_is_distinguished_witness :
  fetch strict_runtime (request_to "POST" submit_route None) configured_env empty_store
  = (invalid_json_response, empty_store).
Proof.
  apply (proj1 (C6_invalid_json_is_distinguished strict_runtime
                  (request_to "POST" submit_route None) configured_env empty_store
                  eq_refl eq_refl)).
  reflexivity.
Defined.

(** C7 (counterexample): OPTIONS is not POST, and an OPTIONS request to the
    submission route is answered with 204, not 405. *)
Lemma C7_options_is_not_405 :
  "OPTIONS" <> "POST"
  /\ fetch strict_runtime (request_to "OPTIONS" submit_route None) configured_env empty_store
     = (preflight_response, empty_store)
  /\ preflight_response.(status) = 204.
Proof. repeat split. discriminate. Qed.

(** C7 (amended): on the submission route every method other than POST and
    OPTIONS is answered with 405 "Method not allowed"; OPTIONS is answered
    with the 204 preflight response. *)
Theorem C7_method_not_allowed (rt : Runtime) (request : Request) (env : Env)
  (st : Airtable) :
  request.(pathname) = submit_route ->
  request.(method) <> "POST" ->
  fetch rt request env st
  = if (request.(method) =? "OPTIONS")%string then (preflight_response, st)
    else (method_not_allowed_response, st).
Proof.
  intros Hp Hm. unfold fetch.
  destruct (method request =? "OPTIONS")%string; [reflexivity|].
  rewrite Hp. unfold submit_route. rewrite String.eqb_refl.
  unfold handleSubmitRequest.
  apply String.eqb_neq in Hm. rewrite Hm. reflexivity.
Qed.

(** A run of the amended C7: GET on the submission route. *)
Lemma C7_method_not_allowed_witness :
  fetch strict_runtime (request_to "GET" submit_route None) configured_env empty_store
  = (method_not_allowed_response, empty_store).
Proof.
  apply (C7_method_not_allowed strict_runtime (request_to "GET" submit_route None)
           configured_env empty_store eq_refl).
  discriminate.
Defined.

(** C8: every request that is not OPTIONS and whose path is not the
    submission route is answered with a 301 redirect to [/404] on the
    origin of the request; the store is not touched. *)
Theorem C8_other_routes_redirect (rt : Runtime) (request : Request) (env : Env)
  (st : Airtable) :
  request.(method) <> "OPTIONS" ->
  request.(pathname) <> submit_route ->
  fetch rt request env st
  = ({| status := 301;
        headers := [ ("Location", request.(origin) ++ "/404") ];
        body := None |},
     st).
Proof.
  intros Hm Hp. unfold fetch.
  apply String.eqb_neq in Hm. rewrite Hm.
  apply String.eqb_neq in Hp. unfold submit_route in Hp. rewrite Hp.
  reflexivity.
Qed.

(** A run of C8: POST to [/foo]. *)
Lemma C8_other_routes_redirect_witness :
  fetch strict_runtime (request_to "POST" "/foo" (Some (VObj []))) configured_env empty_store
  = ({| status := 301;
        headers := [ ("Location", "https://finalize.example/404") ];
        body := None |},
     empty_store).
Proof.
  apply (C8_other_routes_redirect strict_runtime
           (request_to "POST" "/foo" (Some (VObj []))) configured_env empty_store);
    discriminate.
Defined.

(** C10: when [hasCustomRequest] is truthy and [customRequestText] is a
    truthy value that is not a string, validation throws a TypeError at
    [trim], and the handler answers a POST with 500 "Internal server error"
    and leaves the store as it was.  For an object payload this is the only
    way validation throws: a non-string [appUrl] or [email] is reported as
    missing. *)
Theorem C10_custom_text_without_trim (rt : Runtime) (request : Request) (env : Env)
  (st : Airtable) (data h t : value) :
  request.(method) = "POST" ->
  request.(json) = Some data ->
  Get data "hasCustomRequest" = Ok h -> truthy h = true ->
  Get data "customRequestText" = Ok t -> truthy t = true -> typeof_string t = false ->
  validateEstimateForm rt data = throwTypeError "trim is not a function"
  /\ handleSubmitRequest rt request env st = (internal_error_response, st)
  /\ (forall props,
         custom_text_throws (field props "hasCustomRequest")
           (field props "customRequestText") = false ->
         exists v, validateEstimateForm rt (VObj props) = Ok v).
Proof.
  intros Hm Hj Hh Hht Ht Htt Hts.
  assert (Hthrow : validateEstimateForm rt data = throwTypeError "trim is not a function").
  { destruct data as [| |b|n|s|l|props|name|];
      try (cbn in Hh; discriminate Hh);
      try (cbn in Hh;
           repeat match type of Hh with
                  | context [if ?c then _ else _] => destruct c
                  end;
           inversion Hh; subst h; discriminate Hht).
    rewrite Get_object in Hh, Ht. inversion Hh. inversion Ht.
    rewrite validateEstimateForm_object.
    unfold custom_text_throws. subst h t. now rewrite Hht, Htt, Hts. }
  repeat split.
  - exact Hthrow.
  - unfold handleSubmitRequest. rewrite (method_is_POST request Hm).
    unfold try_catch, bindIO, request_json, lift, ret.
    rewrite Hj, Hthrow. reflexivity.
  - intros props Hno. rewrite validateEstimateForm_object, Hno. eexists. reflexivity.
Qed.

(** A run of C10: a number as the description of the custom request. *)
Lemma C10_custom_text_without_trim_witness :
  handleSubmitRequest lenient_runtime
    (request_to "POST" submit_route (Some numeric_description_payload))
    configured_env empty_store
  = (internal_error_response, empty_store).
Proof.
  apply (C10_custom_text_without_trim lenient_runtime
           (request_to "POST" submit_route (Some numeric_description_payload))
           configured_env empty_store numeric_description_payload
           (VBool true) (VNum (Fin 5)));
    reflexivity.
Defined.

(* ================================================================== *)
(** ** Regular expressions: the matcher decides the language *)
(* ================================================================== *)

Lemma append_nil_r (s : string) : s ++ "" = s.
Proof. induction s as [|c s IH]; cbn; [reflexivity|now rewrite IH]. Qed.

Lemma append_assoc (x y z : string) : (x ++ y) ++ z = x ++ (y ++ z).
Proof. induction x as [|c x IH]; cbn; [reflexivity|now rewrite IH]. Qed.

Lemma append_eq_nil (x y : string) : x ++ y = "" -> x = "" /\ y = "".
Proof. destruct x; cbn; [auto|discriminate]. Qed.

Lemma Matches_Void_inv (z : string) : ~ Matches Regex.Void z.
Proof. intros H. inversion H. Qed.

Lemma Matches_Eps_inv (z : string) : Matches Regex.Eps z -> z = "".
Proof. intros H. inversion H. reflexivity. Qed.

Lemma Matches_Class_inv (p : ascii -> bool) (z : string) :
  Matches (Regex.Class p) z -> exists c, z = String c "" /\ p c = true.
Proof. intros H. inversion H; subst. eauto. Qed.

Lemma Matches_Cat_inv (r s : Regex.regex) (z : string) :
  Matches (Regex.Cat r s) z -> exists x y, z = x ++ y /\ Matches r x /\ Matches s y.
Proof. intros H. inversion H; subst. eauto. Qed.

Lemma Matches_Alt_inv (r s : Regex.regex) (z : string) :
  Matches (Regex.Alt r s) z -> Matches r z \/ Matches s z.
Proof. intros H. inversion H; subst; auto. Qed.

Lemma nullable_spec (r : Regex.regex) : Regex.nullable r = true <-> Matches r "".
Proof.
  induction r as [| |p|r IHr s IHs|r IHr s IHs|r IHr]; cbn.
  - split; [discriminate|]. intros H. now apply Matches_Void_inv in H.
  - split; [constructor|reflexivity].
  - split; [discriminate|]. intros H.
    apply Matches_Class_inv in H. destruct H as (c & H & _). discriminate H.
  - rewrite andb_true_iff, IHr, IHs. split.
    + intros [Hr Hs]. change "" with ("" ++ ""). now constructor.
    + intros H. apply Matches_Cat_inv in H. destruct H as (x & y & Heq & Hx & Hy).
      symmetry in Heq. apply append_eq_nil in Heq. destruct Heq; subst. auto.
  - rewrite orb_true_iff, IHr, IHs. split.
    + intros [H|H]; [now apply M_AltL|now apply M_AltR].
    + apply Matches_Alt_inv.
  - split; [constructor|reflexivity].
Qed.

(** A match of [Star r] on a string that starts with [c] starts with a
    non-empty match of [r]. *)
Lemma star_cons (r : Regex.regex) (c : ascii) (s : string) :
  Matches (Regex.Star r) (String c s) ->
  exists x y, s = x ++ y /\ Matches r (String c x) /\ Matches (Regex.Star r) y.
Proof.
  intros H.
  remember (Regex.Star r) as rs eqn:Ers.
  remember (String c s) as cs eqn:Ecs.
  revert s Ecs.
  induction H as [| | | | | |r' x y Hx _ Hy IHy]; intros s0 Ecs;
    try discriminate Ers; try discriminate Ecs.
  inversion Ers; subst r'.
  destruct x as [|c' x'].
  - cbn in Ecs. exact (IHy eq_refl s0 Ecs).
  - cbn in Ecs. inversion Ecs; subst.
    exists x', y. auto.
Qed.

Lemma deriv_spec (r : Regex.regex) (c : ascii) (s : string) :
  Matches (Regex.deriv c r) s <-> Matches r (String c s).
Proof.
  revert s.
  induction r as [| |p|r IHr t IHt|r IHr t IHt|r IHr]; intros s; cbn.
  - split; intros H; now apply Matches_Void_inv in H.
  - split; intros H; [now apply Matches_Void_inv in H|].
    apply Matches_Eps_inv in H. discriminate H.
  - destruct (p c) eqn:Epc; split; intros H.
    + apply Matches_Eps_inv in H. subst s. now constructor.
    + apply Matches_Class_inv in H. destruct H as (c' & Heq & _).
      inversion Heq. constructor.
    + now apply Matches_Void_inv in H.
    + apply Matches_Class_inv in H. destruct H as (c' & Heq & Hp).
      inversion Heq; subst. congruence.
  - assert (Hcat : Matches (Regex.Cat (Regex.deriv c r) t) s ->
                   Matches (Regex.Cat r t) (String c s)).
    { intros H. apply Matches_Cat_inv in H. destruct H as (x & y & -> & Hx & Hy).
      apply IHr in Hx. change (String c (x ++ y)) with (String c x ++ y).
      now constructor. }
    assert (Hback : Matches (Regex.Cat r t) (String c s) ->
                    Matches (Regex.Cat (Regex.deriv c r) t) s
                    \/ (Matches r "" /\ Matches t (String c s))).
    { intros H. apply Matches_Cat_inv in H. destruct H as (x & y & Heq & Hx & Hy).
      destruct x as [|c' x'].
      - cbn in Heq. subst y. right. auto.
      - cbn in Heq. inversion Heq; subst. left.
        constructor; [now apply IHr|assumption]. }
    destruct (Regex.nullable r) eqn:En.
    + split.
      * intros H. apply Matches_Alt_inv in H. destruct H as [H|H]; [now apply Hcat|].
        apply nullable_spec in En.
        change (String c s) with ("" ++ String c s). constructor; [assumption|].
        now apply IHt.
      * intros H. apply Hback in H. destruct H as [H|[_ H]].
        -- now apply M_AltL.
        -- apply M_AltR. now apply IHt.
    + split; [exact Hcat|].
      intros H. apply Hback in H. destruct H as [H|[H _]]; [assumption|].
      apply nullable_spec in H. congruence.
  - split; intros H.
    + apply Matches_Alt_inv in H.
      destruct H as [H|H]; [apply M_AltL; now apply IHr|apply M_AltR; now apply IHt].
    + apply Matches_Alt_inv in H.
      destruct H as [H|H]; [apply M_AltL; now apply IHr|apply M_AltR; now apply IHt].
  - split; intros H.
    + apply Matches_Cat_inv in H. destruct H as (x & y & -> & Hx & Hy).
      apply IHr in Hx. change (String c (x ++ y)) with (String c x ++ y).
      now constructor.
    + apply star_cons in H. destruct H as (x & y & -> & Hx & Hy).
      constructor; [now apply IHr|assumption].
Qed.

Lemma test_spec (r : Regex.regex) (s : string) :
  Regex.test r s = true <-> Matches r s.
Proof.
  revert r. induction s as [|c s IH]; intros r; cbn.
  - apply nullable_spec.
  - rewrite IH. apply deriv_spec.
Qed.

Lemma star_class_spec (p : ascii -> bool) (x : string) :
  Matches (Regex.Star (Regex.Class p)) x <-> all_chars p x = true.
Proof.
  split.
  - intros H. remember (Regex.Star (Regex.Class p)) as rs eqn:Ers.
    induction H as [| | | | | |r x y Hx _ Hy IHy]; try discriminate Ers.
    + reflexivity.
    + inversion Ers; subst r.
      apply Matches_Class_inv in Hx. destruct Hx as (c & -> & Hc).
      cbn. rewrite Hc. exact (IHy eq_refl).
  - induction x as [|c x IH]; cbn.
    + intros _. constructor.
    + rewrite andb_true_iff. intros [Hc Hx].
      change (String c x) with (String c "" ++ x).
      constructor; [now constructor|now apply IH].
Qed.

Lemma plus_class_spec (p : ascii -> bool) (x : string) :
  Matches (Regex.Plus (Regex.Class p)) x <-> x <> "" /\ all_chars p x = true.
Proof.
  unfold Regex.Plus. split.
  - intros H. apply Matches_Cat_inv in H. destruct H as (a & b & -> & Ha & Hb).
    apply Matches_Class_inv in Ha. destruct Ha as (c & -> & Hc).
    apply star_class_spec in Hb. cbn. rewrite Hc, Hb. split; [discriminate|reflexivity].
  - intros [Hne Hall]. destruct x as [|c x]; [contradiction|].
    cbn in Hall. apply andb_true_iff in Hall. destruct Hall as [Hc Hx].
    change (String c x) with (String c "" ++ x).
    constructor; [now constructor|now apply star_class_spec].
Qed.

Lemma char_class_spec (c : ascii) (x : string) :
  Matches (Regex.Class (Ascii.eqb c)) x <-> x = String c "".
Proof.
  split.
  - intros H. apply Matches_Class_inv in H. destruct H as (c' & -> & Hc).
    apply Ascii.eqb_eq in Hc. now subst.
  - intros ->. constructor. apply Ascii.eqb_refl.
Qed.

(** The strings the email pattern matches. *)
Lemma emailRegex_language (s : string) :
  Regex.test emailRegex s = true <->
  exists a b c, s = a ++ "@" ++ b ++ "." ++ c
                /\ email_part a /\ email_part b /\ email_part c.
Proof.
  rewrite test_spec. unfold emailRegex, email_part. split.
  - intros H.
    apply Matches_Cat_inv in H. destruct H as (a & r1 & -> & Ha & H).
    apply Matches_Cat_inv in H. destruct H as (at_ & r2 & -> & Hat & H).
    apply Matches_Cat_inv in H. destruct H as (b & r3 & -> & Hb & H).
    apply Matches_Cat_inv in H. destruct H as (dot & c & -> & Hdot & Hc).
    apply char_class_spec in Hat, Hdot. subst at_ dot.
    apply plus_class_spec in Ha, Hb, Hc.
    exists a, b, c. auto.
  - intros (a & b & c & -> & Ha & Hb & Hc).
    constructor; [now apply plus_class_spec|].
    constructor; [now apply char_class_spec|].
    constructor; [now apply plus_class_spec|].
    constructor; [now apply char_class_spec|].
    now apply plus_class_spec.
Qed.

Lemma all_chars_app (p : ascii -> bool) (x y : string) :
  all_chars p (x ++ y) = all_chars p x && all_chars p y.
Proof.
  induction x as [|c x IH]; cbn; [reflexivity|]. now rewrite IH, andb_assoc.
Qed.

Lemma all_chars_weaken (p q : ascii -> bool) (x : string) :
  (forall c, p c = true -> q c = true) ->
  all_chars p x = true -> all_chars q x = true.
Proof.
  intros Hpq. induction x as [|c x IH]; cbn; [reflexivity|].
  rewrite !andb_true_iff. intros [Hc Hx]. auto.
Qed.

(** A matched email holds no white space at all. *)
Lemma emailRegex_no_whitespace (s : string) :
  Regex.test emailRegex s = true ->
  s <> "" /\ all_chars (fun c => negb (is_whitespace c)) s = true.
Proof.
  intros H. apply emailRegex_language in H.
  destruct H as (a & b & c & -> & [Hna Ha] & [_ Hb] & [_ Hc]).
  assert (Hw : forall x, all_chars email_char x = true ->
                         all_chars (fun c => negb (is_whitespace c)) x = true).
  { intros x. apply all_chars_weaken. intros ch. unfold email_char.
    rewrite !negb_true_iff, orb_false_iff. tauto. }
  split.
  - destruct a; [contradiction|discriminate].
  - rewrite !all_chars_app. rewrite (Hw a Ha), (Hw b Hb), (Hw c Hc). reflexivity.
Qed.

Lemma strip_start_id (p : ascii -> bool) (s : string) :
  all_chars (fun c => negb (p c)) s = true -> strip_start p s = s.
Proof.
  destruct s as [|c s]; cbn; [reflexivity|].
  rewrite andb_true_iff, negb_true_iff. intros [-> _]. reflexivity.
Qed.

Lemma strip_end_id (p : ascii -> bool) (s : string) :
  all_chars (fun c => negb (p c)) s = true -> strip_end p s = s.
Proof.
  induction s as [|c s IH]; cbn; [reflexivity|].
  rewrite andb_true_iff, negb_true_iff. intros [-> Hs].
  cbn. now rewrite IH.
Qed.

Lemma String_trim_id (s : string) :
  all_chars (fun c => negb (is_whitespace c)) s = true -> String_trim s = s.
Proof.
  intros H. unfold String_trim. rewrite strip_start_id by assumption.
  now apply strip_end_id.
Qed.

Lemma matched_email_not_blank (s : string) :
  Regex.test emailRegex s = true -> blank (VStr s) = false.
Proof.
  intros H. apply emailRegex_no_whitespace in H. destruct H as [Hne Hall].
  cbn [blank]. rewrite String_trim_id by assumption.
  cbn. destruct (String.eqb_spec s ""); [contradiction|reflexivity].
Qed.

(** X1: [isValidEmail] answers [true] on exactly the strings of the shape
    [a@b.c] where [a], [b] and [c] are non-empty and hold neither white
    space nor [@]; [b] and [c] may hold further dots. *)
Theorem isValidEmail_shape (s : string) :
  isValidEmail (VStr s) = Ok true <->
  exists a b c, s = a ++ "@" ++ b ++ "." ++ c
                /\ email_part a /\ email_part b /\ email_part c.
Proof.
  rewrite <- emailRegex_language. unfold isValidEmail. cbn [ToString bind].
  split.
  - intros H. now inversion H.
  - intros ->. reflexivity.
Qed.

Lemma count_char_app (c : ascii) (x y : string) :
  count_char c (x ++ y) = (count_char c x + count_char c y)%nat.
Proof. induction x as [|c' x IH]; cbn; [reflexivity|]. rewrite IH. lia. Qed.

Lemma email_part_no_at (x : string) :
  all_chars email_char x = true -> count_char "@" x = 0%nat.
Proof.
  induction x as [|c x IH]; cbn; [reflexivity|].
  rewrite andb_true_iff. unfold email_char at 1.
  rewrite negb_true_iff, orb_false_iff. intros [[_ Hc] Hx].
  rewrite Hc. cbn. auto.
Qed.

Lemma length_append (x y : string) :
  String.length (x ++ y) = (String.length x + String.length y)%nat.
Proof. induction x as [|c x IH]; cbn; [reflexivity|]. now rewrite IH. Qed.

Lemma nonempty_length (x : string) : x <> "" -> (1 <= String.length x)%nat.
Proof. destruct x; [contradiction|cbn; lia]. Qed.

(** X2: an email that [isValidEmail] accepts holds no white space (so a
    leading or trailing blank makes it invalid: the value is tested as it
    was sent, not trimmed), exactly one [@], and at least five characters. *)
Theorem isValidEmail_accepted_form (s : string) :
  isValidEmail (VStr s) = Ok true ->
  all_chars (fun c => negb (is_whitespace c)) s = true
  /\ count_char "@" s = 1%nat
  /\ (5 <= String.length s)%nat
  /\ String_trim s = s.
Proof.
  intros H.
  assert (Ht : Regex.test emailRegex s = true) by (cbn in H; now inversion H).
  pose proof (emailRegex_no_whitespace s Ht) as [_ Hws].
  apply isValidEmail_shape in H.
  destruct H as (a & b & c & -> & [Hna Ha] & [Hnb Hb] & [Hnc Hc]).
  repeat split.
  - exact Hws.
  - rewrite !count_char_app.
    rewrite (email_part_no_at a Ha), (email_part_no_at b Hb), (email_part_no_at c Hc).
    reflexivity.
  - rewrite !length_append. cbn.
    pose proof (nonempty_length a Hna). pose proof (nonempty_length b Hnb).
    pose proof (nonempty_length c Hnc). lia.
  - now apply String_trim_id.
Qed.

(** A run of X2. *)
Lemma isValidEmail_accepted_form_witness :
  count_char "@" "team@example.com" = 1%nat.
Proof.
  apply (isValidEmail_accepted_form "team@example.com"). reflexivity.
Defined.

(* ================================================================== *)
(** ** Validation: what a valid payload is *)
(* ================================================================== *)

Lemma email_rule_nil (email : value) :
  email_rule email = [] <-> exists s, email = VStr s /\ isValidEmail email = Ok true.
Proof.
  unfold email_rule. split.
  - destruct email as [| |b|n|s|l|ps|name|]; try discriminate.
    destruct (blank (VStr s)); [discriminate|].
    destruct (Regex.test emailRegex s) eqn:E; cbn [negb]; [|discriminate].
    intros _. exists s. split; [reflexivity|]. cbn. now rewrite E.
  - intros (s & -> & H).
    assert (Ht : Regex.test emailRegex s = true) by (cbn in H; now inversion H).
    rewrite (matched_email_not_blank s Ht), Ht. reflexivity.
Qed.

Lemma selection_rule_nil (sf ss h : value) :
  selection_rule sf ss h = [] <->
  nonempty_array sf = true \/ nonempty_array ss = true \/ h = VBool true.
Proof.
  unfold selection_rule.
  assert (Hh : strict_eq_true h = true <-> h = VBool true).
  { destruct h as [| |[|]|n|s|l|ps|name|]; cbn; split; intros H;
      try reflexivity; try discriminate H. }
  destruct (nonempty_array sf), (nonempty_array ss); cbn [negb andb];
    try (split; [auto|reflexivity]).
  destruct (strict_eq_true h) eqn:E; cbn [negb].
  - split; [intros _; right; right; now apply Hh|reflexivity].
  - split; [discriminate|].
    intros [H|[H|H]]; try discriminate H. apply Hh in H. congruence.
Qed.

Lemma array_rule_nil (v : value) (msg : string) :
  array_rule v msg = [] <-> (truthy v = true -> Array_isArray v = true).
Proof.
  unfold array_rule.
  destruct (truthy v), (Array_isArray v); cbn [negb andb]; split; intros H; auto;
    try discriminate H.
  specialize (H eq_refl). discriminate H.
Qed.

Lemma custom_rule_returns_nil (h t : value) :
  custom_text_throws h t = false /\ custom_rule h t = [] <->
  (truthy h = true -> exists s, t = VStr s /\ String_trim s <> "").
Proof.
  unfold custom_text_throws, custom_rule.
  destruct (truthy h); cbn [andb].
  2:{ split; [intros _ H; discriminate H|auto]. }
  split.
  - intros [Hthrow Hnil] _.
    destruct t as [| |b|n|s|l|ps|name|]; cbn in Hthrow, Hnil;
      try discriminate Hnil;
      try (destruct b; discriminate);
      try (destruct n as [z|]; [destruct (z =? 0)|]; discriminate).
    exists s. split; [reflexivity|].
    intros Hs. rewrite Hs in Hnil. cbn in Hnil.
    destruct (s =? "")%string; discriminate Hnil.
  - intros H. destruct (H eq_refl) as (s & -> & Hs). cbn.
    assert (Hne : (s =? "")%string = false).
    { apply String.eqb_neq. intros ->. now apply Hs. }
    rewrite Hne. cbn.
    apply String.eqb_neq in Hs. rewrite Hs. auto.
Qed.

(** X3: validation passes a JSON object exactly when its App URL is a
    string, not blank, that the URL constructor parses; its email is a
    string that [isValidEmail] accepts; [selectedFeatures] or
    [selectedServices] is a non-empty array or [hasCustomRequest] is [true]
    itself; neither selection is a truthy value other than an array; and,
    whenever [hasCustomRequest] is truthy, the description is a string that
    is not blank. *)
Theorem valid_payload_iff (rt : Runtime) (props : list (string * value)) :
  (exists v, validateEstimateForm rt (VObj props) = Ok v /\ v.(isValid) = true)
  <->
  (exists s u, field props "appUrl" = VStr s /\ String_trim s <> ""
               /\ URL.parse rt.(URL_authority) s = Some u)
  /\ (exists s, field props "email" = VStr s /\ isValidEmail (VStr s) = Ok true)
  /\ (nonempty_array (field props "selectedFeatures") = true
      \/ nonempty_array (field props "selectedServices") = true
      \/ field props "hasCustomRequest" = VBool true)
  /\ (truthy (field props "selectedFeatures") = true ->
      Array_isArray (field props "selectedFeatures") = true)
  /\ (truthy (field props "selectedServices") = true ->
      Array_isArray (field props "selectedServices") = true)
  /\ (truthy (field props "hasCustomRequest") = true ->
      exists t, field props "customRequestText" = VStr t /\ String_trim t <> "").
Proof.
  rewrite validateEstimateForm_object.
  rewrite <- url_rule_nil.
  rewrite <- (selection_rule_nil (field props "selectedFeatures")).
  rewrite <- (array_rule_nil (field props "selectedFeatures")
                "Selected features must be an array").
  rewrite <- (array_rule_nil (field props "selectedServices")
                "Selected services must be an array").
  rewrite <- custom_rule_returns_nil.
  assert (Hemail :
    email_rule (field props "email") = [] <->
    exists s, field props "email" = VStr s /\ isValidEmail (VStr s) = Ok true).
  { rewrite email_rule_nil. split.
    - intros (s & Hs & H). exists s. rewrite Hs in H. auto.
    - intros (s & Hs & H). exists s. rewrite Hs. auto. }
  rewrite <- Hemail.
  unfold triggered.
  destruct (custom_text_throws _ _).
  { split.
    - intros (v & Hv & _). discriminate Hv.
    - intros (_ & _ & _ & _ & _ & H & _). discriminate H. }
  split.
  - intros (v & Hv & Hvalid). inversion Hv; subst v; clear Hv. cbn [isValid] in Hvalid.
    apply Nat.eqb_eq in Hvalid. apply length_zero_iff_nil in Hvalid.
    repeat match type of Hvalid with
           | (_ ++ _)%list = [] => apply app_eq_nil in Hvalid;
                                   let H1 := fresh "Hnil" in
                                   destruct Hvalid as [H1 Hvalid]
           end.
    repeat split; assumption.
  - intros (H1 & H2 & H3 & H4 & H5 & _ & H6).
    eexists. split; [reflexivity|]. cbn [isValid].
    rewrite H1, H2, H3, H4, H5, H6. reflexivity.
Qed.

(** X4: a JSON body that is an array, a string, a number or a boolean has
    none of the fields and is answered like [{}]: 400 with the three
    required-field messages.  The body [null] makes validation throw and is
    answered with 500 "Internal server error".  The store is untouched in
    both cases. *)
Theorem non_object_bodies (rt : Runtime) (request : Request) (env : Env)
  (st : Airtable) (data : value) :
  request.(method) = "POST" ->
  request.(pathname) = submit_route ->
  request.(json) = Some data ->
  (not_an_object data = true ->
   fetch rt request env st = (validation_failed_response required_messages, st))
  /\ (data = VNull ->
      fetch rt request env st = (internal_error_response, st)).
Proof.
  intros Hm Hp Hj.
  unfold fetch. rewrite Hm, Hp. cbn [String.eqb Ascii.eqb Bool.eqb].
  unfold submit_route. rewrite String.eqb_refl.
  unfold handleSubmitRequest. rewrite Hm. cbn [String.eqb Ascii.eqb Bool.eqb negb].
  unfold try_catch, bindIO, request_json, lift, ret. rewrite Hj.
  split.
  - intros Hdata.
    destruct data as [| |b|n|s|l|ps|name|]; try discriminate Hdata; reflexivity.
  - intros ->. reflexivity.
Qed.

(** A run of X4: the body [[]]. *)
Lemma non_object_bodies_witness :
  fetch strict_runtime (request_to "POST" submit_route (Some (VArr [])))
    configured_env empty_store
  = (validation_failed_response required_messages, empty_store).
Proof.
  apply (proj1 (non_object_bodies strict_runtime
                  (request_to "POST" submit_route (Some (VArr [])))
                  configured_env empty_store (VArr []) eq_refl eq_refl eq_refl)).
  reflexivity.
Defined.

(* ================================================================== *)
(** ** Pricing: closed form, order, growth *)
(* ================================================================== *)

Lemma feature_unit_price (name : string) :
  unit_price PRICING.(features) name
  = if in_catalog PRICING.(features) name then 100 else 0.
Proof.
  unfold unit_price, in_catalog, PRICING. cbn [own_property features].
  repeat match goal with
         | |- context [if (?a =? name)%string then _ else _] =>
             destruct (a =? name)%string
         end; reflexivity.
Qed.

Lemma listed_not_inherited (name : string) :
  in_catalog PRICING.(features) name = true -> inherited name = false.
Proof.
  unfold in_catalog, PRICING. cbn [own_property features].
  repeat match goal with
         | |- context [if (?a =? name)%string then _ else _] =>
             destruct (String.eqb_spec a name); [subst name; reflexivity|]
         end.
  discriminate.
Qed.

Lemma catalog_sum_features (names : list string) :
  catalog_sum PRICING.(features) names = 100 * count_listed PRICING.(features) names.
Proof.
  unfold count_listed.
  induction names as [|name names IH]; [reflexivity|].
  cbn [catalog_sum fold_right filter]. fold (catalog_sum PRICING.(features) names).
  rewrite IH, feature_unit_price.
  destruct (in_catalog PRICING.(features) name); cbn [List.length]; lia.
Qed.

Lemma Math_round_tenth (k : Z) :
  Math_round (inject_Z (100 * k) * PRICING.(featureDiscountRate)) = 10 * k.
Proof.
  remember (100 * k) as x eqn:Ex. unfold Math_round. cbn. subst x.
  replace (100 * k * 1 * 2 + 10) with (10 * k * 20 + 10) by lia.
  rewrite Z.div_add_l by lia. cbn. lia.
Qed.

Lemma count_listed_bounds (catalog : list (string * Z)) (names : list string) :
  0 <= count_listed catalog names <= Z.of_nat (List.length names).
Proof.
  unfold count_listed. pose proof (filter_length_le (in_catalog catalog) names). lia.
Qed.

Lemma expected_discount_closed (fs : list string) :
  expected_discount fs
  = if 3 <=? Z.of_nat (List.length fs) then 10 * count_listed PRICING.(features) fs else 0.
Proof.
  unfold expected_discount. rewrite catalog_sum_features, Math_round_tenth. reflexivity.
Qed.

Lemma calculatePricing_counted (fs ss : list string) (flag : bool) :
  plain_names fs -> plain_names ss ->
  let k := count_listed PRICING.(features) fs in
  let d := if 3 <=? Z.of_nat (List.length fs) then 10 * k else 0 in
  calculatePricing (names_array fs) (names_array ss) (VBool flag)
  = Ok {| total := VNum (Fin (100 * k - d + catalog_sum PRICING.(services) ss
                              + (if flag then 250 else 0)));
          discount := VNum (Fin d) |}.
Proof.
  intros Hfs Hss. cbn zeta.
  rewrite (calculatePricing_plain_names fs ss flag Hfs Hss).
  unfold expected_total. rewrite expected_discount_closed, catalog_sum_features.
  reflexivity.
Qed.

(** X5: for selections whose names miss [Object.prototype], every listed
    feature counts 100 and the discount is exactly 10 per listed feature
    once the list has three entries (the rounding never rounds): the total
    is 100 k - discount + services + 250 for a custom request. *)
Theorem pricing_closed_form (fs ss : list string) (flag : bool) :
  plain_names fs -> plain_names ss ->
  let k := count_listed PRICING.(features) fs in
  let d := if 3 <=? Z.of_nat (List.length fs) then 10 * k else 0 in
  calculatePricing (names_array fs) (names_array ss) (VBool flag)
  = Ok {| total := VNum (Fin (100 * k - d + catalog_sum PRICING.(services) ss
                              + (if flag then 250 else 0)));
          discount := VNum (Fin d) |}.
Proof. exact (calculatePricing_counted fs ss flag). Qed.

(** A run of X5: four features, one of them unlisted, and a service. *)
Lemma pricing_closed_form_witness :
  calculatePricing
    (names_array ["Authentication"; "Payments"; "Teleport"; "Notifications"])
    (names_array ["UI/UX Review"]) (VBool true)
  = Ok {| total := VNum (Fin 670); discount := VNum (Fin 30) |}.
Proof.
  apply (pricing_closed_form
           ["Authentication"; "Payments"; "Teleport"; "Notifications"]
           ["UI/UX Review"] true);
    repeat constructor.
Defined.

Lemma catalog_sum_Permutation (catalog : list (string * Z)) (l l' : list string) :
  Permutation l l' -> catalog_sum catalog l = catalog_sum catalog l'.
Proof.
  induction 1 as [|x l l' _ IH|x y l|l l' l'' _ IH1 _ IH2]; cbn.
  - reflexivity.
  - fold (catalog_sum catalog l) (catalog_sum catalog l'). now rewrite IH.
  - fold (catalog_sum catalog l). lia.
  - congruence.
Qed.

(** X6: the order of the selected names does not matter, as long as the
    names miss [Object.prototype]: a reordered selection gets the same
    total and the same discount. *)
Theorem pricing_order_independent (fs fs' ss ss' : list string) (flag : bool) :
  plain_names fs -> plain_names ss ->
  Permutation fs fs' -> Permutation ss ss' ->
  calculatePricing (names_array fs') (names_array ss') (VBool flag)
  = calculatePricing (names_array fs) (names_array ss) (VBool flag).
Proof.
  intros Hfs Hss Pf Ps.
  assert (Hfs' : plain_names fs') by (eapply Permutation_Forall; eassumption).
  assert (Hss' : plain_names ss') by (eapply Permutation_Forall; eassumption).
  rewrite !calculatePricing_plain_names by assumption.
  unfold expected_total, expected_discount.
  rewrite (catalog_sum_Permutation _ _ _ Pf), (catalog_sum_Permutation _ _ _ Ps).
  rewrite (Permutation_length Pf). reflexivity.
Qed.

(** A run of X6. *)
Lemma pricing_order_independent_witness :
  calculatePricing (names_array ["Payments"; "Bogus"; "Authentication"])
    (names_array ["UI/UX Review"]) (VBool false)
  = calculatePricing (names_array ["Authentication"; "Payments"; "Bogus"])
      (names_array ["UI/UX Review"]) (VBool false).
Proof.
  apply (pricing_order_independent ["Authentication"; "Payments"; "Bogus"]
           ["Payments"; "Bogus"; "Authentication"] ["UI/UX Review"] ["UI/UX Review"] false).
  - repeat constructor.
  - repeat constructor.
  - apply (Permutation_cons_app ["Payments"; "Bogus"] [] "Authentication").
    rewrite app_nil_r. apply Permutation_refl.
  - apply Permutation_refl.
Defined.

(** With names from [Object.prototype] the order does matter: the running
    total is a string, and concatenation keeps the order. *)
Example pricing_order_matters_for_inherited_names :
  calculatePricing (names_array ["Payments"; "valueOf"]) (names_array []) (VBool false)
  <> calculatePricing (names_array ["valueOf"; "Payments"]) (names_array []) (VBool false).
Proof. cbn. intros H. inversion H. Qed.

(** X7: selecting one more listed feature raises the total by at least 70
    and at most 100 (100 below the threshold, 90 above it, 70 to 90 when
    the list reaches three entries). *)
Theorem pricing_grows_with_a_listed_feature (fs ss : list string) (flag : bool)
  (f : string) :
  plain_names fs -> plain_names ss ->
  in_catalog PRICING.(features) f = true ->
  exists t t' d d',
    calculatePricing (names_array fs) (names_array ss) (VBool flag)
    = Ok {| total := VNum (Fin t); discount := VNum (Fin d) |}
    /\ calculatePricing (names_array (f :: fs)) (names_array ss) (VBool flag)
       = Ok {| total := VNum (Fin t'); discount := VNum (Fin d') |}
    /\ 70 <= t' - t <= 100.
Proof.
  intros Hfs Hss Hf.
  assert (Hffs : plain_names (f :: fs)).
  { constructor; [now apply listed_not_inherited|assumption]. }
  do 4 eexists. split; [|split].
  - apply calculatePricing_counted; assumption.
  - apply calculatePricing_counted; assumption.
  - unfold count_listed. cbn [filter List.length]. rewrite Hf. cbn [List.length].
    pose proof (count_listed_bounds PRICING.(features) fs) as Hk.
    unfold count_listed in Hk.
    set (k := Z.of_nat (List.length (filter (in_catalog (features PRICING)) fs))) in *.
    set (n := Z.of_nat (List.length fs)) in *.
    replace (Z.of_nat (S (List.length (filter (in_catalog (features PRICING)) fs))))
      with (k + 1) by (unfold k; lia).
    replace (Z.of_nat (S (List.length fs))) with (n + 1) by (unfold n; lia).
    destruct (Z.leb_spec 3 n), (Z.leb_spec 3 (n + 1)); destruct flag; lia.
Qed.

(** A run of X7: the third feature costs 70 more. *)
Lemma pricing_grows_with_a_listed_feature_witness :
  exists t t' d d',
    calculatePricing (names_array ["Payments"; "Notifications"]) (names_array [])
      (VBool false)
    = Ok {| total := VNum (Fin t); discount := VNum (Fin d) |}
    /\ calculatePricing (names_array ["Authentication"; "Payments"; "Notifications"])
         (names_array []) (VBool false)
       = Ok {| total := VNum (Fin t'); discount := VNum (Fin d') |}
    /\ 70 <= t' - t <= 100.
Proof.
  apply (pricing_grows_with_a_listed_feature ["Payments"; "Notifications"] [] false
           "Authentication");
    [repeat constructor|repeat constructor|reflexivity].
Defined.

(* ================================================================== *)
(** ** Pricing: when the engine throws *)
(* ================================================================== *)

Lemma Get_literal_string (catalog : list (string * Z)) (name : string) :
  exists price,
    Get_literal catalog (VStr name) = Ok price
    /\ (truthy price = true ->
        match price with
        | VNum _ | VNative _ | VObjectPrototype => True
        | _ => False
        end).
Proof.
  unfold Get_literal, ToPropertyKey. cbn [ToString bind].
  destruct (own_property name catalog) as [z|].
  - eexists. split; [reflexivity|]. intros _. exact I.
  - unfold Object_prototype_get.
    repeat match goal with
           | |- context [if ?c then _ else _] => destruct c
           end; eexists; (split; [reflexivity|]); cbn; intros H;
      try exact I; discriminate H.
Qed.

Lemma js_add_total (acc price : value) :
  number_or_string acc = true ->
  match price with
  | VNum _ | VNative _ | VObjectPrototype => True
  | _ => False
  end ->
  exists acc', js_add acc price = Ok acc' /\ number_or_string acc' = true.
Proof.
  intros Hacc Hprice.
  destruct acc; try discriminate Hacc; destruct price; try contradiction;
    cbn; eexists; split; reflexivity.
Qed.

Lemma features_loop_total (names : list string) (ft t : value) :
  number_or_string ft = true -> number_or_string t = true ->
  exists ft' t',
    forEach (fun '(featuresTotal, total) featureName =>
               price <- Get_literal PRICING.(features) featureName ;;
               if truthy price then
                 featuresTotal <- js_add featuresTotal price ;;
                 total <- js_add total price ;;
                 Ok (featuresTotal, total)
               else Ok (featuresTotal, total))
            (map VStr names) (ft, t) = Ok (ft', t')
    /\ number_or_string ft' = true /\ number_or_string t' = true.
Proof.
  revert ft t. induction names as [|name names IH]; intros ft t Hft Ht.
  - exists ft, t. auto.
  - cbn [map forEach].
    destruct (Get_literal_string PRICING.(features) name) as (price & -> & Hprice).
    rewrite bind_Ok.
    destruct (truthy price) eqn:Etruthy.
    + destruct (js_add_total ft price Hft (Hprice eq_refl)) as (ft1 & -> & Hft1).
      destruct (js_add_total t price Ht (Hprice eq_refl)) as (t1 & -> & Ht1).
      rewrite !bind_Ok. now apply IH.
    + rewrite bind_Ok. now apply IH.
Qed.

Lemma services_loop_total (names : list string) (t : value) :
  number_or_string t = true ->
  exists t',
    forEach (fun total serviceName =>
               price <- Get_literal PRICING.(services) serviceName ;;
               if truthy price then js_add total price else Ok total)
            (map VStr names) t = Ok t'
    /\ number_or_string t' = true.
Proof.
  revert t. induction names as [|name names IH]; intros t Ht.
  - exists t. auto.
  - cbn [map forEach].
    destruct (Get_literal_string PRICING.(services) name) as (price & -> & Hprice).
    rewrite bind_Ok.
    destruct (truthy price) eqn:Etruthy.
    + destruct (js_add_total t price Ht (Hprice eq_refl)) as (t1 & -> & Ht1).
      rewrite bind_Ok. now apply IH.
    + now apply IH.
Qed.

Lemma ToNumber_total (v : value) :
  number_or_string v = true -> exists n, ToNumber v = Ok n.
Proof.
  destruct v; try discriminate; intros _; cbn; eexists; reflexivity.
Qed.

(** X8: on arrays of strings the engine never throws, whatever the names
    and whatever the flag value: it returns a total that is a number or a
    string and a discount that is a number (possibly NaN). *)
Theorem pricing_returns_on_strings (fs ss : list string) (h : value) :
  exists r,
    calculatePricing (names_array fs) (names_array ss) h = Ok r
    /\ number_or_string r.(total) = true
    /\ is_number r.(discount) = true.
Proof.
  unfold calculatePricing, names_array.
  destruct (features_loop_total fs (VNum (Fin 0)) (VNum (Fin 0)) eq_refl eq_refl)
    as (ft & t & -> & Hft & Ht).
  rewrite bind_Ok.
  cbn [truthy Get bind String.eqb Ascii.eqb Bool.eqb js_ge ToNumber ToPrimitive].
  destruct (PRICING.(featureDiscountThreshold) <=? _).
  - unfold Math_round_times.
    destruct (ToNumber_total ft Hft) as (nft & ->). rewrite !bind_Ok.
    unfold js_sub. destruct (ToNumber_total t Ht) as (nt & ->).
    cbn [bind ToNumber ToPrimitive].
    match goal with
    | |- context [forEach ?body (map VStr ss) ?t0] =>
        destruct (services_loop_total ss t0 eq_refl) as (t1 & Hloop & Ht1)
    end.
    rewrite Hloop, bind_Ok.
    destruct (truthy h).
    + destruct (js_add_total t1 (VNum (Fin PRICING.(customRequestBase))) Ht1 I)
        as (t2 & -> & Ht2).
      rewrite bind_Ok. eexists. split; [reflexivity|]. split; [exact Ht2|reflexivity].
    + rewrite bind_Ok. eexists. split; [reflexivity|]. split; [exact Ht1|reflexivity].
  - cbn [bind].
    destruct (services_loop_total ss t Ht) as (t1 & -> & Ht1).
    rewrite bind_Ok.
    destruct (truthy h).
    + destruct (js_add_total t1 (VNum (Fin PRICING.(customRequestBase))) Ht1 I)
        as (t2 & -> & Ht2).
      rewrite bind_Ok. eexists. split; [reflexivity|]. split; [exact Ht2|reflexivity].
    + rewrite bind_Ok. eexists. split; [reflexivity|]. split; [exact Ht1|reflexivity].
Qed.

(* ================================================================== *)
(** ** The submission handler: success, failure, what is stored *)
(* ================================================================== *)

Lemma Get_after_validation (rt : Runtime) (data : value) (v : Validation) (key : string) :
  validateEstimateForm rt data = Ok v -> Get data key = Ok (property data key).
Proof.
  unfold property.
  destruct data; try discriminate; intros _; cbn; reflexivity.
Qed.

(** The handler on a POST that passed validation with configuration in
    place: it prices the payload and calls [create] once. *)
Lemma handleSubmitRequest_accepted (rt : Runtime) (request : Request) (env : Env)
  (st : Airtable) (data : value) (p : PricingResult) :
  accepted_submission rt request env data p ->
  handleSubmitRequest rt request env st
  = match st.(reply) with
    | None =>
        (success_response,
         {| reply := st.(reply);
            records := (st.(records) ++ [ stored_record rt env data p ])%list;
            create_calls := S st.(create_calls) |})
    | Some e =>
        (match e.(exn_class) with
         | SyntaxError => invalid_json_response
         | _ => if truthy e.(exn_statusCode) then save_failed_response e.(exn_message)
                else internal_error_response
         end,
         {| reply := st.(reply);
            records := st.(records);
            create_calls := S st.(create_calls) |})
    end.
Proof.
  intros (Hm & Hj & (v & Hv & Hvalid) & Hkey & Hbase & Hp).
  unfold handleSubmitRequest. rewrite (method_is_POST request Hm).
  unfold try_catch, bindIO, request_json, lift, ret.
  rewrite Hj, Hv, Hvalid, Hkey, Hbase. cbn [negb].
  rewrite !(Get_after_validation rt data v) by exact Hv.
  rewrite Hp. unfold create.
  destruct (reply st) as [e|]; reflexivity.
Qed.

Lemma handleSubmitRequest_200 (rt : Runtime) (request : Request) (env : Env)
  (st : Airtable) :
  (fst (handleSubmitRequest rt request env st)).(status) = 200 ->
  st.(reply) = None
  /\ exists data p, accepted_submission rt request env data p.
Proof.
  unfold handleSubmitRequest, accepted_submission.
  destruct (String.eqb_spec (method request) "POST") as [Hm|Hm]; cbn [negb].
  2:{ cbn. discriminate. }
  unfold try_catch, bindIO, request_json, lift, ret.
  destruct (json request) as [data|] eqn:Hj.
  2:{ cbn. discriminate. }
  destruct (validateEstimateForm rt data) as [v|e] eqn:Hv.
  2:{ intros H. exfalso. revert H. apply catch_status. }
  destruct (isValid v) eqn:Hvalid; cbn [negb].
  2:{ cbn. discriminate. }
  destruct (truthy (AIRTABLE_API_KEY env)) eqn:Hkey; cbn [negb].
  2:{ cbn. discriminate. }
  destruct (truthy (AIRTABLE_BASE_ID env)) eqn:Hbase; cbn [negb].
  2:{ cbn. discriminate. }
  rewrite !(Get_after_validation rt data v) by exact Hv.
  destruct (calculatePricing _ _ _) as [p|e] eqn:Hp.
  2:{ intros H. exfalso. revert H. apply catch_status. }
  unfold create.
  destruct (reply st) as [e|] eqn:Hreply.
  { intros H. exfalso. revert H. apply catch_status. }
  intros _. split; [reflexivity|].
  exists data, p. repeat split; eauto.
Qed.

(** X9: the handler answers 200 exactly when the request is a POST whose
    body parses and passes validation, both the API key and the base id are
    set, pricing returns, and the store accepts the record; the record it
    then adds holds the price and the discount computed by the server, and
    the store has received one [create] call. *)
Theorem submission_succeeds_iff (rt : Runtime) (request : Request) (env : Env)
  (st : Airtable) :
  ((fst (handleSubmitRequest rt request env st)).(status) = 200 <->
   st.(reply) = None /\ exists data p, accepted_submission rt request env data p)
  /\ (forall data p,
         accepted_submission rt request env data p -> st.(reply) = None ->
         handleSubmitRequest rt request env st
         = (success_response,
            {| reply := None;
               records := (st.(records) ++ [ stored_record rt env data p ])%list;
               create_calls := S st.(create_calls) |})).
Proof.
  split; [split|].
  - apply handleSubmitRequest_200.
  - intros (Hreply & data & p & Hacc).
    rewrite (handleSubmitRequest_accepted rt request env st data p Hacc), Hreply.
    reflexivity.
  - intros data p Hacc Hreply.
    rewrite (handleSubmitRequest_accepted rt request env st data p Hacc), Hreply.
    reflexivity.
Qed.

(** A run of X9: the sample payload is stored with the server's price. *)
Lemma submission_succeeds_iff_witness :
  handleSubmitRequest lenient_runtime
    (request_to "POST" submit_route (Some sample_payload)) configured_env empty_store
  = (success_response,
     {| reply := None;
        records :=
          [ stored_record lenient_runtime configured_env sample_payload
              {| total := VNum (Fin 350); discount := VNum (Fin 0) |} ];
        create_calls := 1 |}).
Proof.
  apply (proj2 (submission_succeeds_iff lenient_runtime
                  (request_to "POST" submit_route (Some sample_payload))
                  configured_env empty_store)
           sample_payload {| total := VNum (Fin 350); discount := VNum (Fin 0) |}).
  - repeat split. exists {| isValid := true; errors := [] |}. split; reflexivity.
  - reflexivity.
Defined.

(** X10: when the store rejects the record of an accepted submission, the
    answer follows the thrown value: "Failed to save to database" with its
    message as details when it carries a truthy [statusCode], "Internal
    server error" when it does not; but a [SyntaxError] is answered with 400
    "Invalid JSON in request body", although the body had parsed. Nothing
    is stored in any of these cases. *)
Theorem store_rejection_is_classified (rt : Runtime) (request : Request) (env : Env)
  (st : Airtable) (data : value) (p : PricingResult) (e : exn) :
  accepted_submission rt request env data p ->
  st.(reply) = Some e ->
  fst (handleSubmitRequest rt request env st)
  = match e.(exn_class) with
    | SyntaxError => invalid_json_response
    | _ => if truthy e.(exn_statusCode) then save_failed_response e.(exn_message)
           else internal_error_response
    end
  /\ (snd (handleSubmitRequest rt request env st)).(records) = st.(records)
  /\ (snd (handleSubmitRequest rt request env st)).(create_calls) = S st.(create_calls).
Proof.
  intros Hacc Hreply.
  rewrite (handleSubmitRequest_accepted rt request env st data p Hacc), Hreply.
  repeat split.
Qed.

(** A run of X10: Airtable answers 422. *)
Lemma store_rejection_is_classified_witness :
  fst (handleSubmitRequest lenient_runtime
         (request_to "POST" submit_route (Some sample_payload)) configured_env
         {| reply := Some (mkExn OtherError (VNum (Fin 422)) "INVALID_VALUE_FOR_COLUMN");
            records := []; create_calls := 0 |})
  = save_failed_response "INVALID_VALUE_FOR_COLUMN".
Proof.
  apply (store_rejection_is_classified lenient_runtime
           (request_to "POST" submit_route (Some sample_payload)) configured_env
           {| reply := Some (mkExn OtherError (VNum (Fin 422)) "INVALID_VALUE_FOR_COLUMN");
              records := []; create_calls := 0 |}
           sample_payload {| total := VNum (Fin 350); discount := VNum (Fin 0) |}
           (mkExn OtherError (VNum (Fin 422)) "INVALID_VALUE_FOR_COLUMN")).
  - repeat split. exists {| isValid := true; errors := [] |}. split; reflexivity.
  - reflexivity.
Defined.

(* ================================================================== *)
(** ** The worker: what every response looks like *)
(* ================================================================== *)

(** Every answer of the handler is a JSON response whose [success] flag
    tells whether the status is 200. *)
Lemma handleSubmitRequest_shape (rt : Runtime) (request : Request) (env : Env)
  (st : Airtable) :
  exists code payload,
    fst (handleSubmitRequest rt request env st) = json_response code payload
    /\ own_property "success" payload = Some (VBool (code =? 200))
    /\ In code [200; 400; 405; 500].
Proof.
  assert (Hcatch : forall (e : exn) (st' : Airtable),
    exists code payload,
      fst (match exn_class e with
           | SyntaxError =>
               json_response 400
                 [ ("success", VBool false);
                   ("error", VStr "Invalid JSON in request body") ]
           | _ =>
               if truthy (exn_statusCode e) then
                 json_response 500
                   [ ("success", VBool false);
                     ("error", VStr "Failed to save to database");
                     ("details", VStr (exn_message e)) ]
               else
                 json_response 500
                   [ ("success", VBool false); ("error", VStr "Internal server error") ]
           end, st') = json_response code payload
      /\ own_property "success" payload = Some (VBool (code =? 200))
      /\ In code [200; 400; 405; 500]).
  { intros e st'. destruct (exn_class e); [|destruct (truthy _)..];
      do 2 eexists; (split; [reflexivity|split; [reflexivity|cbn; auto]]). }
  unfold handleSubmitRequest.
  destruct (negb (method request =? "POST")%string).
  { do 2 eexists. split; [reflexivity|split; [reflexivity|cbn; auto]]. }
  unfold try_catch, bindIO, request_json, lift, ret.
  destruct (json request) as [data|]; [|apply (Hcatch (mkExn SyntaxError VUndefined _))].
  destruct (validateEstimateForm rt data) as [v|e]; [|apply Hcatch].
  destruct (negb (isValid v)).
  { do 2 eexists. split; [reflexivity|split; [reflexivity|cbn; auto]]. }
  destruct (negb (truthy (AIRTABLE_API_KEY env))).
  { do 2 eexists. split; [reflexivity|split; [reflexivity|cbn; auto]]. }
  destruct (negb (truthy (AIRTABLE_BASE_ID env))).
  { do 2 eexists. split; [reflexivity|split; [reflexivity|cbn; auto]]. }
  do 3 (match goal with
        | |- context [Get data ?k] => destruct (Get data k) as [?|?]; [|apply Hcatch]
        end).
  destruct (calculatePricing _ _ _) as [pricing|e]; [|apply Hcatch].
  do 6 (match goal with
        | |- context [Get data ?k] => destruct (Get data k) as [?|?]; [|apply Hcatch]
        end).
  unfold create.
  destruct (reply st) as [e|]; [apply Hcatch|].
  do 2 eexists. split; [reflexivity|split; [reflexivity|cbn; auto]].
Qed.

(** X11: the worker only ever answers 200, 204, 301, 400, 405 or 500; a
    response with a body carries a [success] flag that is [true] exactly
    when the status is 200; the responses without a body are the 204
    preflight answer and the 301 redirect. *)
Theorem response_statuses_and_success_flag (rt : Runtime) (request : Request)
  (env : Env) (st : Airtable) :
  let r := fst (fetch rt request env st) in
  In r.(status) [200; 204; 301; 400; 405; 500]
  /\ (forall fields,
         r.(body) = Some (VObj fields) ->
         own_property "success" fields = Some (VBool (r.(status) =? 200)))
  /\ (r.(body) = None <-> r.(status) = 204 \/ r.(status) = 301).
Proof.
  cbn zeta. unfold fetch.
  destruct (method request =? "OPTIONS")%string.
  { cbn. repeat split; auto; discriminate. }
  destruct (pathname request =? "/api/submit-request")%string.
  2:{ cbn. repeat split; auto; discriminate. }
  destruct (handleSubmitRequest_shape rt request env st)
    as (code & payload & -> & Hflag & Hcode).
  cbn [json_response status body].
  repeat split.
  - cbn in Hcode. cbn. intuition.
  - intros fields H. inversion H; subst. exact Hflag.
  - discriminate.
  - intros [H|H]; subst code; cbn in Hcode; intuition discriminate.
Qed.

(** X12: every response except the 301 redirect carries the three CORS
    headers, and every response with a body is declared as JSON; the
    redirect carries a [Location] header only. *)
Theorem cors_headers_on_every_answer (rt : Runtime) (request : Request)
  (env : Env) (st : Airtable) :
  let r := fst (fetch rt request env st) in
  (r.(status) <> 301 -> incl corsHeaders r.(headers))
  /\ (r.(body) <> None -> In ("Content-Type", "application/json") r.(headers))
  /\ (r.(status) = 301 ->
      r.(headers) = [ ("Location", request.(origin) ++ "/404") ]).
Proof.
  cbn zeta. unfold fetch.
  destruct (method request =? "OPTIONS")%string.
  { cbn [fst status headers body]. repeat split.
    - intros _. apply incl_refl.
    - intros H. now contradiction H.
    - discriminate. }
  destruct (pathname request =? "/api/submit-request")%string.
  2:{ cbn [fst status headers body Response_redirect]. repeat split.
      - intros H. now contradiction H.
      - intros H. now contradiction H. }
  destruct (handleSubmitRequest_shape rt request env st)
    as (code & payload & -> & _ & Hcode).
  cbn [json_response status headers body]. repeat split.
  - intros _. apply incl_appl. apply incl_refl.
  - intros _. apply in_or_app. right. left. reflexivity.
  - intros ->. cbn in Hcode. intuition discriminate.
Qed.

(** X13: of an object payload the worker reads nine properties and nothing
    else: two bodies that agree on them get the same answer and leave the
    same store.  A price, a discount or a status sent by the client is
    never used. *)
Theorem only_nine_properties_are_read (rt : Runtime) (request : Request) (env : Env)
  (st : Airtable) (props props' : list (string * value)) :
  (forall key, In key read_keys -> field props key = field props' key) ->
  fetch rt (with_json request (Some (VObj props))) env st
  = fetch rt (with_json request (Some (VObj props'))) env st.
Proof.
  intros H.
  assert (H1 := H "appUrl" ltac:(cbn; auto 10)).
  assert (H2 := H "email" ltac:(cbn; auto 10)).
  assert (H3 := H "selectedFeatures" ltac:(cbn; auto 10)).
  assert (H4 := H "selectedServices" ltac:(cbn; auto 10)).
  assert (H5 := H "hasCustomRequest" ltac:(cbn; auto 10)).
  assert (H6 := H "customRequestText" ltac:(cbn; auto 10)).
  assert (H7 := H "platform" ltac:(cbn; auto 10)).
  assert (H8 := H "additionalContext" ltac:(cbn; auto 10)).
  assert (H9 := H "timestamp" ltac:(cbn; auto 10)).
  unfold fetch, with_json. cbn [method pathname origin json].
  destruct (method request =? "OPTIONS")%string; [reflexivity|].
  destruct (pathname request =? "/api/submit-request")%string; [|reflexivity].
  unfold handleSubmitRequest. cbn [method pathname origin json].
  destruct (negb (method request =? "POST")%string); [reflexivity|].
  unfold try_catch, bindIO, request_json, lift, ret. cbn [json].
  rewrite !validateEstimateForm_object. unfold triggered.
  rewrite !Get_object.
  rewrite H1, H2, H3, H4, H5, H6, H7, H8, H9.
  reflexivity.
Qed.

(** A run of X13: a [totalPrice] sent along changes nothing. *)
Lemma only_nine_properties_are_read_witness :
  fetch lenient_runtime
    (with_json (request_to "POST" submit_route None)
       (Some (VObj [ ("appUrl", VStr "https://app.example.com");
                     ("email", VStr "team@example.com");
                     ("selectedFeatures", names_array ["Payments"]) ])))
    configured_env empty_store
  = fetch lenient_runtime
      (with_json (request_to "POST" submit_route None)
         (Some (VObj [ ("totalPrice", VNum (Fin 1));
                       ("appUrl", VStr "https://app.example.com");
                       ("email", VStr "team@example.com");
                       ("selectedFeatures", names_array ["Payments"]) ])))
      configured_env empty_store.
Proof.
  apply (only_nine_properties_are_read lenient_runtime
           (request_to "POST" submit_route None) configured_env empty_store).
  intros key Hin. cbn in Hin.
  repeat (destruct Hin as [<-|Hin]; [reflexivity|]).
  contradiction.
Defined.

(* ================================================================== *)
(** ** Pricing and the handler on elements that are not strings *)
(* ================================================================== *)









Lemma calculatePricing_truthiness (sf ss h : value) :
  calculatePricing sf ss h = calculatePricing sf ss (VBool (truthy h)).
Proof. reflexivity. Qed.

Lemma In_triggered_selection (rt : Runtime) (props : list (string * value)) (msg : string) :
  In msg (selection_rule (field props "selectedFeatures") (field props "selectedServices")
            (field props "hasCustomRequest")) ->
  In msg (triggered rt props).
Proof.
  intros H. unfold triggered.
  apply in_or_app. right. apply in_or_app. right. apply in_or_app. left. exact H.
Qed.

(** X15: [hasCustomRequest] counts as a selection only when it is the
    boolean [true], while the price and the description rule go by
    truthiness.  For a truthy value other than [true] (1, a non-empty
    string): without a non-empty selection array validation reports "At
    least one service must be selected" whenever it returns, and the engine
    still adds the custom request base price. *)
Theorem truthy_flag_is_priced_but_not_counted (rt : Runtime)
  (props : list (string * value)) (h : value) :
  field props "hasCustomRequest" = h ->
  truthy h = true -> h <> VBool true ->
  (nonempty_array (field props "selectedFeatures") = false ->
   nonempty_array (field props "selectedServices") = false ->
   forall v, validateEstimateForm rt (VObj props) = Ok v ->
             In "At least one service must be selected" v.(errors))
  /\ (forall fs ss, plain_names fs -> plain_names ss ->
        calculatePricing (names_array fs) (names_array ss) h
        = Ok {| total := VNum (Fin (expected_total fs ss true));
                discount := VNum (Fin (expected_discount fs)) |}).
Proof.
  intros Hh Htruthy Hnot. split.
  - intros Hf Hs v Hv.
    rewrite validateEstimateForm_object in Hv.
    destruct (custom_text_throws _ _); [discriminate Hv|].
    inversion Hv; subst v. cbn [errors].
    apply In_triggered_selection. unfold selection_rule.
    rewrite Hf, Hs, Hh.
    assert (Hstrict : strict_eq_true h = false).
    { destruct h as [| |[|]|n|s|l|ps|name|]; try reflexivity. now contradiction Hnot. }
    rewrite Hstrict. cbn. auto.
  - intros fs ss Hfs Hss.
    rewrite calculatePricing_truthiness, Htruthy.
    now apply calculatePricing_plain_names.
Qed.

(** A run of X15: [hasCustomRequest: 1] with one feature costs 350. *)
Lemma truthy_flag_is_priced_but_not_counted_witness :
  calculatePricing (names_array ["Payments"]) (names_array []) (VNum (Fin 1))
  = Ok {| total := VNum (Fin 350); discount := VNum (Fin 0) |}.
Proof.
  apply (proj2 (truthy_flag_is_priced_but_not_counted strict_runtime
                  [ ("hasCustomRequest", VNum (Fin 1)) ] (VNum (Fin 1))
                  eq_refl eq_refl ltac:(discriminate))
           ["Payments"] []);
    repeat constructor.
Defined.

(* ================================================================== *)
(** ** The estimate form: the selection *)
(* ================================================================== *)

Lemma same_form_refl (s : Client.State) : same_form s s.
Proof. repeat split. Qed.

Lemma calculateEstimate_same_form (w : Client.World) :
  same_form w.(Client.state) (snd (Client.calculateEstimate w)).(Client.state)
  /\ (snd (Client.calculateEstimate w)).(Client.dom) = w.(Client.dom).
Proof.
  unfold Client.calculateEstimate, Client.bind, Client.get_state, Client.get_dom,
    Client.lift, Client.set_state, Client.ret.
  cbn [fst snd Client.state Client.dom].
  destruct (Client.price_items _ _ (Client.selectedFeatures _) _) as [[t fs]|e];
    [|split; [apply same_form_refl|reflexivity]].
  cbn [fst snd].
  destruct (Client.featureDiscountThreshold Client.pricing <=? _);
    destruct (Client.price_items _ _ (Client.selectedServices _) _) as [[t' ss]|e];
    cbn; repeat split.
Qed.

Lemma classList_add_state (el c : string) (w : Client.World) :
  Client.classList_add el c w
  = (Ok tt, {| Client.state := w.(Client.state);
               Client.dom := (snd (Client.classList_add el c w)).(Client.dom) |}).
Proof. reflexivity. Qed.

Lemma updateEstimateSummary_same_form (w : Client.World) :
  same_form w.(Client.state) (snd (Client.updateEstimateSummary w)).(Client.state).
Proof.
  unfold Client.updateEstimateSummary, Client.bind.
  pose proof (calculateEstimate_same_form w) as [Hs _].
  destruct (Client.calculateEstimate w) as [[est|e] w1]; cbn [snd] in *; [|exact Hs].
  unfold Client.set_textContent, Client.classList_add, Client.classList_remove,
    Client.set_dom.
  destruct (Client.hasCustom _); cbn; exact Hs.
Qed.

Lemma updateLiveCalculation_same_form (w : Client.World) :
  same_form w.(Client.state) (snd (Client.updateLiveCalculation w)).(Client.state).
Proof.
  unfold Client.updateLiveCalculation, Client.bind, Client.get_state.
  cbn [fst snd Client.state].
  destruct (Client.featureDiscountThreshold Client.pricing <=? _);
    unfold Client.classList_remove at 1, Client.classList_add at 1, Client.set_dom at 1;
    cbn [fst snd Client.state Client.dom];
    (destruct ((0 <? _) || _ || _);
     [ match goal with
       | |- context [Client.updateEstimateSummary ?w1] =>
           pose proof (updateEstimateSummary_same_form w1) as Hs;
           destruct (Client.updateEstimateSummary w1) as [[[]|e] w2]
       end; cbn [snd Client.state] in *; exact Hs
     | cbn; apply same_form_refl ]).
Qed.

Lemma strict_eq_dataset (a b : value) :
  dataset_value a = true -> dataset_value b = true ->
  (Client.strict_eq a b = true <-> a = b).
Proof.
  destruct a, b; try discriminate; intros _ _; cbn; split; intros H;
    try reflexivity; try discriminate H.
  - apply String.eqb_eq in H. now subst.
  - inversion H. apply String.eqb_refl.
Qed.

Lemma Get_nameMapping_dataset (v : value) :
  dataset_value v = true -> exists x, Client.Get_nameMapping v = Ok x.
Proof.
  destruct v; try discriminate; intros _; unfold Client.Get_nameMapping; cbn;
    eexists; reflexivity.
Qed.

Lemma existsb_strict_eq (i : value) (l : list Client.Item) :
  dataset_value i = true ->
  Forall (fun f => dataset_value f.(Client.id) = true) l ->
  (existsb (fun f => Client.strict_eq f.(Client.id) i) l = true
   <-> In i (map Client.id l)).
Proof.
  intros Hi Hl. rewrite existsb_exists, in_map_iff. split.
  - intros (f & Hin & Heq). exists f. split; [|assumption].
    apply strict_eq_dataset; [|assumption|assumption].
    rewrite Forall_forall in Hl. now apply Hl.
  - intros (f & Heq & Hin). exists f. split; [assumption|].
    apply strict_eq_dataset; [|assumption|assumption].
    rewrite Forall_forall in Hl. now apply Hl.
Qed.

Lemma filter_ids (i : value) (l : list Client.Item) :
  dataset_value i = true ->
  Forall (fun f => dataset_value f.(Client.id) = true) l ->
  NoDup (map Client.id l) ->
  let l' := filter (fun f => negb (Client.strict_eq f.(Client.id) i)) l in
  NoDup (map Client.id l') /\ ~ In i (map Client.id l')
  /\ Forall (fun f => dataset_value f.(Client.id) = true) l'.
Proof.
  intros Hi Hl Hnd. cbn zeta.
  induction l as [|f l IH]; cbn [filter map].
  - repeat split; [constructor|intros []|constructor].
  - inversion Hl as [|? ? Hf Hl']; subst. inversion Hnd as [|? ? Hnotin Hnd']; subst.
    destruct (IH Hl' Hnd') as (IH1 & IH2 & IH3).
    destruct (Client.strict_eq (Client.id f) i) eqn:E; cbn [negb].
    + auto.
    + cbn [map]. repeat split.
      * constructor; [|assumption].
        intros Hin. apply Hnotin.
        apply in_map_iff in Hin. destruct Hin as (g & Hg & Hin).
        apply filter_In in Hin. destruct Hin as [Hin _].
        apply in_map_iff. eauto.
      * intros [Heq|Hin]; [|now apply IH2].
        assert (Client.strict_eq (Client.id f) i = true)
          by (apply strict_eq_dataset; assumption).
        congruence.
      * constructor; assumption.
Qed.

(** What [toggle_item] does to a selection with unique ids. *)
Lemma toggle_item_ids (checked : bool) (i n : value) (l : list Client.Item) :
  dataset_value i = true ->
  Forall (fun f => dataset_value f.(Client.id) = true) l ->
  NoDup (map Client.id l) ->
  let l' := Client.toggle_item checked i n l in
  NoDup (map Client.id l')
  /\ (In i (map Client.id l') <-> checked = true)
  /\ Forall (fun f => dataset_value f.(Client.id) = true) l'
  /\ (forall j, j <> i -> (In j (map Client.id l') <-> In j (map Client.id l))).
Proof.
  intros Hi Hl Hnd. cbn zeta. unfold Client.toggle_item.
  destruct checked.
  - destruct (existsb _ l) eqn:E; cbn [negb].
    + apply (existsb_strict_eq i l Hi Hl) in E.
      split; [assumption|]. split; [split; auto|]. split; [assumption|].
      intros j _. tauto.
    + assert (Hnotin : ~ In i (map Client.id l)).
      { intros Hin. apply (existsb_strict_eq i l Hi Hl) in Hin. congruence. }
      rewrite map_app. cbn [map Client.id].
      split; [|split; [|split]].
      * apply NoDup_app; [assumption|repeat constructor; intros []|].
        intros x Hx [<-|[]]. contradiction.
      * split; [reflexivity|]. intros _. apply in_or_app. right. left. reflexivity.
      * apply Forall_app. split; [assumption|]. repeat constructor. assumption.
      * intros j Hj. split.
        -- intros Hin. apply in_app_or in Hin. destruct Hin as [Hin|[Heq|[]]];
             [assumption|]. congruence.
        -- intros Hin. apply in_or_app. now left.
  - destruct (filter_ids i l Hi Hl Hnd) as (H1 & H2 & H3).
    split; [assumption|]. split; [|split; [assumption|]].
    + split; [intros Hin; contradiction|discriminate].
    + intros j Hj. split.
      * intros Hin. apply in_map_iff in Hin. destruct Hin as (g & Hg & Hin).
        apply filter_In in Hin. destruct Hin as [Hin _]. apply in_map_iff. eauto.
      * intros Hin. apply in_map_iff in Hin. destruct Hin as (g & Hg & Hin).
        apply in_map_iff. exists g. split; [assumption|].
        apply filter_In. split; [assumption|].
        apply negb_true_iff. destruct (Client.strict_eq (Client.id g) i) eqn:E;
          [|reflexivity].
        apply strict_eq_dataset in E; [congruence| |assumption].
        rewrite Forall_forall in Hl. now apply Hl.
Qed.

Lemma handleFeatureChange_selection (e : Client.Event) (w : Client.World)
  (card : Client.Card) :
  e.(Client.target_card) = Some card ->
  dataset_value card.(Client.dataset_id) = true ->
  exists n,
    (snd (Client.handleFeatureChange e w)).(Client.state).(Client.selectedFeatures)
    = Client.toggle_item e.(Client.target_checked) card.(Client.dataset_id) n
        w.(Client.state).(Client.selectedFeatures)
    /\ (snd (Client.handleFeatureChange e w)).(Client.state).(Client.selectedServices)
       = w.(Client.state).(Client.selectedServices).
Proof.
  intros Hcard Hid.
  destruct (Get_nameMapping_dataset _ Hid) as (x & Hx).
  exists (js_or x card.(Client.dataset_id)).
  unfold Client.handleFeatureChange. rewrite Hcard.
  unfold Client.bind, Client.lift, Client.get_state, Client.set_selectedFeatures,
    Client.set_state, Client.trackEvent, Client.ret.
  rewrite Hx. cbn [fst snd Client.state Client.dom].
  match goal with
  | |- context [Client.updateLiveCalculation ?w1] =>
      pose proof (updateLiveCalculation_same_form w1) as Hs;
      destruct (Client.updateLiveCalculation w1) as [[[]|err] w2]
  end; cbn [snd Client.state Client.selectedFeatures Client.selectedServices] in *;
    destruct Hs as (H1 & H2 & _); rewrite H1, H2; split; reflexivity.
Qed.

Lemma handleServiceChange_selection (e : Client.Event) (w : Client.World)
  (card : Client.Card) :
  e.(Client.target_card) = Some card ->
  dataset_value card.(Client.dataset_id) = true ->
  exists n,
    (snd (Client.handleServiceChange e w)).(Client.state).(Client.selectedServices)
    = Client.toggle_item e.(Client.target_checked) card.(Client.dataset_id) n
        w.(Client.state).(Client.selectedServices)
    /\ (snd (Client.handleServiceChange e w)).(Client.state).(Client.selectedFeatures)
       = w.(Client.state).(Client.selectedFeatures).
Proof.
  intros Hcard Hid.
  destruct (Get_nameMapping_dataset _ Hid) as (x & Hx).
  exists (js_or x card.(Client.dataset_id)).
  unfold Client.handleServiceChange. rewrite Hcard.
  unfold Client.bind, Client.lift, Client.get_state, Client.set_selectedServices,
    Client.set_state, Client.ret.
  rewrite Hx. cbn [fst snd Client.state Client.dom].
  match goal with
  | |- context [Client.updateLiveCalculation ?w1] =>
      pose proof (updateLiveCalculation_same_form w1) as Hs;
      destruct (Client.updateLiveCalculation w1) as [[[]|err] w2]
  end; cbn [snd Client.state Client.selectedFeatures Client.selectedServices] in *;
    destruct Hs as (H1 & H2 & _); rewrite H1, H2; split; reflexivity.
Qed.

(** X16: a change event on the checkbox of a feature card (of a service
    card) leaves the selection with unique ids; afterwards the id of the
    card is in the selection exactly when the box is checked, every other
    id is selected as before, and the other selection is untouched.  This
    holds whether or not the redraw of the estimate that follows throws. *)
Theorem selection_follows_the_checkboxes (e : Client.Event) (w : Client.World)
  (card : Client.Card) :
  e.(Client.target_card) = Some card ->
  dataset_value card.(Client.dataset_id) = true ->
  let ids (l : list Client.Item) := map Client.id l in
  let unique (l : list Client.Item) :=
    Forall (fun f => dataset_value f.(Client.id) = true) l /\ NoDup (ids l) in
  let i := card.(Client.dataset_id) in
  (unique w.(Client.state).(Client.selectedFeatures) ->
   let s' := (snd (Client.handleFeatureChange e w)).(Client.state) in
   unique s'.(Client.selectedFeatures)
   /\ (In i (ids s'.(Client.selectedFeatures)) <-> e.(Client.target_checked) = true)
   /\ (forall j, j <> i ->
         (In j (ids s'.(Client.selectedFeatures))
          <-> In j (ids w.(Client.state).(Client.selectedFeatures))))
   /\ s'.(Client.selectedServices) = w.(Client.state).(Client.selectedServices))
  /\ (unique w.(Client.state).(Client.selectedServices) ->
      let s' := (snd (Client.handleServiceChange e w)).(Client.state) in
      unique s'.(Client.selectedServices)
      /\ (In i (ids s'.(Client.selectedServices)) <-> e.(Client.target_checked) = true)
      /\ (forall j, j <> i ->
            (In j (ids s'.(Client.selectedServices))
             <-> In j (ids w.(Client.state).(Client.selectedServices))))
      /\ s'.(Client.selectedFeatures) = w.(Client.state).(Client.selectedFeatures)).
Proof.
  intros Hcard Hid. cbn zeta. split.
  - intros [Hall Hnd].
    destruct (handleFeatureChange_selection e w card Hcard Hid) as (n & -> & ->).
    destruct (toggle_item_ids e.(Client.target_checked) card.(Client.dataset_id) n _
                Hid Hall Hnd) as (H1 & H2 & H3 & H4).
    split; [split; assumption|]. split; [exact H2|]. split; [exact H4|reflexivity].
  - intros [Hall Hnd].
    destruct (handleServiceChange_selection e w card Hcard Hid) as (n & -> & ->).
    destruct (toggle_item_ids e.(Client.target_checked) card.(Client.dataset_id) n _
                Hid Hall Hnd) as (H1 & H2 & H3 & H4).
    split; [split; assumption|]. split; [exact H2|]. split; [exact H4|reflexivity].
Qed.

(** A run of X16: checking the card [saas] selects it. *)
Lemma selection_follows_the_checkboxes_witness :
  In (VStr "saas")
    (map Client.id
       (snd (Client.handleFeatureChange (check_event true (sample_card "saas" "100"))
               sample_world)).(Client.state).(Client.selectedFeatures)).
Proof.
  apply (proj1 (proj2
           (proj1 (selection_follows_the_checkboxes
                     (check_event true (sample_card "saas" "100")) sample_world
                     (sample_card "saas" "100") eq_refl eq_refl)
              ltac:(split; [repeat constructor|
                            repeat constructor; cbn; intuition discriminate])))).
  reflexivity.
Defined.

Example sample_estimate :
  fst (Client.calculateEstimate sample_world)
  = Ok {| Client.total := Fin 420; Client.discount := Fin 30;
          Client.breakdown :=
            {| Client.bd_features :=
                 [ {| Client.label := VStr "Authentication"; Client.price := Fin 100 |};
                   {| Client.label := VStr "Payments"; Client.price := Fin 100 |};
                   {| Client.label := VStr "File Uploads"; Client.price := Fin 100 |} ];
               Client.bd_services :=
                 [ {| Client.label := VStr "UI/UX Review"; Client.price := Fin 150 |} ];
               Client.hasCustom := false |} |}.
Proof. reflexivity. Qed.

(* ================================================================== *)
(** ** The estimate form: the live estimate and the server's price *)
(* ================================================================== *)

Lemma price_items_listed (d : Client.Dom) (selector : value -> result string)
  (catalog : list (string * Z)) (items : list Client.Item) :
  Forall (priced_as_listed d selector catalog) items ->
  exists ns,
    map Client.name items = map VStr ns
    /\ plain_names ns
    /\ forall a l0,
         Client.price_items d selector items (Fin a, l0)
         = Ok (Fin (a + catalog_sum catalog ns),
               (l0 ++ map (fun n => {| Client.label := VStr n;
                                       Client.price := Fin (unit_price catalog n) |})
                          ns)%list).
Proof.
  induction 1 as [|item items Hitem _ IH].
  - exists []. repeat split; [constructor|].
    intros a l0. cbn. now rewrite Z.add_0_r, app_nil_r.
  - destruct IH as (ns & Hnames & Hplain & Hrun).
    destruct Hitem as (n & sel & card & Hname & Hinh & Hsel & Hcard & Hprice).
    exists (n :: ns). split; [|split].
    + cbn [map]. now rewrite Hname, Hnames.
    + constructor; assumption.
    + intros a l0. cbn [Client.price_items].
      rewrite Hsel. rewrite bind_Ok.
      unfold Client.card_price. rewrite Hcard, bind_Ok, Hprice, bind_Ok.
      cbn [fst snd number_add]. rewrite Hname, Hrun.
      cbn [catalog_sum fold_right map]. fold (catalog_sum catalog ns).
      rewrite <- app_assoc. cbn [app].
      f_equal. f_equal. f_equal. lia.
Qed.

Lemma fold_line_items (catalog : list (string * Z)) (ns : list string) (a : Z) :
  fold_left (fun sum item => number_add sum item.(Client.price))
    (map (fun n => {| Client.label := VStr n;
                      Client.price := Fin (unit_price catalog n) |}) ns)
    (Fin a)
  = Fin (a + catalog_sum catalog ns).
Proof.
  revert a. induction ns as [|n ns IH]; intros a; cbn [map fold_left].
  - cbn. now rewrite Z.add_0_r.
  - cbn [Client.price number_add]. rewrite IH.
    cbn [catalog_sum fold_right]. fold (catalog_sum catalog ns). f_equal. lia.
Qed.

(** X17: no drift between the page and the worker.  When the cards of the
    selected items carry the catalog prices, the estimate the page computes
    has the discount the worker stores, and the worker's price is the
    page's total plus the custom request base price of 250 when a custom
    request is selected; the page keeps its total in [state.totalPrice]. *)
Theorem estimate_agrees_with_server (w : Client.World) :
  let st := w.(Client.state) in
  Forall (priced_as_listed w.(Client.dom) Client.feature_selector PRICING.(features))
    st.(Client.selectedFeatures) ->
  Forall (priced_as_listed w.(Client.dom) Client.service_selector PRICING.(services))
    st.(Client.selectedServices) ->
  exists t d est w',
    Client.calculateEstimate w = (Ok est, w')
    /\ est.(Client.total) = Fin t /\ est.(Client.discount) = Fin d
    /\ w'.(Client.state).(Client.totalPrice) = Fin t
    /\ calculatePricing (VArr (map Client.name st.(Client.selectedFeatures)))
         (VArr (map Client.name st.(Client.selectedServices)))
         (VBool st.(Client.hasCustomRequest))
       = Ok {| total := VNum (Fin (t + if st.(Client.hasCustomRequest)
                                       then 250 else 0));
               discount := VNum (Fin d) |}.
Proof.
  cbn zeta. intros Hfs Hss.
  destruct (price_items_listed _ _ _ _ Hfs) as (fs & Hfnames & Hfplain & Hfrun).
  destruct (price_items_listed _ _ _ _ Hss) as (ss & Hsnames & Hsplain & Hsrun).
  unfold Client.calculateEstimate, Client.bind, Client.get_state, Client.get_dom,
    Client.lift, Client.set_state, Client.ret.
  cbn [fst snd Client.state Client.dom].
  rewrite Hfrun. cbn [fst snd app].
  rewrite length_map.
  rewrite Hfnames, Hsnames.
  change (VArr (map VStr fs)) with (names_array fs).
  change (VArr (map VStr ss)) with (names_array ss).
  rewrite (calculatePricing_plain_names fs ss _ Hfplain Hsplain).
  unfold expected_total, expected_discount.
  change (Client.featureDiscountThreshold Client.pricing)
    with (featureDiscountThreshold PRICING).
  destruct (featureDiscountThreshold PRICING <=? Z.of_nat (List.length fs)).
  - rewrite fold_line_items. cbn [Client.round_times number_sub].
    rewrite Hsrun. cbn [fst snd app].
    do 4 eexists. split; [reflexivity|].
    cbn [Client.total Client.discount Client.state Client.totalPrice].
    split; [reflexivity|]. split; [reflexivity|]. split; [reflexivity|].
    rewrite !Z.add_0_l.
    change (Client.featureDiscountRate Client.pricing) with (featureDiscountRate PRICING).
    destruct (Client.hasCustomRequest (Client.state w)); reflexivity.
  - rewrite Hsrun. cbn [fst snd app].
    do 4 eexists. split; [reflexivity|].
    cbn [Client.total Client.discount Client.state Client.totalPrice].
    split; [reflexivity|]. split; [reflexivity|]. split; [reflexivity|].
    rewrite !Z.add_0_l, Z.sub_0_r.
    destruct (Client.hasCustomRequest (Client.state w)); reflexivity.
Qed.

(** A run of X17. *)
Lemma estimate_agrees_with_server_witness :
  exists t d est w',
    Client.calculateEstimate sample_world = (Ok est, w')
    /\ est.(Client.total) = Fin t /\ est.(Client.discount) = Fin d
    /\ w'.(Client.state).(Client.totalPrice) = Fin t
    /\ calculatePricing
         (VArr (map Client.name sample_world.(Client.state).(Client.selectedFeatures)))
         (VArr (map Client.name sample_world.(Client.state).(Client.selectedServices)))
         (VBool sample_world.(Client.state).(Client.hasCustomRequest))
       = Ok {| total := VNum (Fin (t + if sample_world.(Client.state).(Client.hasCustomRequest)
                                       then 250 else 0));
               discount := VNum (Fin d) |}.
Proof.
  apply (estimate_agrees_with_server sample_world);
    repeat (constructor; [do 3 eexists; repeat split; reflexivity|]); constructor.
Defined.

(* ================================================================== *)
(** ** The estimate form: validation and submission *)
(* ================================================================== *)

Lemma strip_start_idem (p : ascii -> bool) (s : string) :
  strip_start p (strip_start p s) = strip_start p s.
Proof.
  induction s as [|c s IH]; cbn; [reflexivity|].
  destruct (p c) eqn:E; [assumption|]. cbn. now rewrite E.
Qed.

Lemma strip_end_idem (p : ascii -> bool) (s : string) :
  strip_end p (strip_end p s) = strip_end p s.
Proof.
  induction s as [|c s IH]; cbn; [reflexivity|].
  destruct (p c && (strip_end p s =? "")%string) eqn:E; [reflexivity|].
  cbn. rewrite IH, E. reflexivity.
Qed.

Lemma strip_start_end (p : ascii -> bool) (s : string) :
  strip_start p (strip_end p (strip_start p s)) = strip_end p (strip_start p s).
Proof.
  assert (H : forall x, strip_start p x = x -> strip_start p (strip_end p x) = strip_end p x).
  { intros [|c x]; cbn; [reflexivity|].
    destruct (p c) eqn:E.
    - intros Hx. exfalso.
      assert (Hlen : forall y, (String.length (strip_start p y) <= String.length y)%nat).
      { induction y as [|c' y IHy]; cbn; [lia|]. destruct (p c'); cbn; lia. }
      specialize (Hlen x). rewrite Hx in Hlen. cbn in Hlen. lia.
    - intros _. cbn. now rewrite E. }
  apply H. apply strip_start_idem.
Qed.

Lemma String_trim_idem (s : string) : String_trim (String_trim s) = String_trim s.
Proof.
  unfold String_trim. rewrite strip_start_end. apply strip_end_idem.
Qed.

(** [validateForm] answers [form_ok]; it changes neither the state nor the
    values of the controls, and a form it accepts keeps its texts. *)
Lemma validateForm_spec (rt : Runtime) (w : Client.World) :
  let w1 := snd (Client.validateForm rt w) in
  fst (Client.validateForm rt w) = Ok (form_ok rt w)
  /\ w1.(Client.state) = w.(Client.state)
  /\ w1.(Client.dom).(Client.values) = w.(Client.dom).(Client.values)
  /\ w1.(Client.dom).(Client.btnText) = w.(Client.dom).(Client.btnText)
  /\ (form_ok rt w = true ->
      w1.(Client.dom).(Client.texts) = w.(Client.dom).(Client.texts)).
Proof.
  cbn zeta. unfold form_ok, Client.validateForm, Client.validateEmail.
  unfold Client.bind, Client.get_dom, Client.get_state, Client.ret,
    Client.classList_add, Client.classList_remove, Client.set_textContent, Client.set_dom.
  cbn [fst snd Client.state Client.dom].
  destruct (truthy (VStr (String_trim (Client.values (Client.dom w) "appUrl"))));
    cbn [negb andb fst snd Client.state Client.dom Client.values];
    [destruct (isValidUrl rt _);
     cbn [negb andb fst snd Client.state Client.dom Client.values]|];
    (destruct ((0 <? _) || (0 <? _) || _);
     cbn [negb andb fst snd Client.state Client.dom Client.values];
     (destruct (truthy (VStr (String_trim (Client.values (Client.dom w) "email"))));
      cbn [negb andb fst snd Client.state Client.dom Client.values];
      [destruct (Regex.test emailRegex _);
       cbn [negb andb fst snd Client.state Client.dom Client.values]|]));
    repeat split; try discriminate; reflexivity.
Qed.

Lemma requestData_shape (net : Client.Network) (st : Client.State) :
  exists platformValue,
    Client.requestData net st
    = Ok (VObj
            [ ("appUrl", VStr st.(Client.appUrl));
              ("platform", platformValue);
              ("selectedFeatures", VArr (map Client.name st.(Client.selectedFeatures)));
              ("selectedServices", VArr (map Client.name st.(Client.selectedServices)));
              ("hasCustomRequest", VBool st.(Client.hasCustomRequest));
              ("customRequestText", VStr st.(Client.customRequestText));
              ("email", VStr st.(Client.email));
              ("additionalContext", VStr st.(Client.additionalContext));
              ("timestamp", VStr net.(Client.now)) ]).
Proof.
  unfold Client.requestData.
  destruct (Client.platform st =? "other")%string; cbn; eexists; reflexivity.
Qed.

Lemma blank_untrimmed (t : string) :
  negb (truthy (VStr t)) || blank (VStr t) = blank (VStr t).
Proof. destruct t; reflexivity. Qed.

(** X18. A form that the page's [validateForm] accepts is sent as an object
    that the worker's validation, with the same URL parser, answers without
    throwing; the worker accepts it exactly when no custom request is
    checked with a blank description, which the page does not check, and
    otherwise reports that one message. *)
Theorem accepted_form_at_the_worker (rt : Runtime) (net : Client.Network)
  (w : Client.World) :
  form_ok rt w = true ->
  let st := Client.state_from_form w.(Client.dom) w.(Client.state) in
  exists data body,
    Client.requestData net st = Ok data
    /\ Client.wire data = Some (VObj body)
    /\ validateEstimateForm rt (VObj body)
       = Ok {| isValid := negb (custom_text_missing w.(Client.state));
               errors := if custom_text_missing w.(Client.state)
                         then [ custom_text_message ] else [] |}.
Proof.
  intros Hok st.
  unfold form_ok in Hok.
  apply andb_prop in Hok as [Hok Hemail]. apply andb_prop in Hok as [Hurl Hsel].
  apply andb_prop in Hurl as [Hurl1 Hurl2]. apply andb_prop in Hemail as [Hemail1 Hemail2].
  destruct (requestData_shape net st) as (pv & Hdata).
  rewrite Hdata.
  assert (Hrules : forall body,
    field body "appUrl" = VStr (String_trim (Client.values (Client.dom w) "appUrl")) ->
    field body "email" = VStr (String_trim (Client.values (Client.dom w) "email")) ->
    field body "selectedFeatures"
    = VArr (map (fun x => match Client.wire x with Some y => y | None => VNull end)
              (map Client.name (Client.selectedFeatures (Client.state w)))) ->
    field body "selectedServices"
    = VArr (map (fun x => match Client.wire x with Some y => y | None => VNull end)
              (map Client.name (Client.selectedServices (Client.state w)))) ->
    field body "hasCustomRequest" = VBool (Client.hasCustomRequest (Client.state w)) ->
    field body "customRequestText" = VStr (Client.customRequestText (Client.state w)) ->
    validateEstimateForm rt (VObj body)
    = Ok {| isValid := negb (custom_text_missing w.(Client.state));
            errors := if custom_text_missing w.(Client.state)
                      then [ custom_text_message ] else [] |}).
  { intros body Ha He Hf Hs Hc Ht.
    rewrite validateEstimateForm_object. unfold triggered, custom_text_throws.
    rewrite Ha, He, Hf, Hs, Hc, Ht.
    replace (truthy (VBool (Client.hasCustomRequest (Client.state w)))
             && truthy (VStr (Client.customRequestText (Client.state w)))
             && negb (typeof_string (VStr (Client.customRequestText (Client.state w)))))
      with false by (cbn [typeof_string negb]; now rewrite andb_false_r).
    unfold url_rule, email_rule, selection_rule, array_rule, custom_rule.
    rewrite blank_untrimmed.
    unfold blank. rewrite !String_trim_idem, Hurl1, Hurl2, Hemail1, Hemail2.
    cbn [negb nonempty_array Array_isArray andb app].
    rewrite !length_map.
    unfold custom_text_missing.
    revert Hsel.
    destruct (0 <? Z.of_nat (List.length (Client.selectedFeatures (Client.state w))));
      destruct (0 <? Z.of_nat (List.length (Client.selectedServices (Client.state w))));
      destruct (Client.hasCustomRequest (Client.state w));
      intros Hsel; try discriminate Hsel;
      cbn [negb andb orb strict_eq_true truthy app];
      try reflexivity;
      destruct (String_trim (Client.customRequestText (Client.state w)) =? "")%string;
      reflexivity. }
  destruct (Client.wire pv) as [y|] eqn:Hpv.
  - eexists; eexists. split; [reflexivity|].
    split; [cbn [Client.wire]; rewrite Hpv; reflexivity|].
    apply Hrules; reflexivity.
  - eexists; eexists. split; [reflexivity|].
    split; [cbn [Client.wire]; rewrite Hpv; reflexivity|].
    apply Hrules; reflexivity.
Qed.

(** A run of X18. *)
Lemma accepted_form_at_the_worker_witness :
  form_ok lenient_runtime sample_world = true
  /\ exists data body,
       Client.requestData sample_network
         (Client.state_from_form sample_world.(Client.dom) sample_world.(Client.state))
       = Ok data
       /\ Client.wire data = Some (VObj body)
       /\ validateEstimateForm lenient_runtime (VObj body)
          = Ok {| isValid := negb (custom_text_missing sample_world.(Client.state));
                  errors := if custom_text_missing sample_world.(Client.state)
                            then [ custom_text_message ] else [] |}.
Proof.
  split; [vm_compute; reflexivity|].
  apply (accepted_form_at_the_worker lenient_runtime sample_network sample_world).
  vm_compute; reflexivity.
Defined.

Lemma In_add_class (c : string) (l : list string) : In c (Client.add_class c l).
Proof.
  unfold Client.add_class. destruct (existsb (String.eqb c) l) eqn:E.
  - apply existsb_exists in E as (x & Hin & Hx). apply String.eqb_eq in Hx. now subst.
  - apply in_or_app. right. now left.
Qed.

Lemma not_In_remove_class (c : string) (l : list string) :
  ~ In c (Client.remove_class c l).
Proof.
  unfold Client.remove_class. intros H. apply filter_In in H as [_ H].
  now rewrite String.eqb_refl in H.
Qed.

(** [validateForm] leaves the error message hidden on a form it accepts
    and visible on one it rejects; it never touches the button. *)
Lemma validateForm_message (rt : Runtime) (w : Client.World) :
  let w1 := snd (Client.validateForm rt w) in
  (if form_ok rt w then hidden w1.(Client.dom) "errorMessage"
   else ~ hidden w1.(Client.dom) "errorMessage")
  /\ w1.(Client.dom).(Client.disableds) = w.(Client.dom).(Client.disableds)
  /\ w1.(Client.dom).(Client.classes) "sendRequestBtn"
     = w.(Client.dom).(Client.classes) "sendRequestBtn".
Proof.
  cbn zeta. unfold hidden, form_ok, Client.validateForm, Client.validateEmail.
  unfold Client.bind, Client.get_dom, Client.get_state, Client.ret,
    Client.classList_add, Client.classList_remove, Client.set_textContent, Client.set_dom.
  cbn [fst snd Client.state Client.dom].
  destruct (truthy (VStr (String_trim (Client.values (Client.dom w) "appUrl"))));
    cbn [negb andb fst snd Client.state Client.dom Client.values];
    [destruct (isValidUrl rt _);
     cbn [negb andb fst snd Client.state Client.dom Client.values]|];
    (destruct ((0 <? _) || (0 <? _) || _);
     cbn [negb andb fst snd Client.state Client.dom Client.values];
     (destruct (truthy (VStr (String_trim (Client.values (Client.dom w) "email"))));
      cbn [negb andb fst snd Client.state Client.dom Client.values];
      [destruct (Regex.test emailRegex _);
       cbn [negb andb fst snd Client.state Client.dom Client.values]|]));
    (split; [|split; reflexivity]);
    cbn [Client.classes Client.update String.eqb Ascii.eqb Bool.eqb];
    first [apply In_add_class | apply not_In_remove_class].
Qed.

(** X19. When [validateForm] rejects the form, [handleSendRequest] returns
    without a request: the run is the same on every network, the state, the
    values of the controls and the button are as before, and the error
    message is visible. *)
Theorem rejected_form_is_not_sent (rt : Runtime) (net : Client.Network)
  (e : Client.Event) (w : Client.World) :
  form_ok rt w = false ->
  let run := Client.handleSendRequest rt net e w in
  (forall net', Client.handleSendRequest rt net' e w = run)
  /\ fst run = Ok tt
  /\ (snd run).(Client.state) = w.(Client.state)
  /\ (snd run).(Client.dom).(Client.values) = w.(Client.dom).(Client.values)
  /\ (snd run).(Client.dom).(Client.disableds) = w.(Client.dom).(Client.disableds)
  /\ ~ hidden (snd run).(Client.dom) "errorMessage".
Proof.
  intros Hok run.
  destruct (validateForm_spec rt w) as (Hfst & Hst & Hval & _).
  destruct (validateForm_message rt w) as (Hmsg & Hdis & _).
  rewrite Hok in Hfst, Hmsg.
  assert (Hrun : forall net', Client.handleSendRequest rt net' e w
                              = (Ok tt, snd (Client.validateForm rt w))).
  { intros net'. unfold Client.handleSendRequest. unfold Client.bind at 1.
    destruct (Client.validateForm rt w) as [r w1]. cbn [fst snd] in *.
    rewrite Hfst. reflexivity. }
  subst run. rewrite (Hrun net). cbn [fst snd].
  repeat split; assumption.
Qed.

(** A run of X19: nothing is selected on the sample form. *)
Lemma rejected_form_is_not_sent_witness :
  form_ok lenient_runtime unselected_world = false
  /\ let run := Client.handleSendRequest lenient_runtime sample_network click
                  unselected_world in
     (forall net', Client.handleSendRequest lenient_runtime net' click unselected_world = run)
     /\ fst run = Ok tt
     /\ (snd run).(Client.state) = unselected_world.(Client.state)
     /\ (snd run).(Client.dom).(Client.values) = unselected_world.(Client.dom).(Client.values)
     /\ (snd run).(Client.dom).(Client.disableds)
        = unselected_world.(Client.dom).(Client.disableds)
     /\ ~ hidden (snd run).(Client.dom) "errorMessage".
Proof.
  split; [vm_compute; reflexivity|].
  apply (rejected_form_is_not_sent lenient_runtime sample_network click unselected_world).
  vm_compute; reflexivity.
Defined.

Lemma bind_run {A B : Type} (m : Client.CM A) (k : A -> Client.CM B)
  (w : Client.World) (a : A) (w1 : Client.World) :
  m w = (Ok a, w1) -> Client.bind m k w = k a w1.
Proof. intros H. unfold Client.bind. now rewrite H. Qed.

(** What [handleSendRequest] leaves behind on a form that [validateForm]
    accepts. *)
Lemma handleSendRequest_sent (rt : Runtime) (net : Client.Network)
  (e : Client.Event) (w : Client.World) :
  form_ok rt w = true ->
  let st := Client.state_from_form w.(Client.dom) w.(Client.state) in
  let run := Client.handleSendRequest rt net e w in
  exists data,
    Client.requestData net st = Ok data
    /\ fst run = Ok tt
    /\ (snd run).(Client.dom).(Client.disableds) "sendRequestBtn" = false
    /\ ~ In "btn-loading" ((snd run).(Client.dom).(Client.classes) "sendRequestBtn")
    /\ if accepted_answer (net.(Client.respond) (Client.post_request net data))
       then (snd run).(Client.state) = Client.initial_state
            /\ hidden (snd run).(Client.dom) "form"
            /\ ~ hidden (snd run).(Client.dom) "successMessage"
            /\ (snd run).(Client.dom).(Client.texts) "confirmEmail" = st.(Client.email)
       else (snd run).(Client.state) = st
            /\ (snd run).(Client.dom).(Client.texts) "errorMessage" = failure_text
            /\ ~ hidden (snd run).(Client.dom) "errorMessage".
Proof.
  intros Hok st run.
  destruct (validateForm_spec rt w) as (Hfst & Hst & Hval & _).
  rewrite Hok in Hfst.
  destruct (Client.validateForm rt w) as [r w1] eqn:Hv. cbn [fst snd] in Hfst, Hst, Hval.
  subst r. subst run. unfold Client.handleSendRequest.
  rewrite (bind_run _ _ _ _ _ Hv). cbn [negb].
  assert (Hsf : Client.state_from_form (Client.dom w1) (Client.state w1) = st).
  { unfold st, Client.state_from_form. rewrite Hval, Hst. reflexivity. }
  destruct (requestData_shape net st) as (pv & Hdata).
  rewrite Hdata.
  match type of Hdata with _ = Ok ?d => set (data := d) in * end.
  exists data. split; [reflexivity|].
  destruct w1 as [s1 [cards classes texts values requireds disableds defaults btnText]].
  cbn [Client.state Client.dom Client.values] in Hsf, Hst, Hval.
  unfold Client.try_catch_finally, accepted_answer, hidden.
  destruct btnText;
    unfold Client.bind, Client.lift, Client.showSuccessMessage, Client.clearForm,
      Client.trackEvent, Client.ret, Client.get_dom, Client.get_state, Client.set_state,
      Client.form_reset, Client.set_disabled, Client.classList_add,
      Client.classList_remove, Client.set_textContent, Client.set_dom;
    cbn [fst snd Client.state Client.dom Client.btnText Client.texts Client.classes
         Client.disableds Client.cards Client.values Client.requireds Client.defaults];
    rewrite Hsf, Hdata;
    (destruct (Client.respond net (Client.post_request net data)) as [response|];
     [destruct (Client.response_json response) as [result|err];
      [destruct (Get result "success") as [success|err];
       [destruct (Client.response_ok response), (truthy success)|]|]|]);
    cbn; rewrite ?andb_false_r; repeat split;
    solve [apply not_In_remove_class | apply In_add_class | reflexivity].
Qed.

(** X20. On a form that [validateForm] accepts, [handleSendRequest] builds
    the request data and returns without throwing, whatever the network
    does; the button ends enabled and without [btn-loading]. When the
    answer arrived, was [ok] and carried a truthy [success], the state is
    the initial one again, the form is hidden and the success message shows
    the trimmed email; in every other case the state holds what was sent
    and the failure text is visible. *)
Theorem accepted_form_is_sent (rt : Runtime) (net : Client.Network)
  (e : Client.Event) (w : Client.World) :
  form_ok rt w = true ->
  let st := Client.state_from_form w.(Client.dom) w.(Client.state) in
  let run := Client.handleSendRequest rt net e w in
  exists data,
    Client.requestData net st = Ok data
    /\ fst run = Ok tt
    /\ (snd run).(Client.dom).(Client.disableds) "sendRequestBtn" = false
    /\ ~ In "btn-loading" ((snd run).(Client.dom).(Client.classes) "sendRequestBtn")
    /\ if accepted_answer (net.(Client.respond) (Client.post_request net data))
       then (snd run).(Client.state) = Client.initial_state
            /\ hidden (snd run).(Client.dom) "form"
            /\ ~ hidden (snd run).(Client.dom) "successMessage"
            /\ (snd run).(Client.dom).(Client.texts) "confirmEmail" = st.(Client.email)
       else (snd run).(Client.state) = st
            /\ (snd run).(Client.dom).(Client.texts) "errorMessage" = failure_text
            /\ ~ hidden (snd run).(Client.dom) "errorMessage".
Proof. exact (handleSendRequest_sent rt net e w). Qed.

(** A run of X20: the sample form, answered by the worker. *)
Lemma accepted_form_is_sent_witness :
  form_ok lenient_runtime sample_world = true
  /\ let st := Client.state_from_form sample_world.(Client.dom)
                 sample_world.(Client.state) in
     let run := Client.handleSendRequest lenient_runtime sample_network click
                  sample_world in
     exists data,
       Client.requestData sample_network st = Ok data
       /\ fst run = Ok tt
       /\ (snd run).(Client.dom).(Client.disableds) "sendRequestBtn" = false
       /\ ~ In "btn-loading" ((snd run).(Client.dom).(Client.classes) "sendRequestBtn")
       /\ if accepted_answer
               (sample_network.(Client.respond) (Client.post_request sample_network data))
          then (snd run).(Client.state) = Client.initial_state
               /\ hidden (snd run).(Client.dom) "form"
               /\ ~ hidden (snd run).(Client.dom) "successMessage"
               /\ (snd run).(Client.dom).(Client.texts) "confirmEmail" = st.(Client.email)
          else (snd run).(Client.state) = st
               /\ (snd run).(Client.dom).(Client.texts) "errorMessage" = failure_text
               /\ ~ hidden (snd run).(Client.dom) "errorMessage".
Proof.
  split; [vm_compute; reflexivity|].
  apply (accepted_form_is_sent lenient_runtime sample_network click sample_world).
  vm_compute; reflexivity.
Defined.

(** The [success] flag of a worker response survives the wire. *)
Lemma wire_success (payload : list (string * value)) (b : bool) :
  own_property "success" payload = Some (VBool b) ->
  exists parsed,
    Client.wire (VObj payload) = Some (VObj parsed)
    /\ own_property "success" parsed = Some (VBool b).
Proof.
  induction payload as [|[k x] rest IH]; cbn [own_property]; [discriminate|].
  destruct (k =? "success")%string eqn:Hk.
  - intros Hx. injection Hx as ->. cbn [Client.wire].
    eexists. split; [reflexivity|]. cbn [own_property]. now rewrite Hk.
  - intros Hrest. destruct (IH Hrest) as (parsed & Hw & Hp).
    cbn [Client.wire] in Hw. injection Hw as Hw.
    cbn [Client.wire]. destruct (Client.wire x) as [y|].
    + eexists. split; [reflexivity|]. cbn [own_property]. rewrite Hk, Hw. exact Hp.
    + eexists. split; [reflexivity|]. rewrite Hw. exact Hp.
Qed.

(** The script takes an answer of the worker's handler for a success
    exactly when its status is 200. *)
Lemma accepted_worker_answer (rt : Runtime) (request : Request) (env : Env)
  (store : Airtable) :
  accepted_answer (Some (fst (handleSubmitRequest rt request env store)))
  = (status (fst (handleSubmitRequest rt request env store)) =? 200).
Proof.
  destruct (handleSubmitRequest_shape rt request env store)
    as (code & payload & Hresp & Hflag & Hcode).
  rewrite Hresp. unfold accepted_answer, Client.response_json, Client.response_ok.
  cbn [json_response body status].
  destruct (wire_success payload _ Hflag) as (parsed & Hw & Hp).
  rewrite Hw. cbn [Get]. rewrite Hp.
  destruct Hcode as [<-|[<-|[<-|[<-|[]]]]]; reflexivity.
Qed.

(** X21. The page against the worker: when the answer to the page's request
    is the worker's [fetch] on some store, a form that [validateForm]
    accepts ends in one of two ways. Either the worker answered 200 and the
    store holds one more record, and then the page is reset and hides the
    form behind the success message; or the worker answered another status
    and the stored records are as before, and then the page keeps what was
    sent and shows the failure text. *)
Theorem page_and_worker_agree (rt rt' : Runtime) (env : Env) (store : Airtable)
  (page_origin now : string) (e : Client.Event) (w : Client.World) :
  form_ok rt w = true ->
  let net := worker_network rt' env store page_origin now in
  let st := Client.state_from_form w.(Client.dom) w.(Client.state) in
  let page := snd (Client.handleSendRequest rt net e w) in
  exists data,
    Client.requestData net st = Ok data
    /\ let served := fetch rt' (Client.post_request net data) env store in
       (status (fst served) = 200
        /\ (exists r, records (snd served) = (records store ++ [r])%list)
        /\ page.(Client.state) = Client.initial_state
        /\ hidden page.(Client.dom) "form"
        /\ ~ hidden page.(Client.dom) "successMessage")
       \/ (status (fst served) <> 200
           /\ records (snd served) = records store
           /\ page.(Client.state) = st
           /\ page.(Client.dom).(Client.texts) "errorMessage" = failure_text
           /\ ~ hidden page.(Client.dom) "errorMessage").
Proof.
  intros Hok net st page.
  destruct (handleSendRequest_sent rt net e w Hok) as (data & Hdata & _ & _ & _ & Hanswer).
  exists data. split; [exact Hdata|]. cbn zeta.
  fold page in Hanswer. fold st in Hanswer.
  assert (Hfetch : fetch rt' (Client.post_request net data) env store
                   = handleSubmitRequest rt' (Client.post_request net data) env store)
    by reflexivity.
  rewrite Hfetch.
  change (Client.respond net (Client.post_request net data))
    with (Some (fst (fetch rt' (Client.post_request net data) env store))) in Hanswer.
  rewrite Hfetch, accepted_worker_answer in Hanswer.
  destruct (handleSubmitRequest_outcome rt' (Client.post_request net data) env store)
    as [Hs Hstore | r Hs Hrec _ | Hs Hrec _].
  - right. apply Z.eqb_neq in Hs as Hs'. rewrite Hs' in Hanswer.
    destruct Hanswer as (H1 & H2 & H3). rewrite Hstore. repeat split; assumption.
  - left. rewrite Hs in Hanswer. cbn in Hanswer.
    destruct Hanswer as (H1 & H2 & H3 & _). repeat split; try assumption.
    exists r. exact Hrec.
  - right. apply Z.eqb_neq in Hs as Hs'. rewrite Hs' in Hanswer.
    destruct Hanswer as (H1 & H2 & H3). repeat split; assumption.
Qed.

(** A run of X21: the sample form against a configured worker with an
    empty store. *)
Lemma page_and_worker_agree_witness :
  form_ok lenient_runtime sample_world = true
  /\ let net := sample_network in
     let st := Client.state_from_form sample_world.(Client.dom)
                 sample_world.(Client.state) in
     let page := snd (Client.handleSendRequest lenient_runtime net click sample_world) in
     exists data,
       Client.requestData net st = Ok data
       /\ let served := fetch lenient_runtime (Client.post_request net data)
                          configured_env empty_store in
          (status (fst served) = 200
           /\ (exists r, records (snd served) = (records empty_store ++ [r])%list)
           /\ page.(Client.state) = Client.initial_state
           /\ hidden page.(Client.dom) "form"
           /\ ~ hidden page.(Client.dom) "successMessage")
          \/ (status (fst served) <> 200
              /\ records (snd served) = records empty_store
              /\ page.(Client.state) = st
              /\ page.(Client.dom).(Client.texts) "errorMessage" = failure_text
              /\ ~ hidden page.(Client.dom) "errorMessage").
Proof.
  split; [vm_compute; reflexivity|].
  apply (page_and_worker_agree lenient_runtime lenient_runtime configured_env empty_store
           "https://finalize.example" "2026-01-01T00:00:00.000Z" click sample_world).
  vm_compute; reflexivity.
Defined.

(* ================================================================== *)
(** ** The live display *)
(* ================================================================== *)

Lemma calculateEstimate_hasCustom (w : Client.World) (est : Client.Estimate) :
  fst (Client.calculateEstimate w) = Ok est ->
  est.(Client.breakdown).(Client.hasCustom) = w.(Client.state).(Client.hasCustomRequest).
Proof.
  unfold Client.calculateEstimate, Client.bind, Client.get_state, Client.get_dom,
    Client.lift, Client.set_state, Client.ret.
  cbn [fst snd Client.state Client.dom].
  destruct (Client.price_items _ _ (Client.selectedFeatures _) _) as [[t fs]|e];
    [|discriminate].
  cbn [fst snd].
  destruct (Client.featureDiscountThreshold Client.pricing <=? _);
    destruct (Client.price_items _ _ (Client.selectedServices _) _) as [[t' ss]|e];
    cbn; intros H; inversion H; reflexivity.
Qed.

(** [updateEstimateSummary] touches the class list of the custom request
    note only, and when it returns the note is hidden exactly when no custom
    request is checked. *)
Lemma updateEstimateSummary_classes (w : Client.World) :
  let run := Client.updateEstimateSummary w in
  (forall el, (el =? "customRequestNote")%string = false ->
     (snd run).(Client.dom).(Client.classes) el = w.(Client.dom).(Client.classes) el)
  /\ (fst run = Ok tt ->
      (hidden (snd run).(Client.dom) "customRequestNote"
       <-> w.(Client.state).(Client.hasCustomRequest) = false)).
Proof.
  cbn zeta. unfold Client.updateEstimateSummary, Client.bind.
  pose proof (calculateEstimate_same_form w) as [_ Hd].
  pose proof (calculateEstimate_hasCustom w) as Hc.
  destruct (Client.calculateEstimate w) as [[est|e] w1]; cbn [fst snd] in *.
  2:{ rewrite Hd. split; [reflexivity|discriminate]. }
  rewrite (Hc est eq_refl).
  unfold hidden, Client.set_textContent, Client.classList_add, Client.classList_remove,
    Client.set_dom.
  destruct (Client.hasCustomRequest (Client.state w));
    cbn [fst snd Client.dom Client.classes Client.update]; rewrite Hd.
  - split.
    + intros el Hel. unfold Client.update. now rewrite Hel.
    + intros _. unfold Client.update. cbn [String.eqb Ascii.eqb Bool.eqb]. split.
      * intros H. now apply not_In_remove_class in H.
      * discriminate.
  - split.
    + intros el Hel. unfold Client.update. now rewrite Hel.
    + intros _. unfold Client.update. cbn [String.eqb Ascii.eqb Bool.eqb]. split.
      * reflexivity.
      * intros _. apply In_add_class.
Qed.

(** X22. After [updateLiveCalculation], whether it returned or threw in the
    estimate, the discount notice is hidden exactly when fewer than three
    features are selected. When it returned, the summary is hidden exactly
    when nothing is selected, and on a selection the custom request note is
    hidden exactly when no custom request is checked. With nothing selected
    it always returns; when it throws, the summary keeps the class list it
    had. *)
Theorem live_display_follows_the_selection (w : Client.World) :
  let st := w.(Client.state) in
  let run := Client.updateLiveCalculation w in
  let page := (snd run).(Client.dom) in
  let nothing_selected :=
    st.(Client.selectedFeatures) = [] /\ st.(Client.selectedServices) = []
    /\ st.(Client.hasCustomRequest) = false in
  (hidden page "featureDiscount" <-> (List.length st.(Client.selectedFeatures) < 3)%nat)
  /\ (fst run = Ok tt -> (hidden page "estimateSummary" <-> nothing_selected))
  /\ (fst run = Ok tt -> ~ nothing_selected ->
      (hidden page "customRequestNote" <-> st.(Client.hasCustomRequest) = false))
  /\ (nothing_selected -> fst run = Ok tt)
  /\ (fst run <> Ok tt ->
      page.(Client.classes) "estimateSummary" = w.(Client.dom).(Client.classes) "estimateSummary").
Proof.
  cbn zeta.
  assert (Hsel :
    (0 <? Z.of_nat (List.length (Client.selectedFeatures (Client.state w))))
    || (0 <? Z.of_nat (List.length (Client.selectedServices (Client.state w))))
    || Client.hasCustomRequest (Client.state w) = false
    <-> Client.selectedFeatures (Client.state w) = []
        /\ Client.selectedServices (Client.state w) = []
        /\ Client.hasCustomRequest (Client.state w) = false).
  { destruct (Client.selectedFeatures (Client.state w)),
      (Client.selectedServices (Client.state w)),
      (Client.hasCustomRequest (Client.state w)); cbn;
      split; try discriminate; try (intros (H1 & H2 & H3); discriminate); auto. }
  assert (Hthr :
    (Client.featureDiscountThreshold Client.pricing
       <=? Z.of_nat (List.length (Client.selectedFeatures (Client.state w)))) = false
    <-> (List.length (Client.selectedFeatures (Client.state w)) < 3)%nat).
  { change (Client.featureDiscountThreshold Client.pricing) with 3.
    rewrite Z.leb_gt. lia. }
  unfold Client.updateLiveCalculation, Client.bind, Client.get_state.
  cbn [fst snd Client.state].
  rewrite <- Hsel, <- Hthr. clear Hsel Hthr.
  set (w1 := snd ((if Client.featureDiscountThreshold Client.pricing
                      <=? Z.of_nat (List.length (Client.selectedFeatures (Client.state w)))
                   then Client.classList_remove "featureDiscount" "d-none"
                   else Client.classList_add "featureDiscount" "d-none") w)).
  assert (Hw1 :
    (if Client.featureDiscountThreshold Client.pricing
        <=? Z.of_nat (List.length (Client.selectedFeatures (Client.state w)))
     then Client.classList_remove "featureDiscount" "d-none"
     else Client.classList_add "featureDiscount" "d-none") w = (Ok tt, w1)).
  { unfold w1. destruct (_ <=? _); reflexivity. }
  rewrite Hw1.
  assert (Hst1 : Client.state w1 = Client.state w).
  { unfold w1. destruct (_ <=? _); reflexivity. }
  assert (Hnotice :
    In "d-none" (Client.classes (Client.dom w1) "featureDiscount")
    <-> (Client.featureDiscountThreshold Client.pricing
           <=? Z.of_nat (List.length (Client.selectedFeatures (Client.state w)))) = false).
  { unfold w1. destruct (_ <=? _); cbn; split; try discriminate; try reflexivity.
    - intros H. now apply not_In_remove_class in H.
    - intros _. apply In_add_class. }
  assert (Hsummary :
    Client.classes (Client.dom w1) "estimateSummary"
    = Client.classes (Client.dom w) "estimateSummary").
  { unfold w1. destruct (_ <=? _); reflexivity. }
  clearbody w1. clear Hw1.
  destruct ((0 <? _) || (0 <? _) || _) eqn:Hany.
  - pose proof (updateEstimateSummary_classes w1) as [Hother Hnote].
    destruct (Client.updateEstimateSummary w1) as [[[]|err] w2]; cbn [fst snd] in *.
    + unfold hidden, Client.classList_remove, Client.set_dom.
      cbn [fst snd Client.dom Client.classes Client.update String.eqb Ascii.eqb Bool.eqb].
      rewrite (Hother "featureDiscount" eq_refl), Hst1 in *.
      split; [exact Hnotice|]. split; [|split; [|split]].
      * intros _. split; [|discriminate].
        intros H. now apply not_In_remove_class in H.
      * intros _ _. unfold hidden in Hnote. exact (Hnote eq_refl).
      * discriminate.
      * intros H. now contradiction H.
    + unfold hidden. rewrite (Hother "featureDiscount" eq_refl).
      split; [exact Hnotice|]. split; [discriminate|]. split; [discriminate|].
      split; [discriminate|]. intros _.
      rewrite (Hother "estimateSummary" eq_refl). exact Hsummary.
  - unfold hidden, Client.classList_add, Client.set_dom.
    cbn [fst snd Client.dom Client.classes Client.update String.eqb Ascii.eqb Bool.eqb].
    split; [exact Hnotice|]. split; [|split; [|split]].
    + intros _. split; [reflexivity|]. intros _. apply In_add_class.
    + intros _ H. now contradiction H.
    + reflexivity.
    + intros H. now contradiction H.
Qed.

(** The live display can throw: a selected item without a card. *)
Example live_display_throws_without_card :
  fst (Client.updateLiveCalculation
         {| Client.state :=
              Client.state_from_form sample_page
                {| Client.selectedFeatures := [ sample_item "ghost" "Ghost" ];
                   Client.selectedServices := [];
                   Client.hasCustomRequest := false;
                   Client.customRequestText := EmptyString;
                   Client.appUrl := EmptyString; Client.platform := EmptyString;
                   Client.otherPlatform := EmptyString; Client.email := EmptyString;
                   Client.additionalContext := EmptyString;
                   Client.totalPrice := Fin 0; Client.featureDiscount := Fin 0 |};
            Client.dom := sample_page |})
  <> Ok tt.
Proof. vm_compute. discriminate. Qed.

Lemma calculateEstimate_dom (w : Client.World) :
  (snd (Client.calculateEstimate w)).(Client.dom) = w.(Client.dom).
Proof. apply calculateEstimate_same_form. Qed.

(** [updateLiveCalculation] writes three class lists and one text; the
    values and the [required] flags of the controls, and every other class
    list, are as before. *)
Lemma updateLiveCalculation_frame (w : Client.World) :
  let page := (snd (Client.updateLiveCalculation w)).(Client.dom) in
  page.(Client.values) = w.(Client.dom).(Client.values)
  /\ page.(Client.requireds) = w.(Client.dom).(Client.requireds)
  /\ forall el,
       (el =? "featureDiscount")%string = false ->
       (el =? "estimateSummary")%string = false ->
       (el =? "customRequestNote")%string = false ->
       page.(Client.classes) el = w.(Client.dom).(Client.classes) el.
Proof.
  cbn zeta.
  assert (Hsum : forall w1,
    let page := (snd (Client.updateEstimateSummary w1)).(Client.dom) in
    page.(Client.values) = w1.(Client.dom).(Client.values)
    /\ page.(Client.requireds) = w1.(Client.dom).(Client.requireds)).
  { intros w1. cbn zeta. unfold Client.updateEstimateSummary, Client.bind.
    pose proof (calculateEstimate_dom w1) as Hd.
    destruct (Client.calculateEstimate w1) as [[est|e] w2]; cbn [fst snd] in *.
    - unfold Client.set_textContent, Client.classList_add, Client.classList_remove,
        Client.set_dom.
      destruct (Client.hasCustom _); cbn; rewrite Hd; split; reflexivity.
    - rewrite Hd. split; reflexivity. }
  unfold Client.updateLiveCalculation, Client.bind, Client.get_state.
  cbn [fst snd Client.state].
  set (w1 := snd ((if Client.featureDiscountThreshold Client.pricing
                      <=? Z.of_nat (List.length (Client.selectedFeatures (Client.state w)))
                   then Client.classList_remove "featureDiscount" "d-none"
                   else Client.classList_add "featureDiscount" "d-none") w)).
  assert (Hw1 :
    (if Client.featureDiscountThreshold Client.pricing
        <=? Z.of_nat (List.length (Client.selectedFeatures (Client.state w)))
     then Client.classList_remove "featureDiscount" "d-none"
     else Client.classList_add "featureDiscount" "d-none") w = (Ok tt, w1)).
  { unfold w1. destruct (_ <=? _); reflexivity. }
  rewrite Hw1.
  assert (Hframe :
    Client.values (Client.dom w1) = Client.values (Client.dom w)
    /\ Client.requireds (Client.dom w1) = Client.requireds (Client.dom w)
    /\ forall el, (el =? "featureDiscount")%string = false ->
         Client.classes (Client.dom w1) el = Client.classes (Client.dom w) el).
  { unfold w1. destruct (_ <=? _); cbn; repeat split;
      intros el Hel; unfold Client.update; now rewrite Hel. }
  destruct Hframe as (Hv & Hr & Hc).
  clearbody w1. clear Hw1.
  destruct ((0 <? _) || (0 <? _) || _).
  - pose proof (updateEstimateSummary_classes w1) as [Hother _].
    destruct (Hsum w1) as [Hv2 Hr2].
    destruct (Client.updateEstimateSummary w1) as [[[]|err] w2]; cbn [fst snd] in *.
    + unfold Client.classList_remove, Client.set_dom.
      cbn [fst snd Client.dom Client.classes Client.values Client.requireds].
      rewrite Hv2, Hr2, Hv, Hr. repeat split.
      intros el H1 H2 H3. unfold Client.update. rewrite H2.
      rewrite (Hother el H3). apply Hc, H1.
    + rewrite Hv2, Hr2, Hv, Hr. repeat split.
      intros el H1 H2 H3. rewrite (Hother el H3). apply Hc, H1.
  - unfold Client.classList_add, Client.set_dom.
    cbn [fst snd Client.dom Client.classes Client.values Client.requireds].
    rewrite Hv, Hr. repeat split.
    intros el H1 H2 H3. unfold Client.update. rewrite H2. apply Hc, H1.
Qed.

(** X23. After [handleCustomRequestToggle], whether the live display
    returned or threw: the state holds the checkbox, the field for the
    description is hidden exactly when the box is unchecked, unchecking
    empties the description in the state and in its control, and checking
    keeps the description the state had. Features, services and the other
    fields of the form are as before. *)
Theorem custom_request_follows_the_checkbox (e : Client.Event) (w : Client.World) :
  let w' := snd (Client.handleCustomRequestToggle e w) in
  let st := w.(Client.state) in
  let st' := w'.(Client.state) in
  st'.(Client.hasCustomRequest) = e.(Client.target_checked)
  /\ (hidden w'.(Client.dom) "customRequestContainer" <-> e.(Client.target_checked) = false)
  /\ st'.(Client.customRequestText)
     = (if e.(Client.target_checked) then st.(Client.customRequestText) else EmptyString)
  /\ (e.(Client.target_checked) = false ->
      w'.(Client.dom).(Client.values) "customRequest" = EmptyString)
  /\ st'.(Client.selectedFeatures) = st.(Client.selectedFeatures)
  /\ st'.(Client.selectedServices) = st.(Client.selectedServices)
  /\ st'.(Client.platform) = st.(Client.platform)
  /\ st'.(Client.otherPlatform) = st.(Client.otherPlatform).
Proof.
  cbn zeta. unfold Client.handleCustomRequestToggle.
  erewrite bind_run by reflexivity.
  match goal with
  | |- context [Client.bind (if Client.target_checked e then ?a else ?b) _ ?x] =>
      set (w1 := snd ((if Client.target_checked e then a else b) x));
      assert (Hw1 : (if Client.target_checked e then a else b) x = (Ok tt, w1))
        by (unfold w1; destruct (Client.target_checked e); reflexivity);
      assert (Hfacts :
        Client.hasCustomRequest (Client.state w1) = Client.target_checked e
        /\ (In "d-none" (Client.classes (Client.dom w1) "customRequestContainer")
            <-> Client.target_checked e = false)
        /\ Client.customRequestText (Client.state w1)
           = (if Client.target_checked e then Client.customRequestText (Client.state w)
              else EmptyString)
        /\ (Client.target_checked e = false ->
            Client.values (Client.dom w1) "customRequest" = EmptyString)
        /\ Client.selectedFeatures (Client.state w1) = Client.selectedFeatures (Client.state w)
        /\ Client.selectedServices (Client.state w1) = Client.selectedServices (Client.state w)
        /\ Client.platform (Client.state w1) = Client.platform (Client.state w)
        /\ Client.otherPlatform (Client.state w1) = Client.otherPlatform (Client.state w))
  end.
  { unfold w1. destruct (Client.target_checked e); cbn; repeat split;
      try discriminate; try reflexivity.
    - intros H. now apply not_In_remove_class in H.
    - intros _. apply In_add_class. }
  rewrite (bind_run _ _ _ _ _ Hw1). clearbody w1. clear Hw1.
  destruct Hfacts as (H1 & H2 & H3 & H4 & H5 & H6 & H7 & H8).
  destruct (updateLiveCalculation_same_form w1) as (S1 & S2 & S3 & S4 & _ & S6 & S7 & _).
  destruct (updateLiveCalculation_frame w1) as (F1 & _ & F3).
  unfold hidden.
  rewrite S1, S2, S3, S4, S6, S7, F1, (F3 "customRequestContainer" eq_refl eq_refl eq_refl).
  repeat split; try assumption; apply H2.
Qed.

(** X24. After [handlePlatformChange] the state holds the chosen platform;
    the field for another platform is visible and required exactly when the
    choice is [other], and every other choice empties that field in the
    state and in its control. The handler always returns. *)
Theorem other_platform_follows_the_choice (e : Client.Event) (w : Client.World) :
  let run := Client.handlePlatformChange e w in
  let w' := snd run in
  let other := (e.(Client.target_value) =? "other")%string in
  fst run = Ok tt
  /\ w'.(Client.state).(Client.platform) = e.(Client.target_value)
  /\ (hidden w'.(Client.dom) "otherPlatformContainer" <-> other = false)
  /\ w'.(Client.dom).(Client.requireds) "otherPlatform" = other
  /\ w'.(Client.state).(Client.otherPlatform)
     = (if other then w.(Client.state).(Client.otherPlatform) else EmptyString)
  /\ (other = false -> w'.(Client.dom).(Client.values) "otherPlatform" = EmptyString)
  /\ w'.(Client.state).(Client.selectedFeatures) = w.(Client.state).(Client.selectedFeatures)
  /\ w'.(Client.state).(Client.selectedServices) = w.(Client.state).(Client.selectedServices)
  /\ w'.(Client.state).(Client.hasCustomRequest) = w.(Client.state).(Client.hasCustomRequest).
Proof.
  cbn zeta. unfold Client.handlePlatformChange, hidden.
  destruct (Client.target_value e =? "other")%string; cbn; repeat split;
    try discriminate; try reflexivity.
  - intros H. now apply not_In_remove_class in H.
  - intros _. apply In_add_class.
Qed.
